(** * stride-ai: the aggregation and derived-metrics engine

    A shallow embedding of the pure computations behind the dashboard views
    ([SeasonStats], [InteractiveRunningChart], [BibBook], [PerformanceLab],
    [TrainingSummaryChart]) together with the properties their
    specification states.

    Conventions of the embedding.
    - In the aggregations a finite JavaScript number is a rational [Q]:
      arithmetic is exact, so statements are about the computation the
      source writes down, not about binary64 rounding.  Values that can
      leave the finite numbers are made explicit: [JS.number] adds the
      infinities and [NaN] (division, [parseInt], [Number]), an [option]
      stands for [number | null] (pace fields).
    - Where a statement is about the place of a threshold itself (the trail
      classifier, the bands of the race distances), the numbers are the
      doubles of the engine: module [Binary64] embeds the same source over
      the kernel's [float], the binary64 format with the processor's
      operations.
    - An optional JSON field is an [option]; [None] is [undefined]/[null].
    - A [Date] is its [getTime()] value: milliseconds on a time line whose
      days all have 86400000 ms (local time without daylight-saving jumps).
    - A function that can throw ([undefined.split(...)]) returns an
      [outcome]: [Returns v] or [Throws]. *)

From Stdlib Require Import QArith Qround Qabs ZArith List String Ascii Lia Lqa Bool.
From Stdlib Require Import Sorting.Sorted Sorting.Permutation DecimalString.
From Stdlib Require Floats.
From stdpp Require Import gmap strings.

Import ListNotations.
Local Open Scope Q_scope.

(** ** JavaScript values *)

Module JS.

(** [x < y] and [x > y] on finite numbers. *)
Definition ltb (x y : Q) : bool := negb (Qle_bool y x).
Definition gtb (x y : Q) : bool := ltb y x.

(** Truthiness of a finite number: every number but 0. *)
Definition truthy (x : Q) : bool := negb (Qeq_bool x 0).

(** Truthiness of an optional numeric field: present and not 0. *)
Definition truthyField (x : option Q) : bool :=
  match x with Some q => truthy q | None => false end.

(** [x || 0] on an optional numeric field. *)
Definition orZero (x : option Q) : Q :=
  match x with Some q => if truthy q then q else 0 | None => 0 end.

(** [Math.abs]. *)
Definition abs (x : Q) : Q := Qabs x.

(** [Math.round]: the nearest integer, halves towards plus infinity. *)
Definition round (x : Q) : Z := Qfloor (x + (1 # 2)).

(** [Math.round(x * 10) / 10]. *)
Definition round1 (x : Q) : Q := inject_Z (round (x * 10)) / 10.

(** The numbers a division can produce. *)
Inductive number : Type :=
| Fin (q : Q)
| PInf
| NInf
| NaN.

(** [x / y] on finite numbers, with IEEE results for a zero divisor. *)
Definition div (x y : Q) : number :=
  if Qeq_bool y 0 then
    if ltb 0 x then PInf else if ltb x 0 then NInf else NaN
  else Fin (x / y).

Definition isFinite (n : number) : bool :=
  match n with Fin _ => true | _ => false end.

(** Truthiness of a number: not 0 and not [NaN]. *)
Definition truthyNumber (n : number) : bool :=
  match n with
  | Fin q => truthy q
  | PInf | NInf => true
  | NaN => false
  end.

(** [Math.round(n * 10) / 10] on a number. *)
Definition round1N (n : number) : number :=
  match n with Fin q => Fin (round1 q) | _ => n end.

(** [a.reduce((sum, x) => sum + f(x), 0)]. *)
Definition sumBy {A : Type} (f : A -> Q) (l : list A) : Q :=
  fold_left (fun sum x => sum + f x) l 0.

(** *** Strings *)

(** [s.includes(sub)]. *)
Fixpoint includes (sub s : string) : bool :=
  String.prefix sub s ||
  match s with
  | EmptyString => false
  | String _ s' => includes sub s'
  end.

(** [s.split(c)] for a one-character separator: never empty. *)
Fixpoint split (c : ascii) (s : string) : list string :=
  match s with
  | EmptyString => [EmptyString]
  | String a s' =>
      if Ascii.eqb a c then EmptyString :: split c s'
      else match split c s' with
           | [] => [String a EmptyString]
           | p :: ps => String a p :: ps
           end
  end.

(** Truthiness of an optional string: present and not empty. *)
Definition truthyStr (s : option string) : bool :=
  match s with
  | Some EmptyString | None => false
  | Some _ => true
  end.

Definition lowerChar (a : ascii) : ascii :=
  let n := nat_of_ascii a in
  if (Nat.leb 65 n && Nat.leb n 90)%bool then ascii_of_nat (n + 32) else a.

(** [s.toLowerCase()] on ASCII text. *)
Fixpoint toLowerCase (s : string) : string :=
  match s with
  | EmptyString => EmptyString
  | String a s' => String (lowerChar a) (toLowerCase s')
  end.

(** White space skipped by [parseInt]: TAB, LF, VT, FF, CR, SP. *)
Definition isSpace (a : ascii) : bool :=
  let n := nat_of_ascii a in
  ((Nat.leb 9 n && Nat.leb n 13) || Nat.eqb n 32)%bool.

Fixpoint trimStart (s : string) : string :=
  match s with
  | String a s' => if isSpace a then trimStart s' else s
  | EmptyString => EmptyString
  end.

(** The value of a digit in the given radix (10 or 16). *)
Definition digitVal (radix : Z) (a : ascii) : option Z :=
  let n := Z.of_nat (nat_of_ascii a) in
  let v :=
    if ((48 <=? n) && (n <=? 57))%Z then Some (n - 48)%Z
    else if ((97 <=? n) && (n <=? 102))%Z then Some (n - 87)%Z
    else if ((65 <=? n) && (n <=? 70))%Z then Some (n - 55)%Z
    else None in
  match v with
  | Some d => if (d <? radix)%Z then Some d else None
  | None => None
  end.

(** The longest prefix of digits, accumulated from the left; [None] when
    no digit has been read. *)
Fixpoint digits (radix : Z) (acc : option Z) (s : string) : option Z :=
  match s with
  | EmptyString => acc
  | String a s' =>
      match digitVal radix a with
      | Some d =>
          digits radix
            (Some (match acc with Some v => v * radix + d | None => d end)%Z)
            s'
      | None => acc
      end
  end.

(** Arithmetic and comparison on [number], as IEEE has them (the sign of
    a zero is not kept). *)
Definition add (x y : number) : number :=
  match x, y with
  | NaN, _ | _, NaN => NaN
  | PInf, NInf | NInf, PInf => NaN
  | PInf, _ | _, PInf => PInf
  | NInf, _ | _, NInf => NInf
  | Fin a, Fin b => Fin (a + b)
  end.

Definition sign (x : number) : comparison :=
  match x with
  | Fin a => a ?= 0
  | PInf => Gt
  | NInf => Lt
  | NaN => Eq
  end.

Definition mul (x y : number) : number :=
  match x, y with
  | NaN, _ | _, NaN => NaN
  | Fin a, Fin b => Fin (a * b)
  | _, _ =>
      match sign x, sign y with
      | Eq, _ | _, Eq => NaN
      | Gt, Gt | Lt, Lt => PInf
      | _, _ => NInf
      end
  end.

(** [x < y]: false as soon as one side is [NaN]. *)
Definition lt (x y : number) : bool :=
  match x, y with
  | NaN, _ | _, NaN => false
  | Fin a, Fin b => ltb a b
  | NInf, NInf | PInf, _ | _, NInf => false
  | _, _ => true
  end.

(** [x > 0]. *)
Definition gt0 (x : number) : bool := lt (Fin 0) x.

(** [x <= y]: false as soon as one side is [NaN]. *)
Definition le (x y : number) : bool :=
  match x, y with
  | NaN, _ | _, NaN => false
  | Fin a, Fin b => Qle_bool a b
  | NInf, _ | _, PInf => true
  | _, _ => false
  end.

(** [Math.min(x, y)] and [Math.min(x, ...rest)]. *)
Definition min2 (x y : number) : number :=
  match x, y with
  | NaN, _ | _, NaN => NaN
  | _, _ => if lt y x then y else x
  end.

Definition min (x : number) (rest : list number) : number :=
  fold_left min2 rest x.

Definition ofZ (v : Z) : number := Fin (inject_Z v).

(** [parseInt(s)] without a radix: leading white space, an optional sign,
    an optional [0x]/[0X] prefix, then the longest run of digits; [NaN]
    without a digit. *)
Definition parseInt (s : string) : number :=
  let s1 := trimStart s in
  let '(neg, s2) :=
    match s1 with
    | String "-" r => (true, r)
    | String "+" r => (false, r)
    | _ => (false, s1)
    end in
  let '(radix, s3) :=
    match s2 with
    | String "0" (String "x" r) | String "0" (String "X" r) => (16%Z, r)
    | _ => (10%Z, s2)
    end in
  match digits radix None s3 with
  | Some v => ofZ (if neg then (- v)%Z else v)
  | None => NaN
  end.

(** Trailing white space, for [Number]. *)
Fixpoint trimEnd (s : string) : string :=
  match s with
  | EmptyString => EmptyString
  | String a s' =>
      match trimEnd s' with
      | EmptyString => if isSpace a then EmptyString else String a EmptyString
      | t => String a t
      end
  end.

(** The longest prefix of digits of [s]: its value on top of [v], the
    number of digits read on top of [n], and the text left. *)
Fixpoint readDigits (radix : Z) (s : string) (v : Z) (n : nat)
  : Z * nat * string :=
  match s with
  | String a s' =>
      match digitVal radix a with
      | Some d => readDigits radix s' (v * radix + d)%Z (S n)
      | None => (v, n, s)
      end
  | EmptyString => (v, n, EmptyString)
  end.

Definition stripSign (s : string) : bool * string :=
  match s with
  | String "-" r => (true, r)
  | String "+" r => (false, r)
  | _ => (false, s)
  end.

(** A whole string of digits in the given radix, [NaN] otherwise. *)
Definition wholeDigits (radix : Z) (s : string) : number :=
  match readDigits radix s 0 0 with
  | (v, S _, EmptyString) => ofZ v
  | _ => NaN
  end.

Definition signed (neg : bool) (q : Q) : Q := if neg then - q else q.

(** A decimal literal: digits with an optional fraction and exponent, or
    [Infinity], with an optional sign; the whole text must be used. *)
Definition decimalLiteral (s : string) : number :=
  let '(neg, u) := stripSign s in
  if String.eqb u "Infinity" then (if neg then NInf else PInf)
  else
    let '(ip, n1, r1) := readDigits 10 u 0 0 in
    let '(fp, n2, r2) :=
      match r1 with
      | String "." r => readDigits 10 r 0 0
      | _ => (0%Z, 0%nat, r1)
      end in
    if Nat.eqb (n1 + n2) 0 then NaN
    else
      let mant := inject_Z ip + inject_Z fp / (10 ^ Z.of_nat n2) in
      match r2 with
      | EmptyString => Fin (signed neg mant)
      | String "e" r | String "E" r =>
          let '(eneg, r') := stripSign r in
          match readDigits 10 r' 0 0 with
          | (ev, S _, EmptyString) =>
              Fin (signed neg mant * 10 ^ (if eneg then - ev else ev)%Z)
          | _ => NaN
          end
      | _ => NaN
      end.

(** [Number(s)] on a string: white space around the literal is dropped,
    the empty string is 0, [0x]/[0o]/[0b] integers and decimal literals are
    read, everything else is [NaN]. *)
Definition Number (s : string) : number :=
  match trimEnd (trimStart s) with
  | EmptyString => Fin 0
  | String "0" (String "x" r) | String "0" (String "X" r) => wholeDigits 16 r
  | String "0" (String "o" r) | String "0" (String "O" r) => wholeDigits 8 r
  | String "0" (String "b" r) | String "0" (String "B" r) => wholeDigits 2 r
  | t => decimalLiteral t
  end.

End JS.

(** ** Dates: the [Date] object and the date-fns functions the views use

    date-fns is a dependency of the repository; its functions are modelled
    by their documented behaviour.  Every interval the views build has
    [start <= end], where the versions of date-fns agree. *)

Module DateFns.
Local Open Scope Z_scope.

Definition msPerDay : Z := 86400000.

(** A number of days in milliseconds. *)
Definition days (n : Z) : Z := n * msPerDay.

(** The day number of a time (day 0 is 1 January 1970), and the time's
    [startOfDay] and [endOfDay]. *)
Definition dayOf (t : Z) : Z := t / msPerDay.
Definition startOfDay (t : Z) : Z := days (dayOf t).
Definition endOfDay (t : Z) : Z := startOfDay t + msPerDay - 1.

(** [getDay()]: 0 for Sunday to 6 for Saturday; day 0 is a Thursday. *)
Definition getDay (t : Z) : Z := (dayOf t + 4) mod 7.

Definition startOfWeek (weekStartsOn t : Z) : Z :=
  let day := getDay t in
  let diff := (if day <? weekStartsOn then 7 else 0) + day - weekStartsOn in
  startOfDay t - days diff.

Definition endOfWeek (weekStartsOn t : Z) : Z :=
  let day := getDay t in
  let diff := (if day <? weekStartsOn then -7 else 0) + 6 - (day - weekStartsOn) in
  startOfDay t + days diff + msPerDay - 1.

Definition subWeeks (t amount : Z) : Z := t - days (amount * 7).

(** [isWithinInterval(date, { start, end })]; an Invalid Date is in no
    interval. *)
Definition isWithinInterval (date : option Z) (start finish : Z) : bool :=
  match date with
  | Some t => (start <=? t) && (t <=? finish)
  | None => false
  end.

Definition isSameDay (dateLeft : option Z) (dateRight : Z) : bool :=
  match dateLeft with
  | Some t => startOfDay t =? startOfDay dateRight
  | None => false
  end.

(** [eachWeekOfInterval({ start, end })], weeks starting on Sunday: the
    start of every week from the week of [start] to the week of [end]. *)
Definition eachWeekOfInterval (start finish : Z) : list Z :=
  let startDateWeek := startOfWeek 0 start in
  let endDateWeek := startOfWeek 0 finish in
  map (fun k => startDateWeek + days (7 * Z.of_nat k))
      (seq 0 (Z.to_nat ((endDateWeek - startDateWeek) / days 7 + 1))).

(** [eachDayOfInterval({ start, end })]: the start of every day from the
    day of [start] while it is not after [end]. *)
Definition eachDayOfInterval (start finish : Z) : list Z :=
  let startDate := startOfDay start in
  map (fun k => startDate + days (Z.of_nat k))
      (seq 0 (Z.to_nat ((finish - startDate) / msPerDay + 1))).

(** *** The calendar of [Date] (ECMAScript [MakeDay] and its inverse) *)

Definition DayFromYear (y : Z) : Z :=
  365 * (y - 1970) + (y - 1969) / 4 - (y - 1901) / 100 + (y - 1601) / 400.

Definition InLeapYear (y : Z) : bool :=
  (y mod 4 =? 0) && (negb (y mod 100 =? 0) || (y mod 400 =? 0)).

(** Days of the year before the month of index [m] (0 for January). *)
Definition daysBeforeMonth (leap : bool) (m : Z) : Z :=
  let l := if leap then 1 else 0 in
  match m with
  | 0 => 0
  | 1 => 31
  | 2 => 59 + l
  | 3 => 90 + l
  | 4 => 120 + l
  | 5 => 151 + l
  | 6 => 181 + l
  | 7 => 212 + l
  | 8 => 243 + l
  | 9 => 273 + l
  | 10 => 304 + l
  | _ => 334 + l
  end.

Definition MakeDay (year month date : Z) : Z :=
  let ym := year + month / 12 in
  let mn := month mod 12 in
  DayFromYear ym + daysBeforeMonth (InLeapYear ym) mn + date - 1.

(** [new Date(year, monthIndex, day)]: midnight of that day; a year from 0
    to 99 counts from 1900. *)
Definition newDate (year monthIndex day : Z) : Z :=
  let y := if (0 <=? year) && (year <=? 99) then 1900 + year else year in
  days (MakeDay y monthIndex day).

(** The civil year and month index of a day number. *)
Definition civil (z : Z) : Z * Z :=
  let z := z + 719468 in
  let era := z / 146097 in
  let doe := z - era * 146097 in
  let yoe := (doe - doe / 1460 + doe / 36524 - doe / 146096) / 365 in
  let y := yoe + era * 400 in
  let doy := doe - (365 * yoe + yoe / 4 - yoe / 100) in
  let mp := (5 * doy + 2) / 153 in
  let m := if mp <? 10 then mp + 3 else mp - 9 in
  (if m <=? 2 then y + 1 else y, m - 1).

Definition getFullYear (t : Z) : Z := fst (civil (dayOf t)).
Definition getMonth (t : Z) : Z := snd (civil (dayOf t)).

Definition startOfYear (t : Z) : Z := newDate (getFullYear t) 0 1.
Definition endOfYear (t : Z) : Z :=
  newDate (getFullYear t + 1) 0 0 + msPerDay - 1.
Definition startOfMonth (t : Z) : Z := newDate (getFullYear t) (getMonth t) 1.
Definition endOfMonth (t : Z) : Z :=
  newDate (getFullYear t) (getMonth t + 1) 0 + msPerDay - 1.

(** [format(date, 'MMM')] by month index. *)
Definition monthName (m : Z) : string :=
  match m with
  | 0 => "Jan" | 1 => "Feb" | 2 => "Mar" | 3 => "Apr" | 4 => "May"
  | 5 => "Jun" | 6 => "Jul" | 7 => "Aug" | 8 => "Sep" | 9 => "Oct"
  | 10 => "Nov" | _ => "Dec"
  end%string.

(** A natural number in decimal, for template strings. *)
Definition showNat (n : nat) : string :=
  NilEmpty.string_of_uint (Nat.to_uint n).

End DateFns.

(** ** Activities and the terrain classifier
  ([SeasonStats.tsx] and [InteractiveRunningChart] share these helpers
  verbatim) *)

Module Activities.

(** One row of [activities_mapped.json].  [Activity_Date] is the row's
    date after [parse(..., 'MMM dd, yyyy, h:mm:ss a', new Date())], [None]
    for an Invalid Date; [Distance] is [parseFloat] of the miles string,
    [None] when that is [NaN]. *)
Record Activity : Type := {
  Activity_Name : option string;
  Activity_Type : option string;
  Activity_Date : option Z;
  Distance_1 : option Q;
  Distance : option Q;
  Moving_Time : option Q;
  Dirt_Distance : option Q;
  Elevation_Gain : option Q
}.

Definition isRunningActivity (activityType : option string) : bool :=
  if negb (JS.truthyStr activityType) then false
  else match activityType with
       | Some t =>
           let type := JS.toLowerCase t in
           JS.includes "run" type && negb (JS.includes "walk" type)
           && negb (JS.includes "hike" type)
       | None => false
       end.

(** [activity['Distance.1'] ? activity['Distance.1'] / 1609.34 : ...]:
    the activity's distance in miles.  In [isTrailRun] the fallback is
    [parseFloat(activity.Distance || 0)], in the normalising [map] it is
    [parseFloat(act.Distance) || 0]; a [NaN] left by the former only
    meets [totalDistance > 0], which is false as for 0. *)
Definition distanceMiles (act : Activity) : Q :=
  if JS.truthyField (Distance_1 act)
  then JS.orZero (Distance_1 act) / 1609.34
  else JS.orZero (Distance act).

Definition isTrailRun (activity : Activity) : bool :=
  let dirtDistance := JS.orZero (Dirt_Distance activity) in
  let elevationGain := JS.orZero (Elevation_Gain activity) in
  let totalDistance := distanceMiles activity in
  let elevationPerMile :=
    if JS.gtb totalDistance 0 then elevationGain / totalDistance else 0 in
  let dirtPercentage :=
    if JS.gtb totalDistance 0
    then (dirtDistance / 1609.34) / totalDistance * 100 else 0 in
  JS.gtb elevationPerMile 50 || JS.gtb dirtPercentage 50.

(** The activity after the normalising [map] of every aggregation. *)
Record Run : Type := {
  raw : Activity;
  date : option Z;
  distance : Q;
  hours : Q;
  isTrail : bool
}.

Definition normalize (act : Activity) : Run :=
  {| raw := act;
     date := Activity_Date act;
     distance := distanceMiles act;
     hours := JS.orZero (Moving_Time act) / 3600;
     isTrail := isTrailRun act |}.

End Activities.

(** ** Exceptions *)

Inductive outcome (A : Type) : Type :=
| Returns (a : A)
| Throws.
Arguments Returns {A} a.
Arguments Throws {A}.

Definition bind {A B : Type} (m : outcome A) (k : A -> outcome B) : outcome B :=
  match m with
  | Returns a => k a
  | Throws => Throws
  end.

Notation "'letM' x ':=' m 'in' k" := (bind m (fun x => k))
  (at level 10, x name, m at level 100, k at level 200,
   format "'[v' 'letM'  x  ':='  m  'in' '/' k ']'").

(** [l.forEach(x => ...)] updating the loop's variables [s]. *)
Fixpoint forEach {A S : Type} (body : S -> A -> outcome S) (l : list A) (s : S)
  : outcome S :=
  match l with
  | [] => Returns s
  | x :: l' => letM s' := body s x in forEach body l' s'
  end.

(** [l.filter(x => ...)] and [l.map(x => ...)] with a callback that can
    throw. *)
Fixpoint filterM {A : Type} (p : A -> outcome bool) (l : list A)
  : outcome (list A) :=
  match l with
  | [] => Returns []
  | x :: l' =>
      letM keep := p x in
      letM rest := filterM p l' in
      Returns (if keep then x :: rest else rest)
  end.

Fixpoint mapM {A B : Type} (f : A -> outcome B) (l : list A)
  : outcome (list B) :=
  match l with
  | [] => Returns []
  | x :: l' =>
      letM y := f x in
      letM rest := mapM f l' in
      Returns (y :: rest)
  end.

(** [l.map((x, index) => ...)]. *)
Fixpoint mapiFrom {A B : Type} (f : A -> nat -> B) (l : list A) (i : nat)
  : list B :=
  match l with
  | [] => []
  | x :: l' => f x i :: mapiFrom f l' (S i)
  end.

Definition mapi {A B : Type} (f : A -> nat -> B) (l : list A) : list B :=
  mapiFrom f l 0.

(** The same with a callback that can throw. *)
Fixpoint mapiMFrom {A B : Type} (f : A -> nat -> outcome B) (l : list A) (i : nat)
  : outcome (list B) :=
  match l with
  | [] => Returns []
  | x :: l' =>
      letM y := f x i in
      letM rest := mapiMFrom f l' (S i) in
      Returns (y :: rest)
  end.

Definition mapiM {A B : Type} (f : A -> nat -> outcome B) (l : list A)
  : outcome (list B) :=
  mapiMFrom f l 0.

(** The value a computation returns, or [d] when it throws. *)
Definition valueOf {A : Type} (d : A) (o : outcome A) : A :=
  match o with Returns a => a | Throws => d end.

(** ** Races *)

Module Races.

(** One row of [races_normalized.json]; [date] is
    [new Date(race.date).getTime()], places are ranks. *)
Record Race : Type := {
  race : string;
  date : Z;
  distance : Q;
  time : option string;
  overall_place : option Z;
  division_place : option Z;
  percentile : option Q;
  strava : option string
}.

Inductive Medal : Type := Gold | Silver | Bronze.

(** [race.overall_place && race.overall_place <= 3] and the same for
    [division_place], as conditions. *)
Definition isPodium (r : Race) : bool :=
  match overall_place r with
  | Some p => negb (p =? 0)%Z && (p <=? 3)%Z
  | None => false
  end.

Definition isAgGroupPodium (r : Race) : bool :=
  match division_place r with
  | Some p => negb (p =? 0)%Z && (p <=? 3)%Z
  | None => false
  end.

(** [race.division_place === k]. *)
Definition divisionIs (r : Race) (k : Z) : bool :=
  match division_place r with
  | Some p => (p =? k)%Z
  | None => false
  end.

(** [Math.abs(race.distance - target) < 0.1]. *)
Definition near (d target : Q) : bool := JS.ltb (JS.abs (d - target)) 0.1.

(** The five canonical race distances of [PerformanceLab] and [BibBook]:
    marathon, half marathon, 5K, 10K and 15K, in miles. *)
Definition canonical : list Q := [26.2; 13.1; 3.1; 6.21371; 9.3].

Section BestLoop.

(** The view's [timeToSeconds]. *)
Variable timeToSeconds : option string -> outcome JS.number.

(** The loop over [distanceRaces]: [bestRace] and [bestTimeSeconds] start at
    the first race and move to a race only when it is strictly faster and
    its time is positive. *)
Definition bestStep (best : Race * JS.number) (r : Race)
  : outcome (Race * JS.number) :=
  letM raceTimeSeconds := timeToSeconds (time r) in
  Returns (if JS.lt raceTimeSeconds (snd best) && JS.gt0 raceTimeSeconds
           then (r, raceTimeSeconds) else best).

Definition bestRaceOf (distanceRaces : list Race)
  : outcome (option (Race * JS.number)) :=
  match distanceRaces with
  | [] => Returns None
  | r0 :: _ =>
      letM bestTimeSeconds := timeToSeconds (time r0) in
      letM best := forEach bestStep distanceRaces (r0, bestTimeSeconds) in
      Returns (Some best)
  end.

End BestLoop.

(** The value a computation returns, [NaN] for one that throws. *)
Definition returned (o : outcome JS.number) : JS.number :=
  match o with Returns n => n | Throws => JS.NaN end.

Section BestSoFar.

(** The seconds of a time string. *)
Variable seconds : option string -> JS.number.

(** The time of a race, and whether it is valid: a positive number. *)
Definition secondsOf (r : Race) : JS.number := seconds (time r).
Definition validTime (r : Race) : Prop := JS.gt0 (secondsOf r) = true.

(** What the best-time loop has established once it has visited the races
    [before ++ best :: after]: the best race is valid, every valid race
    before it is strictly slower, no valid race after it is strictly
    faster. *)
Definition bestSoFar (before : list Race) (best : Race) (after : list Race)
  : Prop :=
  validTime best /\
  (forall x, In x before -> validTime x ->
             JS.lt (secondsOf best) (secondsOf x) = true) /\
  (forall x, In x after -> validTime x ->
             JS.lt (secondsOf x) (secondsOf best) = false).

End BestSoFar.

End Races.

(** ** BibBook: race statistics and the race table *)

Module BibBook.
Import Races.

Definition timeToSeconds (timeString : option string) : outcome JS.number :=
  match timeString with
  | None | Some EmptyString => Returns (JS.Fin 0)
  | Some s =>
      letM timeStr := (if JS.includes "T" s
         then match nth_error (JS.split "T" s) 1 with
              | Some part => Returns part
              | None => Throws
              end
         else Returns s) in
      match JS.split ":" timeStr with
      | [p0; p1; p2] =>
          Returns (JS.add (JS.add (JS.mul (JS.parseInt p0) (JS.Fin 3600))
                                  (JS.mul (JS.parseInt p1) (JS.Fin 60)))
                          (JS.parseInt p2))
      | _ => Returns (JS.Fin 0)
      end
  end.

(** The text [BibBook.timeToSeconds] splits at colons: the second piece of
    the split at ['T'] when there is a ['T']. *)
Definition timePart (s : string) : string :=
  if JS.includes "T" s then nth 1 (JS.split "T" s) EmptyString else s.

(** [h * 3600 + m * 60 + s] on the [parseInt] of three pieces. *)
Definition hms (h m s : string) : JS.number :=
  JS.add (JS.add (JS.mul (JS.parseInt h) (JS.Fin 3600))
                 (JS.mul (JS.parseInt m) (JS.Fin 60)))
         (JS.parseInt s).

(** [formatTime]: ['N/A'] for a missing time, the part after the first
    ['T'] for an embedded one. *)
Definition formatTime (timeString : option string) : outcome string :=
  match timeString with
  | None | Some EmptyString => Returns "N/A"%string
  | Some s =>
      if JS.includes "T" s
      then match nth_error (JS.split "T" s) 1 with
           | Some part => Returns part
           | None => Throws
           end
      else Returns s
  end.

(** The keys of [distanceBreakdown], in insertion order, each with the
    [targetDistance] the loop derives from it. *)
Definition distanceKeys : list (string * Q) :=
  [("Marathon", 26.2); ("Half Marathon", 13.1); ("10K", 6.21371);
   ("5K", 3.1); ("15K", 9.3)]%string.

Definition validRaces (races : list Race) : list Race :=
  List.filter (fun r => JS.truthyStr (time r)) races.

Record BestTime : Type := {
  bt_time : string;
  bt_race : string;
  bt_date : Z;
  bt_timeSeconds : JS.number;
  bt_strava : option string
}.

Definition bestTimesStep (valid : list Race) (bestTimes : gmap string BestTime)
  (key : string * Q) : outcome (gmap string BestTime) :=
  let '(distance, targetDistance) := key in
  let distanceRaces :=
    List.filter (fun r => near (Races.distance r) targetDistance) valid in
  letM best := bestRaceOf timeToSeconds distanceRaces in
  match best with
  | None => Returns bestTimes
  | Some (bestRace, bestTimeSeconds) =>
      letM t := formatTime (time bestRace) in
      Returns (<[distance :=
                 {| bt_time := t; bt_race := race bestRace;
                    bt_date := date bestRace;
                    bt_timeSeconds := bestTimeSeconds;
                    bt_strava := strava bestRace |}]> bestTimes)
  end.

(** [raceStats.bestTimes]. *)
Definition bestTimes (races : list Race) : outcome (gmap string BestTime) :=
  forEach (bestTimesStep (validRaces races)) distanceKeys ∅.

(** The races of a class, and the entry the loop stores for the class when
    nothing throws. *)
Definition distanceRaces (races : list Race) (targetDistance : Q) : list Race :=
  List.filter (fun r => near (Races.distance r) targetDistance) (validRaces races).

(** The seconds [timeToSeconds] returns. *)
Definition seconds (ts : option string) : JS.number :=
  returned (timeToSeconds ts).

Definition entryOf (best : Race * JS.number) : BestTime :=
  {| bt_time := valueOf EmptyString (formatTime (time (fst best)));
     bt_race := race (fst best);
     bt_date := date (fst best);
     bt_timeSeconds := snd best;
     bt_strava := strava (fst best) |}.

Definition entry (races : list Race) (targetDistance : Q) : option BestTime :=
  option_map entryOf
    (valueOf None (bestRaceOf timeToSeconds (distanceRaces races targetDistance))).

(** [getMedalEmoji] of the race table. *)
Definition getMedalEmoji (r : Race) : option Medal :=
  if isPodium r then Some Gold
  else if divisionIs r 1 then Some Gold
  else if divisionIs r 2 then Some Silver
  else if divisionIs r 3 then Some Bronze
  else None.

(** [(isAgGroupPodium || isPodium) && <span>{getMedalEmoji()}</span>]: the
    medal next to the race's name. *)
Definition medalShown (r : Race) : option Medal :=
  if isAgGroupPodium r || isPodium r then getMedalEmoji r else None.

End BibBook.

(** ** SeasonStats: the race table of the season view *)

Module SeasonStatsRaces.
Import Races.

Definition hasDatePrefix (timeStr : string) : bool :=
  JS.includes "1900-01-01T" timeStr || JS.includes "1900-01-02T" timeStr.

(** [const [hours, minutes, seconds] = parts.map(Number)] followed by
    [hours * 3600 + minutes * 60 + seconds]; a missing element is
    [undefined], which makes the result [NaN]. *)
Definition hms (parts : list string) : JS.number :=
  let nums := map JS.Number parts in
  let hours := nth 0 nums JS.NaN in
  let minutes := nth 1 nums JS.NaN in
  let seconds := nth 2 nums JS.NaN in
  JS.add (JS.add (JS.mul hours (JS.Fin 3600)) (JS.mul minutes (JS.Fin 60)))
         seconds.

Definition timeToSeconds (timeStr : option string) : outcome JS.number :=
  match timeStr with
  | None | Some EmptyString => Returns (JS.Fin 0)
  | Some s =>
      if String.eqb s "N/A" then Returns (JS.Fin 0)
      else if hasDatePrefix s then
        match nth_error (JS.split "T" s) 1 with
        | Some timePart => Returns (hms (JS.split ":" timePart))
        | None => Throws
        end
      else
        let parts := JS.split ":" s in
        if Nat.eqb (length parts) 3 then Returns (hms parts)
        else Returns (JS.Fin 0)
  end.

Definition formatTime (timeStr : option string) : outcome string :=
  match timeStr with
  | None | Some EmptyString => Returns "N/A"%string
  | Some s =>
      if String.eqb s "N/A" then Returns "N/A"%string
      else if hasDatePrefix s then
        match nth_error (JS.split "T" s) 1 with
        | Some timePart => Returns timePart
        | None => Throws
        end
      else Returns s
  end.

Inductive Category : Type := Marathon | Half | FiveK | Other.

(** The category's text: ['Marathon'], ['Half'], ['5K'], ['Other']. *)
Definition categoryName (c : Category) : string :=
  match c with
  | Marathon => "Marathon"
  | Half => "Half"
  | FiveK => "5K"
  | Other => "Other"
  end.

Definition getRaceCategory (distance : Q) : Category :=
  if near distance 26.2 then Marathon
  else if near distance 13.1 then Half
  else if near distance 3.1 then FiveK
  else Other.

Definition targetDistance (c : Category) : Q :=
  match c with
  | Marathon => 26.2
  | Half => 13.1
  | FiveK => 3.1
  | Other => 0
  end.

Definition validRaces (races : list Race) : list Race :=
  List.filter (fun r => JS.truthyStr (time r)
                   && negb (match time r with
                            | Some s => String.eqb s "N/A"
                            | None => false
                            end)) races.

(** [Math.abs(race.distance - target) >= 0.1]. *)
Definition far (d target : Q) : bool := Qle_bool 0.1 (JS.abs (d - target)).

Definition categoryRaces (valid : list Race) (c : Category) : list Race :=
  match c with
  | Other =>
      List.filter (fun r => far (distance r) 26.2 && far (distance r) 13.1
                       && far (distance r) 3.1) valid
  | _ => List.filter (fun r => near (distance r) (targetDistance c)) valid
  end.

Record BestTime : Type := {
  bt_time : string;
  bt_race : string;
  bt_date : Z;
  bt_timeSeconds : JS.number
}.

Definition bestTimesStep (valid : list Race) (bestTimes : gmap string BestTime)
  (category : Category) : outcome (gmap string BestTime) :=
  letM best := bestRaceOf timeToSeconds (categoryRaces valid category) in
  match best with
  | None => Returns bestTimes
  | Some (bestRace, bestTimeSeconds) =>
      letM t := formatTime (time bestRace) in
      Returns (<[categoryName category :=
                 {| bt_time := t; bt_race := race bestRace;
                    bt_date := date bestRace;
                    bt_timeSeconds := bestTimeSeconds |}]> bestTimes)
  end.

(** [raceStats.bestTimes]. *)
Definition bestTimes (races : list Race) : outcome (gmap string BestTime) :=
  forEach (bestTimesStep (validRaces races)) [Marathon; Half; FiveK; Other] ∅.

(** The seconds [timeToSeconds] returns. *)
Definition seconds (ts : option string) : JS.number :=
  returned (timeToSeconds ts).

(** The entry the loop stores for a category when nothing throws. *)
Definition entryOf (best : Race * JS.number) : BestTime :=
  {| bt_time := valueOf EmptyString (formatTime (time (fst best)));
     bt_race := race (fst best);
     bt_date := date (fst best);
     bt_timeSeconds := snd best |}.

Definition entry (races : list Race) (c : Category) : option BestTime :=
  option_map entryOf
    (valueOf None (bestRaceOf timeToSeconds (categoryRaces (validRaces races) c))).

(** [getMedalEmoji] of the race table. *)
Definition getMedalEmoji (r : Race) : option Medal :=
  if divisionIs r 1 || isPodium r then Some Gold
  else if divisionIs r 2 then Some Silver
  else if divisionIs r 3 then Some Bronze
  else None.

(** [(isAgGroupPodium || isPodium) && <span>{getMedalEmoji()}</span>]: the
    medal next to the race's name. *)
Definition medalShown (r : Race) : option Medal :=
  if isAgGroupPodium r || isPodium r then getMedalEmoji r else None.

End SeasonStatsRaces.

(** ** PerformanceLab: distance labels and the progression series *)

Module PerformanceLab.
Import Races.

Definition timeToSeconds (timeString : string) : JS.number :=
  match timeString with
  | EmptyString => JS.Fin 0
  | _ =>
      match JS.split ":" timeString with
      | [p0; p1; p2] =>
          JS.add (JS.add (JS.mul (JS.parseInt p0) (JS.Fin 3600))
                         (JS.mul (JS.parseInt p1) (JS.Fin 60)))
                 (JS.parseInt p2)
      | _ => JS.Fin 0
      end
  end.

(** The selected distance: a canonical name, or [`${race.distance} miles`],
    kept here as the raw mileage itself. *)
Inductive Label : Type :=
| Marathon
| HalfMarathon
| FiveK
| TenK
| FifteenK
| Miles (distance : Q).

Definition getDistanceValue (label : Label) : Q :=
  match label with
  | Marathon => 26.2
  | HalfMarathon => 13.1
  | FiveK => 3.1
  | TenK => 6.21371
  | FifteenK => 9.3
  | Miles d => d
  end.

(** [race.time.includes('T')], which throws on a race without [time]. *)
Definition timeIncludesT (r : Race) : outcome bool :=
  match time r with
  | Some s => Returns (JS.includes "T" s)
  | None => Throws
  end.

(** [race.time.split('T')[1] || ''] and [race.time || '']. *)
Definition afterT (r : Race) : string :=
  match time r with
  | Some s => match nth_error (JS.split "T" s) 1 with
              | Some part => part
              | None => EmptyString
              end
  | None => EmptyString
  end.

Definition timeOrEmpty (r : Race) : string :=
  match time r with Some s => s | None => EmptyString end.

(** The seconds of a race's time, as both callbacks compute them. *)
Definition seconds (r : Race) : JS.number :=
  match time r with
  | Some s => if JS.includes "T" s then timeToSeconds (afterT r)
              else timeToSeconds (timeOrEmpty r)
  | None => JS.NaN
  end.

Definition raceSeconds (r : Race) : outcome JS.number :=
  letM embedded := timeIncludesT r in
  Returns (if embedded then timeToSeconds (afterT r)
           else timeToSeconds (timeOrEmpty r)).

(** A race after the [map] that adds [timeSeconds] and the parsed date. *)
Record Timed : Type := {
  source : Race;
  timeSeconds : JS.number;
  raceDate : Z
}.

(** [.sort((a, b) => a.date.getTime() - b.date.getTime())]: a stable sort
    by date, as insertion from the right. *)
Fixpoint insertByDate (x : Timed) (l : list Timed) : list Timed :=
  match l with
  | [] => [x]
  | y :: l' =>
      if (raceDate x <=? raceDate y)%Z then x :: y :: l'
      else y :: insertByDate x l'
  end.

Definition sortByDate (l : list Timed) : list Timed :=
  fold_right insertByDate [] l.

(** Date order, for "sorted by date ascending". *)
Definition byDate (a b : Timed) : Prop := (raceDate a <= raceDate b)%Z.

(** A row of the series.  [progressDate] stands for the two texts the row
    derives from the date, [race.date.toISOString().split('T')[0]] and
    [format(race.date, 'MMM yyyy')]: it is the time value they print. *)
Record Progress : Type := {
  raceNumber : Z;
  raceName : string;
  progressDate : Z;
  progressSeconds : JS.number;
  timeFormatted : string;
  personalBest : JS.number
}.

(** The fields of the row of [r], at position [index] of [filteredRaces]. *)
Definition progressRow (filteredRaces : list Timed) (r : Timed) (index : nat)
  : Progress :=
  {| raceNumber := Z.of_nat index + 1;
     raceName := race (source r);
     progressDate := raceDate r;
     progressSeconds := timeSeconds r;
     timeFormatted :=
       match time (source r) with
       | Some s => if JS.includes "T" s then afterT (source r) else s
       | None => EmptyString
       end;
     personalBest :=
       if Nat.eqb index 0 then timeSeconds r
       else JS.min (timeSeconds r)
                   (map timeSeconds (firstn index filteredRaces)) |}.

(** The races of the selected distance with a positive time, by date. *)
Definition filteredRaces (races : list Race) (selectedDistance : Label)
  : outcome (list Timed) :=
  let targetDistance := getDistanceValue selectedDistance in
  let ofDistance :=
    List.filter (fun r => near (distance r) targetDistance && JS.truthyStr (time r))
           races in
  letM timedOk :=
    filterM (fun r => letM t := raceSeconds r in Returns (JS.gt0 t)) ofDistance in
  letM timed :=
    mapM (fun r => letM t := raceSeconds r in
                   Returns {| source := r; timeSeconds := t;
                              raceDate := date r |}) timedOk in
  Returns (sortByDate timed).

(** The races that enter the series of a distance: near it, with a time,
    and with positive seconds. *)
Definition entersSeries (targetDistance : Q) (r : Race) : bool :=
  near (distance r) targetDistance && JS.truthyStr (time r)
  && JS.gt0 (seconds r).

Definition timed (r : Race) : Timed :=
  {| source := r; timeSeconds := seconds r; raceDate := date r |}.

Section Dates.

(** Whether [new Date(race.date)] is a valid [Date].  The races file holds
    the date of a race as text; [date] is the time value of the text when
    it parses.  A text that does not parse gives an Invalid Date: the sort
    then compares with [NaN], which leaves the order to the engine, and
    [toISOString] and [format] throw a [RangeError] on it. *)
Variable validDate : Race -> bool.

(** The callback of the final [map]: it builds the row, and throws on a
    race whose date is not valid. *)
Definition progressOf (filteredRaces : list Timed) (r : Timed) (index : nat)
  : outcome Progress :=
  if validDate (source r) then Returns (progressRow filteredRaces r index)
  else Throws.

(** [raceProgressData]; no distance selected gives the empty series. *)
Definition raceProgressData (races : list Race) (selectedDistance : option Label)
  : outcome (list Progress) :=
  match selectedDistance with
  | None => Returns []
  | Some label =>
      letM sorted := filteredRaces races label in
      mapiM (progressOf sorted) sorted
  end.

End Dates.

End PerformanceLab.

(** ** Buckets: what every view computes for the activities of a period *)

Module Buckets.
Import Activities DateFns.

(** [.filter(act => act.date.getFullYear() >= 2016)]. *)
Definition since2016 (act : Run) : bool :=
  match date act with
  | Some t => (2016 <=? getFullYear t)%Z
  | None => false
  end.

(** The running activities, normalised, from 2016 on. *)
Definition runningActivities (activities : list Activity) : list Run :=
  List.filter since2016
    (map normalize
       (List.filter (fun act => isRunningActivity (Activity_Type act)) activities)).

(** [l.filter(act => isWithinInterval(act.date, { start, end }))]. *)
Definition within (start finish : Z) (l : list Run) : list Run :=
  List.filter (fun act => isWithinInterval (date act) start finish) l.

(** [miles > 0 ? (hours * 60) / miles : null]. *)
Definition pace (hours miles : Q) : option JS.number :=
  if JS.gtb miles 0 then Some (JS.div (hours * 60) miles) else None.

(** [p ? Math.round(p * 10) / 10 : null]. *)
Definition paceField (p : option JS.number) : option JS.number :=
  match p with
  | Some n => if JS.truthyNumber n then Some (JS.round1N n) else None
  | None => None
  end.

Definition trailOf (acts : list Run) : list Run := List.filter isTrail acts.
Definition roadOf (acts : list Run) : list Run :=
  List.filter (fun act => negb (isTrail act)) acts.

(** The unrounded trail and road paces of a list of runs. *)
Definition trailPaceOf (acts : list Run) : option JS.number :=
  pace (JS.sumBy hours (trailOf acts)) (JS.sumBy distance (trailOf acts)).
Definition roadPaceOf (acts : list Run) : option JS.number :=
  pace (JS.sumBy hours (roadOf acts)) (JS.sumBy distance (roadOf acts)).

(** The fields that the year, week and day buckets share. *)
Record Totals : Type := {
  runs : nat;
  totalMiles : Q;
  trailMiles : Q;
  roadMiles : Q;
  totalHours : Q;
  trailPace : option JS.number;
  roadPace : option JS.number
}.

Definition totals (acts : list Run) : Totals :=
  let miles := JS.sumBy distance acts in
  let allHours := JS.sumBy hours acts in
  let trail := JS.sumBy distance (trailOf acts) in
  let road := JS.sumBy distance (roadOf acts) in
  {| runs := length acts;
     totalMiles := JS.round1 miles;
     trailMiles := JS.round1 trail;
     roadMiles := JS.round1 road;
     totalHours := JS.round1 allHours;
     trailPace := paceField (trailPaceOf acts);
     roadPace := paceField (roadPaceOf acts) |}.

(** The bucket of a period without activities: no miles, no hours, no
    paces. *)
Definition emptyTotals (t : Totals) : Prop :=
  totalMiles t == 0 /\ trailMiles t == 0 /\ roadMiles t == 0 /\
  totalHours t == 0 /\ trailPace t = None /\ roadPace t = None.

(** A run as the data model has it: its moving time is not negative. *)
Definition nonnegRun (act : Run) : Prop := 0 <= hours act.

(** The same on the rows of the file. *)
Definition nonnegTime (act : Activity) : Prop := 0 <= JS.orZero (Moving_Time act).

(** What a pace field can be: [null], or a number that is not negative. *)
Definition nullOrNonneg (p : option JS.number) : Prop :=
  p = None \/ exists q, p = Some (JS.Fin q) /\ 0 <= q.

(** What the claim says of a pace field: [null], or strictly positive. *)
Definition nullOrPositive (p : option JS.number) : Prop :=
  p = None \/ exists q, p = Some (JS.Fin q) /\ 0 < q.

End Buckets.

(** ** InteractiveRunningChart: the drill-down chart *)

Module InteractiveRunningChart.
Import Activities DateFns Buckets.

Inductive DrillDownLevel : Type := years | months | weeks | days.

Definition isLevel (a b : DrillDownLevel) : bool :=
  match a, b with
  | years, years | months, months | weeks, weeks | days, days => true
  | _, _ => false
  end.

(** Ascending sort of years, [Array.from(years).sort((a, b) => a - b)]. *)
Fixpoint insertYear (y : Z) (l : list Z) : list Z :=
  match l with
  | [] => [y]
  | x :: l' => if (y <=? x)%Z then y :: l else x :: insertYear y l'
  end.

(** The years, from 2016 on, that have a running activity: a set, in
    ascending order. *)
Definition availableYears (activities : list Activity) : list Z :=
  let dated :=
    List.filter (fun act => isRunningActivity (Activity_Type act)) activities in
  let yearsOf :=
    fold_left
      (fun acc act =>
         match Activity_Date act with
         | Some t => if (2016 <=? getFullYear t)%Z then acc ++ [getFullYear t]
                     else acc
         | None => acc
         end) dated [] in
  fold_right insertYear [] (nodup Z.eq_dec yearsOf).

Record YearStat : Type := {
  year : Z;
  yearTotals : Totals
}.

Definition yearlyData (drillDownLevel : DrillDownLevel)
  (activities : list Activity) : list YearStat :=
  if negb (isLevel drillDownLevel years) then []
  else
    let running := runningActivities activities in
    map (fun y =>
           let yearStart := startOfYear (newDate y 0 1) in
           let yearEnd := endOfYear yearStart in
           {| year := y; yearTotals := totals (within yearStart yearEnd running) |})
        (fold_right insertYear [] (availableYears activities)).

Record MonthStat : Type := {
  monthNumber : Z;
  month : string;
  monthRuns : nat;
  runningMiles : Q;
  monthTrailMiles : Q;
  monthRoadMiles : Q;
  runningHours : Q;
  monthTrailPace : option JS.number;
  monthRoadPace : option JS.number
}.

(** The body of the loop over the months. *)
Definition monthStat (currentYear : Z) (running : list Run) (m : Z) : MonthStat :=
  let monthStart := startOfMonth (newDate currentYear m 1) in
  let monthEnd := endOfMonth monthStart in
  let monthRunning := within monthStart monthEnd running in
  let trailMiles := JS.sumBy distance (trailOf monthRunning) in
  let roadMiles := JS.sumBy distance (roadOf monthRunning) in
  {| monthNumber := m;
     month := monthName (getMonth monthStart);
     monthRuns := length monthRunning;
     runningMiles := JS.round1 (trailMiles + roadMiles);
     monthTrailMiles := JS.round1 trailMiles;
     monthRoadMiles := JS.round1 roadMiles;
     runningHours := JS.round1 (JS.sumBy hours monthRunning);
     monthTrailPace := paceField (trailPaceOf monthRunning);
     monthRoadPace := paceField (roadPaceOf monthRunning) |}.

(** The running activities of a year. *)
Definition ofYear (y : Z) (activities : list Activity) : list Run :=
  let yearStart := startOfYear (newDate y 0 1) in
  within yearStart (endOfYear yearStart) (runningActivities activities).

(** [for (let month = 0; month < 12; month++)]. *)
Definition monthIndices : list Z := map Z.of_nat (seq 0 12).

Definition monthlyData (drillDownLevel : DrillDownLevel) (currentYear : Z)
  (activities : list Activity) : list MonthStat :=
  if negb (isLevel drillDownLevel months) then []
  else map (monthStat currentYear (ofYear currentYear activities)) monthIndices.

Record WeekStat : Type := {
  weekIndex : nat;
  weekStart : Z;
  week : string;
  weekTotals : Totals
}.

Definition weekStat (running : list Run) (start : Z) (index : nat) : WeekStat :=
  let weekEnd := endOfWeek 0 start in
  {| weekIndex := index;
     weekStart := start;
     week := ("Week " ++ showNat (index + 1))%string;
     weekTotals := totals (within start weekEnd running) |}.

Definition weeklyData (drillDownLevel : DrillDownLevel) (currentYear : Z)
  (selectedMonth : option Z) (activities : list Activity) : list WeekStat :=
  match selectedMonth with
  | Some m =>
      if negb (isLevel drillDownLevel weeks) then []
      else
        let monthStart := newDate currentYear m 1 in
        let monthEnd := newDate currentYear (m + 1) 0 in
        let weeksOfMonth := eachWeekOfInterval monthStart monthEnd in
        let running := within monthStart monthEnd (runningActivities activities) in
        mapi (weekStat running) weeksOfMonth
  | None => []
  end.

(** One line of a day's tooltip. *)
Record DayActivity : Type := {
  name : string;
  dayDistance : Q;
  minutes : Z;
  dayPace : JS.number;
  dayIsTrail : bool
}.

Definition dayActivity (act : Run) : DayActivity :=
  {| name := match Activity_Name (raw act) with
             | Some (String a s) => String a s
             | _ => "Run"%string
             end;
     dayDistance := JS.round1 (distance act);
     minutes := JS.round (hours act * 60);
     dayPace := if JS.gtb (distance act) 0
                then JS.round1N (JS.div (hours act * 60) (distance act))
                else JS.Fin 0;
     dayIsTrail := isTrail act |}.

Record DayStat : Type := {
  fullDate : Z;
  dayTotals : Totals;
  activities : list DayActivity
}.

Definition dayStat (running : list Run) (day : Z) : DayStat :=
  let dayActivities := List.filter (fun act => isSameDay (date act) day) running in
  {| fullDate := day;
     dayTotals := totals dayActivities;
     activities := map dayActivity dayActivities |}.

Definition dailyData (drillDownLevel : DrillDownLevel)
  (selectedWeek : option (Z * nat)) (activities : list Activity) : list DayStat :=
  match selectedWeek with
  | Some (start, _) =>
      if negb (isLevel drillDownLevel days) then []
      else
        let weekEnd := endOfWeek 0 start in
        let daysOfWeek := eachDayOfInterval start weekEnd in
        let running := within start weekEnd (runningActivities activities) in
        map (dayStat running) daysOfWeek
  | None => []
  end.

End InteractiveRunningChart.

(** ** SeasonStats: the months of the season and the season's averages *)

Module SeasonStats.
Import Activities DateFns Buckets.

Record MonthStat : Type := {
  monthNumber : Z;
  month : string;
  runs : nat;
  runningMiles : Q;
  trailMiles : Q;
  roadMiles : Q;
  runningHours : Q;
  allActivities : nat;
  allHours : Q;
  avgPace : option JS.number;
  trailPace : option JS.number;
  roadPace : option JS.number
}.

(** All the activities of the file, normalised, from 2016 on. *)
Definition allSince2016 (activities : list Activity) : list Run :=
  List.filter since2016 (map normalize activities).

Definition yearStart (selectedYear : Z) : Z :=
  startOfYear (newDate selectedYear 0 1).
Definition yearEnd (selectedYear : Z) : Z := endOfYear (yearStart selectedYear).

(** The body of the loop over the months. *)
Definition monthStat (selectedYear : Z) (running allActs : list Run) (m : Z)
  : MonthStat :=
  let monthStart := newDate selectedYear m 1 in
  let monthEnd := newDate selectedYear (m + 1) 0 in
  let monthRunning := within monthStart monthEnd running in
  let monthAll := within monthStart monthEnd allActs in
  let trailMiles := JS.sumBy distance (trailOf monthRunning) in
  let roadMiles := JS.sumBy distance (roadOf monthRunning) in
  let totalRunningHours := JS.sumBy hours monthRunning in
  let totalRunningMiles := JS.sumBy distance monthRunning in
  let avgPace :=
    if JS.gtb totalRunningMiles 0
    then JS.div (totalRunningHours * 60) totalRunningMiles else JS.Fin 0 in
  {| monthNumber := m;
     month := monthName (getMonth monthStart);
     runs := length monthRunning;
     runningMiles := JS.round1 totalRunningMiles;
     trailMiles := JS.round1 trailMiles;
     roadMiles := JS.round1 roadMiles;
     runningHours := JS.round1 totalRunningHours;
     allActivities := length monthAll;
     allHours := JS.round1 (JS.sumBy hours monthAll);
     avgPace := if JS.gt0 avgPace then Some (JS.round1N avgPace) else None;
     trailPace := paceField (trailPaceOf monthRunning);
     roadPace := paceField (roadPaceOf monthRunning) |}.

Definition monthlyData (selectedYear : Z) (activities : list Activity)
  : list MonthStat :=
  let running :=
    within (yearStart selectedYear) (yearEnd selectedYear)
           (runningActivities activities) in
  let allActs :=
    within (yearStart selectedYear) (yearEnd selectedYear)
           (allSince2016 activities) in
  map (monthStat selectedYear running allActs)
      InteractiveRunningChart.monthIndices.

(** The averages of [runningStats] that divide by the year's mileage or run
    count, before and after rounding. *)
Record RunningStats : Type := {
  totalRuns : nat;
  totalMiles : Q;
  totalHours : Q;
  rawAvgPace : JS.number;
  seasonAvgPace : JS.number;
  avgRunDistance : JS.number
}.

Definition runningStats (selectedYear : Z) (activities : list Activity)
  : RunningStats :=
  let yearActivities :=
    within (yearStart selectedYear) (yearEnd selectedYear)
           (runningActivities activities) in
  let totalRuns := length yearActivities in
  let totalMiles := JS.sumBy distance yearActivities in
  let totalHours := JS.sumBy hours yearActivities in
  let avgPace :=
    if JS.gtb totalHours 0 then JS.div (totalHours * 60) totalMiles
    else JS.Fin 0 in
  let avgRunDistance :=
    if (0 <? totalRuns)%nat then JS.div totalMiles (inject_Z (Z.of_nat totalRuns))
    else JS.Fin 0 in
  {| totalRuns := totalRuns;
     totalMiles := inject_Z (JS.round totalMiles);
     totalHours := inject_Z (JS.round totalHours);
     rawAvgPace := avgPace;
     seasonAvgPace := JS.round1N avgPace;
     avgRunDistance := JS.round1N avgRunDistance |}.

End SeasonStats.

(** ** TrainingSummaryChart: the last four weeks *)

Module TrainingSummaryChart.
Import DateFns.

(** An activity of the Strava API; [start_date] is
    [new Date(activity.start_date)]. *)
Record StravaActivity : Type := {
  distance : Q;
  moving_time : Q;
  total_elevation_gain : option Q;
  start_date : option Z
}.

Record WeeklySummary : Type := {
  week : Z;
  weekLabel : string;
  totalMiles : Q;
  totalTime : Z;
  runCount : nat;
  avgPace : Q;
  totalElevation : Z
}.

(** The body of the loop for the week [i] weeks before the one of [now]. *)
Definition weeklySummary (now : Z) (activities : list StravaActivity) (i : nat)
  : WeeklySummary :=
  let weekStart := startOfWeek 1 (subWeeks now (Z.of_nat i)) in
  let weekEnd := endOfWeek 1 weekStart in
  let weekActivities :=
    List.filter (fun activity =>
                   match start_date activity with
                   | Some activityDate =>
                       (weekStart <=? activityDate)%Z && (activityDate <=? weekEnd)%Z
                   | None => false
                   end) activities in
  let totalDistance := JS.sumBy distance weekActivities in
  let totalMiles := totalDistance / 1609.34 in
  let totalTimeSeconds := JS.sumBy moving_time weekActivities in
  let totalTime := totalTimeSeconds / 60 in
  let totalElevation :=
    JS.sumBy (fun act => JS.orZero (total_elevation_gain act)) weekActivities in
  let avgPace := if JS.gtb totalMiles 0 then totalTime / totalMiles else 0 in
  {| week := weekStart;
     weekLabel := match i with
                  | 0%nat => "This Week"
                  | 1%nat => "Last Week"
                  | _ => (showNat i ++ " weeks ago")%string
                  end;
     totalMiles := JS.round1 totalMiles;
     totalTime := JS.round totalTime;
     runCount := length weekActivities;
     avgPace := inject_Z (JS.round (avgPace * 100)) / 100;
     totalElevation := JS.round (totalElevation * 3.28084) |}.

(** [for (let i = 3; i >= 0; i--)], with [new Date()] as [now]. *)
Definition generateWeeklySummaries (now : Z) (activities : list StravaActivity)
  : list WeeklySummary :=
  map (weeklySummary now activities) [3; 2; 1; 0]%nat.

End TrainingSummaryChart.

(** ** The race tables: the year's races, the category filter, the PR flag *)

Module RaceTables.
Import Races.

(** [a === b] on numbers: [NaN] equals nothing. *)
Definition strictEq (a b : JS.number) : bool :=
  match a, b with
  | JS.Fin x, JS.Fin y => Qeq_bool x y
  | JS.PInf, JS.PInf | JS.NInf, JS.NInf => true
  | _, _ => false
  end.

(** [.sort((a, b) => new Date(a.date).getTime() - new Date(b.date).getTime())]
    on races: a stable sort by date. *)
Fixpoint insertRace (x : Race) (l : list Race) : list Race :=
  match l with
  | [] => [x]
  | y :: l' =>
      if (date x <=? date y)%Z then x :: y :: l' else y :: insertRace x l'
  end.

Definition sortRaces (l : list Race) : list Race := fold_right insertRace [] l.

(** [yearRaces] of the season view: the races of the selected year, by
    date. *)
Definition yearRaces (selectedYear : Z) (races : list Race) : list Race :=
  sortRaces
    (List.filter (fun r => (DateFns.getFullYear (date r) =? selectedYear)%Z) races).

(** [filteredRacesForTable] of the season view; [None] is the filter
    ['All']. *)
Definition filteredRacesForTable (raceFilter : option SeasonStatsRaces.Category)
  (yearRaces : list Race) : list Race :=
  match raceFilter with
  | None => yearRaces
  | Some SeasonStatsRaces.Other =>
      List.filter (fun r => SeasonStatsRaces.far (distance r) 26.2
                            && SeasonStatsRaces.far (distance r) 13.1
                            && SeasonStatsRaces.far (distance r) 3.1) yearRaces
  | Some c =>
      List.filter (fun r => near (distance r) (SeasonStatsRaces.targetDistance c))
                  yearRaces
  end.

(** [raceStats.bestTimes[distanceCategory]?.timeSeconds === timeToSeconds(race.time)]
    in the season view, where the category is [getRaceCategory(race.distance)]. *)
Definition isPersonalBest (bestTimes : gmap string SeasonStatsRaces.BestTime)
  (r : Race) : outcome bool :=
  let distanceCategory := SeasonStatsRaces.getRaceCategory (distance r) in
  letM t := SeasonStatsRaces.timeToSeconds (time r) in
  Returns
    match bestTimes !! SeasonStatsRaces.categoryName distanceCategory with
    | Some best => strictEq (SeasonStatsRaces.bt_timeSeconds best) t
    | None => false
    end.

Section RowCategory.

(** The text of a number in a template literal, [`${race.distance}`]. *)
Variable numberToString : Q -> string.

(** The category of a row of the [BibBook] table: a canonical name when the
    distance is exactly canonical, otherwise [`${race.distance} miles`]. *)
Definition bibDistanceCategory (d : Q) : string :=
  if Qeq_bool d 26.2 then "Marathon"
  else if Qeq_bool d 13.1 then "Half Marathon"
  else if Qeq_bool d 3.1 then "5K"
  else if Qeq_bool d 6.21371 then "10K"
  else if Qeq_bool d 9.3 then "15K"
  else (numberToString d ++ " miles")%string.

(** [raceStats.bestTimes[distanceCategory]?.timeSeconds === timeToSeconds(race.time)]
    in the [BibBook] table. *)
Definition bibIsPersonalBest (bestTimes : gmap string BibBook.BestTime)
  (r : Race) : outcome bool :=
  let distanceCategory := bibDistanceCategory (distance r) in
  letM t := BibBook.timeToSeconds (time r) in
  Returns
    match bestTimes !! distanceCategory with
    | Some best => strictEq (BibBook.bt_timeSeconds best) t
    | None => false
    end.

End RowCategory.

End RaceTables.

(** ** BibBook: counts, percentiles and races per year *)

Module BibBookStats.
Import Races.

(** [raceStats.distanceBreakdown]: the number of valid races in the band of
    each class, in the order of the object's keys. *)
Definition distanceBreakdown (races : list Race) : list (string * nat) :=
  map (fun key : string * Q =>
         (fst key,
          length (List.filter (fun r => near (distance r) (snd key))
                              (BibBook.validRaces races))))
      BibBook.distanceKeys.

(** [distanceChartData]: the classes that have a race. *)
Definition distanceChartData (races : list Race) : list (string * nat) :=
  List.filter (fun entry => (0 <? snd entry)%nat) (distanceBreakdown races).

Definition overallPodiums (races : list Race) : list Race :=
  List.filter isPodium (BibBook.validRaces races).
Definition agGroupPodiums (races : list Race) : list Race :=
  List.filter isAgGroupPodium (BibBook.validRaces races).

(** [race.percentile!] of a race that has one. *)
Definition percentileOf (r : Race) : Q :=
  match percentile r with Some p => p | None => 0 end.

Definition racesWithPercentile (races : list Race) : list Race :=
  List.filter (fun r => match percentile r with Some _ => true | None => false end)
              (BibBook.validRaces races).

(** [raceStats.avgPercentile]: the mean percentile times 100, 0 without a
    race that has a percentile. *)
Definition avgPercentile (races : list Race) : JS.number :=
  let withPercentile := racesWithPercentile races in
  let avg :=
    if (0 <? length withPercentile)%nat
    then JS.div (JS.sumBy percentileOf withPercentile)
                (inject_Z (Z.of_nat (length withPercentile)))
    else JS.Fin 0 in
  JS.mul avg (JS.Fin 100).

(** The races of a list that fall in a year. *)
Definition inYear (y : Z) (l : list Race) : list Race :=
  List.filter (fun r => (DateFns.getFullYear (date r) =? y)%Z) l.

(** [yearCounts[year] = (yearCounts[year] || 0) + 1]. *)
Definition countYear (yearCounts : gmap Z nat) (r : Race) : gmap Z nat :=
  let year := DateFns.getFullYear (date r) in
  <[year := (match yearCounts !! year with
             | Some n => if (n =? 0)%nat then 0 else n
             | None => 0
             end + 1)%nat]> yearCounts.

Definition yearCounts (races : list Race) : gmap Z nat :=
  fold_left countYear (BibBook.validRaces races) ∅.

(** Ascending sort of the entries by year. *)
Fixpoint insertEntry (e : Z * nat) (l : list (Z * nat)) : list (Z * nat) :=
  match l with
  | [] => [e]
  | x :: l' => if (fst e <=? fst x)%Z then e :: l else x :: insertEntry e l'
  end.

(** [yearlyRaceData]: the races per year, by year. *)
Definition yearlyRaceData (races : list Race) : list (Z * nat) :=
  fold_right insertEntry [] (map_to_list (yearCounts races)).

End BibBookStats.

(** ** The thresholds in binary64

    The trail classifier and the bands of the race distances compare a
    computed number with a threshold.  Which side a number at the threshold
    falls on depends on the rounding of the engine's arithmetic, so these
    functions are embedded here over the doubles themselves. *)

Module Binary64.
Import PrimFloat.
#[local] Set Warnings "-inexact-float".
Local Open Scope float_scope.

(** Truthiness of a number: every number but 0, -0 and [NaN]. *)
Definition truthy (x : float) : bool := negb (x =? 0) && (x =? x).

(** [x || 0] on an optional numeric field. *)
Definition orZero (x : option float) : float :=
  match x with Some v => if truthy v then v else 0 | None => 0 end.

(** [x > y]. *)
Definition gtb (x y : float) : bool := y <? x.

(** The fields of a row of [activities_mapped.json] that [isTrailRun]
    reads.  [Distance] is [parseFloat] of the field when the field is
    truthy ([NaN] for a text that is no number), [None] when it is
    missing, empty or 0. *)
Record Activity : Type := {
  Distance_1 : option float;
  Distance : option float;
  Dirt_Distance : option float;
  Elevation_Gain : option float
}.

(** [activity['Distance.1'] ? activity['Distance.1'] / 1609.34 :
    parseFloat(activity.Distance || 0)]. *)
Definition distanceMiles (act : Activity) : float :=
  let miles := match Distance act with Some v => v | None => 0 end in
  match Distance_1 act with
  | Some meters => if truthy meters then meters / 1609.34 else miles
  | None => miles
  end.

Definition isTrailRun (activity : Activity) : bool :=
  let dirtDistance := orZero (Dirt_Distance activity) in
  let elevationGain := orZero (Elevation_Gain activity) in
  let totalDistance := distanceMiles activity in
  let elevationPerMile :=
    if gtb totalDistance 0 then elevationGain / totalDistance else 0 in
  let dirtPercentage :=
    if gtb totalDistance 0
    then (dirtDistance / 1609.34) / totalDistance * 100 else 0 in
  gtb elevationPerMile 50 || gtb dirtPercentage 50.

(** The derived quantities that the specification names. *)
Definition elevationGainFeet (act : Activity) : float :=
  orZero (Elevation_Gain act).
Definition dirtDistanceMiles (act : Activity) : float :=
  orZero (Dirt_Distance act) / 1609.34.

(** The classifier in the specification's words: a ratio is 0 when the
    distance is 0. *)
Definition ratio_spec (x distance : float) : float :=
  if distance =? 0 then 0 else x / distance.
Definition classifyTerrain_spec (act : Activity) : bool :=
  gtb (ratio_spec (elevationGainFeet act) (distanceMiles act)) 50
  || gtb (ratio_spec (dirtDistanceMiles act) (distanceMiles act) * 100) 50.

(** [Math.abs(race.distance - target) < 0.1]. *)
Definition near (d target : float) : bool := abs (d - target) <? 0.1.

(** The five canonical race distances: marathon, half marathon, 5K, 10K
    and 15K, in miles. *)
Definition canonical : list float := [26.2; 13.1; 3.1; 6.21371; 9.3].

(** The readable distance of [availableDistances] in [PerformanceLab]: a
    canonical name, or [`${race.distance} miles`], kept here as the raw
    mileage itself. *)
Inductive Label : Type :=
| Marathon
| HalfMarathon
| FiveK
| TenK
| FifteenK
| Miles (distance : float).

Definition distanceLabel (distance : float) : Label :=
  if near distance 26.2 then Marathon
  else if near distance 13.1 then HalfMarathon
  else if near distance 3.1 then FiveK
  else if near distance 6.21371 then TenK
  else if near distance 9.3 then FifteenK
  else Miles distance.

(** The label [availableDistances] adds for a race: none when
    [race.distance && race.time] is falsy. *)
Definition labelOf (distance : float) (time : option string) : option Label :=
  if truthy distance && JS.truthyStr time
  then Some (distanceLabel distance) else None.

(** [getRaceCategory] of [SeasonStats]. *)
Definition getRaceCategory (distance : float) : SeasonStatsRaces.Category :=
  if near distance 26.2 then SeasonStatsRaces.Marathon
  else if near distance 13.1 then SeasonStatsRaces.Half
  else if near distance 3.1 then SeasonStatsRaces.FiveK
  else SeasonStatsRaces.Other.

(** The format itself, for the proofs about rounding: the number of
    binary digits of a mantissa, and the double [0.1], which is
    7205759403792794 times 2 to the power -56. *)
Definition digits (p : positive) : Z := Zpos (SpecFloat.digits2_pos p).
Definition tenthMantissa : Z := 7205759403792794%Z.
Definition tenth : SpecFloat.spec_float :=
  SpecFloat.S754_finite false 7205759403792794 (-56).

End Binary64.

(** ** Concrete inputs *)

Module Inputs.
Import Activities.
Import PrimFloat.
#[local] Set Warnings "-inexact-float".

(** Scenario A and B of the specification (10 miles with 600 feet of
    gain and 1 mile of dirt; 10 miles with 100 feet and 6 miles of dirt), a
    record without distance, and a run of 29 miles with 23335.43 m of
    dirt, which is half of it. *)
Definition scenarioA : Binary64.Activity :=
  {| Binary64.Distance_1 := None; Binary64.Distance := Some 10%float;
     Binary64.Dirt_Distance := Some 1609.34%float;
     Binary64.Elevation_Gain := Some 600%float |}.

Definition scenarioB : Binary64.Activity :=
  {| Binary64.Distance_1 := None; Binary64.Distance := Some 10%float;
     Binary64.Dirt_Distance := Some 9656.04%float;
     Binary64.Elevation_Gain := Some 100%float |}.

Definition noDistance : Binary64.Activity :=
  {| Binary64.Distance_1 := Some 0%float; Binary64.Distance := None;
     Binary64.Dirt_Distance := Some 5000%float;
     Binary64.Elevation_Gain := Some 900%float |}.

Definition halfDirt : Binary64.Activity :=
  {| Binary64.Distance_1 := None; Binary64.Distance := Some 29%float;
     Binary64.Dirt_Distance := Some 23335.43%float;
     Binary64.Elevation_Gain := Some 0%float |}.

(** A race by name, date, distance, time and places. *)
Definition mkRace (name : string) (day : Z) (d : Q) (t : option string)
  (overall division : option Z) : Races.Race :=
  {| Races.race := name; Races.date := day; Races.distance := d;
     Races.time := t; Races.overall_place := overall;
     Races.division_place := division; Races.percentile := None;
     Races.strava := None |}.

(** Second overall, third of the division. *)
Definition overallSecond : Races.Race :=
  mkRace "Turkey Trot" 100 3.1 (Some "0:19:30"%string) (Some 2%Z) (Some 3%Z).

(** Two 5K races: the second one's time has two parts only. *)
Definition fiveKs : list Races.Race :=
  [mkRace "Spring 5K" 10 3.1 (Some "0:25:30"%string) None None;
   mkRace "Fall 5K" 20 3.1 (Some "24:10"%string) None None].

(** Scenario D: two marathons, the slower one first. *)
Definition marathons : list Races.Race :=
  [mkRace "City Marathon" 10 26.2 (Some "3:45:00"%string) None None;
   mkRace "Coast Marathon" 20 26.2 (Some "3:30:00"%string) None None].

(** Three marathons listed out of date order, two of them on one day. *)
Definition shuffledMarathons : list Races.Race :=
  [mkRace "Late" 30 26.2 (Some "3:30:00"%string) None None;
   mkRace "Early" 10 26.2 (Some "3:45:00"%string) None None;
   mkRace "Middle" 20 26.2 (Some "3:20:00"%string) None None;
   mkRace "Same day" 20 26.2 (Some "4:00:00"%string) None None;
   mkRace "No time" 5 26.2 None None None].

(** Scenario C: three marathons in date order. *)
Definition scenarioC : list Races.Race :=
  [mkRace "First" 10 26.2 (Some "3:45:00"%string) None None;
   mkRace "Second" 20 26.2 (Some "3:30:00"%string) None None;
   mkRace "Third" 30 26.2 (Some "4:00:00"%string) None None].

(** Noon of a day of 2024, by month index and day. *)
Definition noon2024 (monthIndex day : Z) : option Z :=
  Some (DateFns.newDate 2024 monthIndex day + 43200000)%Z.

Definition mkActivity (type : string) (at_ : option Z) (miles seconds : Q)
  (dirt gain : Q) : Activity :=
  {| Activity_Name := None; Activity_Type := Some type; Activity_Date := at_;
     Distance_1 := None; Distance := Some miles; Moving_Time := Some seconds;
     Dirt_Distance := Some dirt; Elevation_Gain := Some gain |}.

(** A run of half an hour that recorded no distance. *)
Definition treadmill : Activity := mkActivity "Run" (noon2024 5 15) 0 1800 0 0.

(** A road run of 30 miles recorded with one minute of moving time. *)
Definition oneMinute : Activity := mkActivity "Run" (noon2024 5 15) 30 60 0 0.

(** A road run of 5 miles without moving time. *)
Definition noTime : Activity := mkActivity "Run" (noon2024 5 15) 5 0 0 0.

(** An ordinary road run: 6 miles in 54 minutes. *)
Definition easyRun : Activity := mkActivity "Run" (noon2024 5 15) 6 3240 0 120.

(** A road run at noon of the last day of June 2024. *)
Definition lastDayRun : Activity := mkActivity "Run" (noon2024 5 30) 6 3240 0 120.

(** Four races: two with a percentile (top quarter and bottom quarter of
    the field), one without a percentile, one without a time. *)
Definition withPercentile (r : Races.Race) (p : Q) : Races.Race :=
  {| Races.race := Races.race r; Races.date := Races.date r;
     Races.distance := Races.distance r; Races.time := Races.time r;
     Races.overall_place := Races.overall_place r;
     Races.division_place := Races.division_place r;
     Races.percentile := Some p; Races.strava := Races.strava r |}.

Definition rankedRaces : list Races.Race :=
  [withPercentile (mkRace "Spring 5K" 10 3.1 (Some "0:24:00"%string) None None) (1 # 4);
   mkRace "Summer 10K" 20 6.21371 (Some "0:50:00"%string) None None;
   withPercentile (mkRace "Autumn Half" 30 13.1 (Some "1:55:00"%string) None None) (3 # 4);
   withPercentile (mkRace "Did not start" 40 26.2 None None None) (1 # 2)].

(** A single marathon measured at 26.25 miles. *)
Definition longMarathon : Races.Race :=
  mkRace "Hilly Marathon" 40 26.25 (Some "3:50:00"%string) None None.

End Inputs.

(** * Properties *)

Import Activities Races Inputs.

Lemma gtb_true (x y : Q) : JS.gtb x y = true <-> y < x.
Proof.
unfold JS.gtb, JS.ltb. rewrite negb_true_iff.
split; intros H.
- apply Qnot_le_lt. intros Hle. apply Qle_bool_iff in Hle. congruence.
- destruct (Qle_bool x y) eqn:E; [|reflexivity].
  apply Qle_bool_iff in E. lra.
Qed.

Lemma gtb_false (x y : Q) : JS.gtb x y = false <-> x <= y.
Proof.
unfold JS.gtb, JS.ltb. rewrite negb_false_iff. apply Qle_bool_iff.
Qed.

(** ** The trail classifier *)

Section TrailClassifier.
Import PrimFloat FloatOps FloatAxioms SpecFloat.
#[local] Set Warnings "-inexact-float".
Local Open Scope float_scope.

(** A number that is neither above nor below 0 is a zero or [NaN]. *)
Lemma float_zero_or_nan (d : float) :
  (d <? 0) = false -> (0 <? d) = false ->
  (d =? 0) = true \/ Prim2SF d = S754_nan.
Proof.
rewrite !ltb_spec, eqb_spec.
change (Prim2SF 0) with (S754_zero false).
destruct (Prim2SF d) as [s|s| |s m e]; try destruct s; cbn; auto; discriminate.
Qed.

Lemma float_pos_not_zero (d : float) : (0 <? d) = true -> (d =? 0) = false.
Proof.
rewrite ltb_spec, eqb_spec.
change (Prim2SF 0) with (S754_zero false).
destruct (Prim2SF d) as [s|s| |s m e]; try destruct s; cbn; auto; discriminate.
Qed.

Lemma float_zero_not_pos (d : float) : (d =? 0) = true -> (0 <? d) = false.
Proof.
rewrite ltb_spec, eqb_spec.
change (Prim2SF 0) with (S754_zero false).
destruct (Prim2SF d) as [s|s| |s m e]; try destruct s; cbn; auto; discriminate.
Qed.

Lemma float_nan_not_zero (d : float) : Prim2SF d = S754_nan -> (d =? 0) = false.
Proof. intros H. rewrite eqb_spec, H. reflexivity. Qed.

Lemma float_div_nan (x d : float) :
  Prim2SF d = S754_nan -> Prim2SF (x / d) = S754_nan.
Proof. intros H. rewrite div_spec, H. destruct (Prim2SF x); reflexivity. Qed.

Lemma float_mul_nan (x y : float) :
  Prim2SF x = S754_nan -> Prim2SF (x * y) = S754_nan.
Proof. intros H. rewrite mul_spec, H. reflexivity. Qed.

Lemma float_gtb_nan (x y : float) :
  Prim2SF x = S754_nan -> Binary64.gtb x y = false.
Proof.
intros H. unfold Binary64.gtb. rewrite ltb_spec, H.
destruct (Prim2SF y); reflexivity.
Qed.

Example isTrailRun_scenarioA : Binary64.isTrailRun scenarioA = true.
Proof. reflexivity. Qed.

Example isTrailRun_scenarioB : Binary64.isTrailRun scenarioB = true.
Proof. reflexivity. Qed.

(** In double arithmetic a dirt share of one half computes to a
    percentage just above 50, and the run is a trail run. *)
Example isTrailRun_halfDirt :
  (23335.43 / 1609.34) / 29 * 100 = 50.000000000000014 /\
  Binary64.isTrailRun halfDirt = true.
Proof. split; reflexivity. Qed.

(** C1: an activity whose distance is not negative is classified trail
    exactly when its elevation gain per mile exceeds 50 or its dirt share
    in percent exceeds 50, the ratios being computed in double arithmetic
    and taken as 0 when the distance is 0; an activity of distance 0 is
    never trail, whatever its elevation and dirt fields. *)
Theorem isTrailRun_iff_ratios (act : Binary64.Activity) :
  ((Binary64.distanceMiles act <? 0) = false ->
   (Binary64.isTrailRun act = true <->
    Binary64.gtb (Binary64.ratio_spec (Binary64.elevationGainFeet act)
                                      (Binary64.distanceMiles act)) 50 = true \/
    Binary64.gtb (Binary64.ratio_spec (Binary64.dirtDistanceMiles act)
                                      (Binary64.distanceMiles act) * 100) 50 = true) /\
   Binary64.isTrailRun act = Binary64.classifyTerrain_spec act) /\
  ((Binary64.distanceMiles act =? 0) = true -> Binary64.isTrailRun act = false).
Proof.
assert (Hzero : (Binary64.distanceMiles act =? 0) = true ->
                Binary64.isTrailRun act = false).
{ intros H0. unfold Binary64.isTrailRun, Binary64.gtb. cbv zeta.
  rewrite (float_zero_not_pos _ H0). reflexivity. }
split; [|exact Hzero].
intros Hneg.
assert (Heq : Binary64.isTrailRun act = Binary64.classifyTerrain_spec act).
{ unfold Binary64.isTrailRun, Binary64.classifyTerrain_spec,
    Binary64.ratio_spec, Binary64.elevationGainFeet, Binary64.dirtDistanceMiles.
  cbv zeta.
  destruct (0 <? Binary64.distanceMiles act) eqn:Hpos.
  - unfold Binary64.gtb. rewrite Hpos, (float_pos_not_zero _ Hpos). reflexivity.
  - destruct (float_zero_or_nan _ Hneg Hpos) as [H0|Hnan].
    + unfold Binary64.gtb. rewrite Hpos, H0. reflexivity.
    + rewrite (float_nan_not_zero _ Hnan).
      rewrite (float_gtb_nan _ 50 (float_div_nan _ _ Hnan)).
      rewrite (float_gtb_nan _ 50 (float_mul_nan _ 100 (float_div_nan _ _ Hnan))).
      unfold Binary64.gtb. rewrite Hpos. reflexivity. }
split; [|exact Heq].
rewrite Heq. unfold Binary64.classifyTerrain_spec.
rewrite orb_true_iff. reflexivity.
Qed.

Lemma isTrailRun_iff_ratios_witness :
  ((Binary64.distanceMiles halfDirt <? 0) = false /\
   Binary64.isTrailRun halfDirt = Binary64.classifyTerrain_spec halfDirt /\
   Binary64.isTrailRun halfDirt = true)
  /\ ((Binary64.distanceMiles noDistance =? 0) = true /\
      Binary64.isTrailRun noDistance = false).
Proof.
split.
- split; [reflexivity|]. split; [|reflexivity].
  apply (proj1 (isTrailRun_iff_ratios halfDirt)). reflexivity.
- split; [reflexivity|].
  apply (proj2 (isTrailRun_iff_ratios noDistance)). reflexivity.
Defined.

End TrailClassifier.

(** ** Strings: [includes] and [split] on one character *)

Lemma includes_char_cons (c a : ascii) (s : string) :
  JS.includes (String c EmptyString) (String a s)
  = Ascii.eqb a c || JS.includes (String c EmptyString) s.
Proof.
cbn [JS.includes String.prefix].
destruct (ascii_dec c a) as [->|Hne].
- rewrite Ascii.eqb_refl. destruct s; reflexivity.
- assert (E : Ascii.eqb a c = false) by (apply Ascii.eqb_neq; congruence).
  rewrite E. reflexivity.
Qed.

Lemma split_not_nil (c : ascii) (s : string) : JS.split c s <> [].
Proof.
destruct s as [|a s]; cbn [JS.split]; [discriminate|].
destruct (Ascii.eqb a c); [discriminate|].
destruct (JS.split c s); discriminate.
Qed.

Lemma split_absent (c : ascii) (s : string) :
  JS.includes (String c EmptyString) s = false -> JS.split c s = [s].
Proof.
induction s as [|a s IH]; intros H; [reflexivity|].
rewrite includes_char_cons in H. apply orb_false_iff in H as [Ha Hs].
cbn [JS.split]. rewrite Ha, (IH Hs). reflexivity.
Qed.

Lemma append_nil (b : string) : (EmptyString ++ b)%string = b.
Proof. reflexivity. Qed.

Lemma append_cons (x : ascii) (a b : string) :
  (String x a ++ b)%string = String x (a ++ b)%string.
Proof. reflexivity. Qed.

Lemma split_app (c : ascii) (a b : string) :
  JS.includes (String c EmptyString) a = false ->
  JS.split c (a ++ String c b)%string = a :: JS.split c b.
Proof.
induction a as [|x a IH]; intros H.
- rewrite append_nil. cbn [JS.split]. rewrite Ascii.eqb_refl. reflexivity.
- rewrite includes_char_cons in H. apply orb_false_iff in H as [Hx Ha].
  rewrite append_cons. cbn [JS.split]. rewrite Hx, (IH Ha). reflexivity.
Qed.

Lemma split_present (c : ascii) (s : string) :
  JS.includes (String c EmptyString) s = true ->
  exists p0 p1 rest, JS.split c s = p0 :: p1 :: rest.
Proof.
induction s as [|a s IH]; intros H; [discriminate|].
rewrite includes_char_cons in H. cbn [JS.split].
destruct (Ascii.eqb a c) eqn:E.
- destruct (JS.split c s) as [|p ps] eqn:Es; [now apply split_not_nil in Es|].
  eauto.
- destruct (IH H) as (p0 & p1 & rest & ->). eauto.
Qed.

Lemma includes_app_char (c : ascii) (a b : string) :
  JS.includes (String c EmptyString) (a ++ String c b)%string = true.
Proof.
induction a as [|x a IH].
- rewrite append_nil, includes_char_cons, Ascii.eqb_refl. reflexivity.
- rewrite append_cons, includes_char_cons, IH. apply orb_true_r.
Qed.

(** ** BibBook.timeToSeconds *)

Lemma timeToSeconds_value (s : string) :
  BibBook.timeToSeconds (Some s) =
  Returns (match s with
           | EmptyString => JS.Fin 0
           | _ => match JS.split ":" (BibBook.timePart s) with
                  | [p0; p1; p2] => BibBook.hms p0 p1 p2
                  | _ => JS.Fin 0
                  end
           end).
Proof.
destruct s as [|a s]; [reflexivity|].
unfold BibBook.timeToSeconds, BibBook.timePart, BibBook.hms.
destruct (JS.includes "T" (String a s)) eqn:E.
- destruct (split_present _ _ E) as (p0 & p1 & rest & ->). cbn [nth_error nth bind].
  destruct (JS.split ":" p1) as [|x [|y [|z [|w l]]]]; reflexivity.
- cbn [bind].
  destruct (JS.split ":" (String a s)) as [|x [|y [|z [|w l]]]]; reflexivity.
Qed.

Lemma includes_char_app (c : ascii) (a b : string) :
  JS.includes (String c EmptyString) (a ++ b)%string
  = JS.includes (String c EmptyString) a || JS.includes (String c EmptyString) b.
Proof.
induction a as [|x a IH].
- rewrite append_nil. destruct b; reflexivity.
- rewrite append_cons, !includes_char_cons, IH. apply orb_assoc.
Qed.

Lemma timePart_plain (s : string) :
  JS.includes "T" s = false -> BibBook.timePart s = s.
Proof. intros H. unfold BibBook.timePart. rewrite H. reflexivity. Qed.

Lemma timePart_embedded (pre mid : string) :
  JS.includes "T" pre = false -> JS.includes "T" mid = false ->
  BibBook.timePart (pre ++ String "T" mid)%string = mid.
Proof.
intros Hpre Hmid. unfold BibBook.timePart.
rewrite includes_app_char, split_app, split_absent by assumption.
reflexivity.
Qed.

Lemma timePart_second_T (pre mid rest : string) :
  JS.includes "T" pre = false -> JS.includes "T" mid = false ->
  BibBook.timePart (pre ++ String "T" (mid ++ String "T" rest))%string = mid.
Proof.
intros Hpre Hmid. unfold BibBook.timePart.
rewrite includes_app_char, !split_app by assumption.
reflexivity.
Qed.

Lemma split_hms (h m s : string) :
  JS.includes ":" h = false -> JS.includes ":" m = false ->
  JS.includes ":" s = false ->
  JS.split ":" (h ++ String ":" (m ++ String ":" s))%string = [h; m; s].
Proof.
intros Hh Hm Hs. rewrite !split_app, split_absent by assumption. reflexivity.
Qed.

Lemma parseInt_cases (s : string) :
  JS.parseInt s = JS.NaN \/ exists v, JS.parseInt s = JS.ofZ v.
Proof.
unfold JS.parseInt.
destruct (match JS.trimStart s with
          | String "-" r => (true, r)
          | String "+" r => (false, r)
          | _ => (false, JS.trimStart s)
          end) as [neg s2].
destruct (match s2 with
          | String "0" (String "x" r) | String "0" (String "X" r) => (16%Z, r)
          | _ => (10%Z, s2)
          end) as [radix s3].
destruct (JS.digits radix None s3); eauto.
Qed.

Lemma hms_numbers (h m s : string) (a b c : Z) :
  JS.parseInt h = JS.ofZ a -> JS.parseInt m = JS.ofZ b ->
  JS.parseInt s = JS.ofZ c ->
  BibBook.hms h m s
  = JS.Fin (inject_Z a * 3600 + inject_Z b * 60 + inject_Z c).
Proof. unfold BibBook.hms. intros -> -> ->. reflexivity. Qed.

Lemma hms_NaN (h m s : string) :
  JS.parseInt h = JS.NaN \/ JS.parseInt m = JS.NaN \/ JS.parseInt s = JS.NaN ->
  BibBook.hms h m s = JS.NaN.
Proof.
unfold BibBook.hms.
destruct (parseInt_cases h) as [->|[a ->]], (parseInt_cases m) as [->|[b ->]],
         (parseInt_cases s) as [->|[c ->]]; try reflexivity.
intros [H|[H|H]]; discriminate.
Qed.

(** ** The time helpers never throw *)

Lemma returns_returned (o : outcome JS.number) :
  (exists n, o = Returns n) -> o = Returns (returned o).
Proof. intros [n ->]. reflexivity. Qed.

Lemma prefix_includes_char (c : ascii) (sub s : string) :
  String.prefix sub s = true ->
  JS.includes (String c EmptyString) sub = true ->
  JS.includes (String c EmptyString) s = true.
Proof.
revert s. induction sub as [|a sub IH]; intros s Hp Hc; [discriminate|].
destruct s as [|b s]; [discriminate|].
cbn [String.prefix] in Hp. destruct (ascii_dec a b) as [->|]; [|discriminate].
rewrite includes_char_cons in *.
apply orb_true_iff in Hc as [Hc|Hc]; [rewrite Hc; reflexivity|].
rewrite (IH s Hp Hc). apply orb_true_r.
Qed.

Lemma includes_includes_char (c : ascii) (sub s : string) :
  JS.includes sub s = true ->
  JS.includes (String c EmptyString) sub = true ->
  JS.includes (String c EmptyString) s = true.
Proof.
intros Hs Hc. induction s as [|b s IH].
- cbn [JS.includes] in Hs. rewrite orb_false_r in Hs.
  apply (prefix_includes_char c sub); assumption.
- cbn [JS.includes] in Hs. apply orb_true_iff in Hs as [Hs|Hs].
  + apply (prefix_includes_char c sub); assumption.
  + rewrite includes_char_cons, (IH Hs). apply orb_true_r.
Qed.

Lemma hasDatePrefix_includes_T (s : string) :
  SeasonStatsRaces.hasDatePrefix s = true -> JS.includes "T" s = true.
Proof.
unfold SeasonStatsRaces.hasDatePrefix. intros H.
apply orb_true_iff in H as [H|H];
  eapply includes_includes_char; try exact H; reflexivity.
Qed.

Lemma BibBook_timeToSeconds_returns (ts : option string) :
  BibBook.timeToSeconds ts = Returns (returned (BibBook.timeToSeconds ts)).
Proof.
apply returns_returned.
destruct ts as [s|]; [|eexists; reflexivity].
rewrite timeToSeconds_value. eauto.
Qed.

Lemma BibBook_formatTime_returns (ts : option string) :
  exists text, BibBook.formatTime ts = Returns text.
Proof.
unfold BibBook.formatTime.
destruct ts as [[|a s]|]; try (eexists; reflexivity).
destruct (JS.includes "T" (String a s)) eqn:E; [|eexists; reflexivity].
destruct (split_present _ _ E) as (p0 & p1 & rest & ->). eexists; reflexivity.
Qed.

Lemma SeasonStats_timeToSeconds_returns (ts : option string) :
  SeasonStatsRaces.timeToSeconds ts
  = Returns (returned (SeasonStatsRaces.timeToSeconds ts)).
Proof.
apply returns_returned. unfold SeasonStatsRaces.timeToSeconds.
destruct ts as [[|a s]|]; try (eexists; reflexivity).
destruct (String.eqb _ _); [eexists; reflexivity|].
destruct (SeasonStatsRaces.hasDatePrefix (String a s)) eqn:E.
- apply hasDatePrefix_includes_T in E.
  destruct (split_present _ _ E) as (p0 & p1 & rest & ->). eexists; reflexivity.
- destruct (Nat.eqb _ _); eexists; reflexivity.
Qed.

Lemma SeasonStats_formatTime_returns (ts : option string) :
  exists text, SeasonStatsRaces.formatTime ts = Returns text.
Proof.
unfold SeasonStatsRaces.formatTime.
destruct ts as [[|a s]|]; try (eexists; reflexivity).
destruct (String.eqb _ _); [eexists; reflexivity|].
destruct (SeasonStatsRaces.hasDatePrefix (String a s)) eqn:E;
  [|eexists; reflexivity].
apply hasDatePrefix_includes_T in E.
destruct (split_present _ _ E) as (p0 & p1 & rest & ->). eexists; reflexivity.
Qed.

Lemma SeasonStats_hms_three (h m s : string) (rest : list string) :
  SeasonStatsRaces.hms (h :: m :: s :: rest)
  = JS.add (JS.add (JS.mul (JS.Number h) (JS.Fin 3600))
                   (JS.mul (JS.Number m) (JS.Fin 60)))
           (JS.Number s).
Proof. reflexivity. Qed.

Lemma add_NaN_r (x : JS.number) : JS.add x JS.NaN = JS.NaN.
Proof. destruct x; reflexivity. Qed.

Lemma SeasonStats_hms_short (parts : list string) :
  (length parts < 3)%nat -> SeasonStatsRaces.hms parts = JS.NaN.
Proof.
destruct parts as [|h [|m [|s rest]]]; cbn [length]; intros H; try lia;
  unfold SeasonStatsRaces.hms; cbn [map nth]; apply add_NaN_r.
Qed.

Lemma SeasonStats_hms_NaN (h m s : string) (rest : list string) :
  JS.Number h = JS.NaN \/ JS.Number m = JS.NaN \/ JS.Number s = JS.NaN ->
  SeasonStatsRaces.hms (h :: m :: s :: rest) = JS.NaN.
Proof.
rewrite SeasonStats_hms_three.
intros [H|[H|H]]; rewrite H.
- reflexivity.
- destruct (JS.Number h); reflexivity.
- apply add_NaN_r.
Qed.

Lemma SeasonStats_timeToSeconds_dated (str : string) :
  str <> EmptyString -> str <> "N/A"%string ->
  SeasonStatsRaces.hasDatePrefix str = true ->
  exists part,
    nth_error (JS.split "T" str) 1 = Some part /\
    SeasonStatsRaces.timeToSeconds (Some str)
    = Returns (SeasonStatsRaces.hms (JS.split ":" part)).
Proof.
intros Hne Hna Hdate. unfold SeasonStatsRaces.timeToSeconds.
destruct str as [|a s]; [contradiction|].
apply String.eqb_neq in Hna. rewrite Hna, Hdate.
apply hasDatePrefix_includes_T in Hdate.
destruct (split_present _ _ Hdate) as (p0 & p1 & rest & ->).
exists p1. split; reflexivity.
Qed.

Lemma SeasonStats_timeToSeconds_plain (str : string) :
  str <> EmptyString -> str <> "N/A"%string ->
  SeasonStatsRaces.hasDatePrefix str = false ->
  SeasonStatsRaces.timeToSeconds (Some str)
  = Returns (if Nat.eqb (length (JS.split ":" str)) 3
             then SeasonStatsRaces.hms (JS.split ":" str) else JS.Fin 0).
Proof.
intros Hne Hna Hdate. unfold SeasonStatsRaces.timeToSeconds.
destruct str as [|a s]; [contradiction|].
apply String.eqb_neq in Hna. rewrite Hna, Hdate.
destruct (Nat.eqb _ _); reflexivity.
Qed.



(** The two conversions on the same strings: extra pieces after a date
    prefix, a ['T'] without the date prefix, and a decimal piece. *)
Example timeToSeconds_views_differ :
  BibBook.timeToSeconds (Some "1900-01-01T1:2:3:4"%string) = Returns (JS.Fin 0) /\
  SeasonStatsRaces.timeToSeconds (Some "1900-01-01T1:2:3:4"%string)
  = Returns (JS.Fin 3723) /\
  BibBook.timeToSeconds (Some "xT1:2:3"%string) = Returns (JS.Fin 3723) /\
  SeasonStatsRaces.timeToSeconds (Some "xT1:2:3"%string) = Returns JS.NaN /\
  BibBook.timeToSeconds (Some "1.5:0:0"%string) = Returns (JS.Fin 3600) /\
  (exists q, SeasonStatsRaces.timeToSeconds (Some "1.5:0:0"%string)
             = Returns (JS.Fin q) /\ q == 5400) /\
  SeasonStatsRaces.timeToSeconds (Some "a:b:c"%string) = Returns JS.NaN.
Proof.
repeat split; try reflexivity.
eexists. split; [vm_compute; reflexivity|reflexivity].
Qed.


(** ** Medals *)

(** C8: a race with an overall podium finish is shown with the gold medal
    whatever its divisional place; without one, the divisional place 1, 2 or
    3 selects gold, silver or bronze, and there is no medal otherwise.  Both
    race tables agree, the medal shown is the one [getMedalEmoji] picks, and
    on ranks (places from 1) the overall podium is [overall_place <= 3]. *)
Theorem getMedalEmoji_overall_podium_gold (r : Race) :
  (isPodium r = true -> BibBook.getMedalEmoji r = Some Gold) /\
  (isPodium r = false ->
   BibBook.getMedalEmoji r =
   match division_place r with
   | Some 1%Z => Some Gold
   | Some 2%Z => Some Silver
   | Some 3%Z => Some Bronze
   | _ => None
   end) /\
  SeasonStatsRaces.getMedalEmoji r = BibBook.getMedalEmoji r /\
  BibBook.medalShown r = BibBook.getMedalEmoji r /\
  SeasonStatsRaces.medalShown r = BibBook.getMedalEmoji r /\
  ((forall p, overall_place r = Some p -> (1 <= p)%Z) ->
   (isPodium r = true <-> exists p, overall_place r = Some p /\ (p <= 3)%Z)).
Proof.
assert (Hsame : SeasonStatsRaces.getMedalEmoji r = BibBook.getMedalEmoji r).
{ unfold BibBook.getMedalEmoji, SeasonStatsRaces.getMedalEmoji, divisionIs.
  destruct (isPodium r); destruct (division_place r) as [[|[[]|[]|]|]|]; reflexivity. }
assert (Hshown : BibBook.medalShown r = BibBook.getMedalEmoji r).
{ unfold BibBook.medalShown, BibBook.getMedalEmoji, isAgGroupPodium, divisionIs.
  destruct (isPodium r); [rewrite orb_true_r; reflexivity|].
  rewrite orb_false_r.
  destruct (division_place r) as [[|[[]|[]|]|]|]; reflexivity. }
split; [|split; [|split; [exact Hsame|split; [exact Hshown|split]]]].
- unfold BibBook.getMedalEmoji. intros ->. reflexivity.
- unfold BibBook.getMedalEmoji, divisionIs. intros ->.
  destruct (division_place r) as [[|[[]|[]|]|]|]; reflexivity.
- unfold SeasonStatsRaces.medalShown. rewrite Hsame. exact Hshown.
- intros Hrank. unfold isPodium. split.
  + destruct (overall_place r) as [p|]; [|discriminate].
    intros Hp. apply andb_true_iff in Hp as [_ Hp].
    exists p. split; [reflexivity|lia].
  + intros (p & Hp & Hle). rewrite Hp in *.
    specialize (Hrank p eq_refl).
    apply andb_true_iff. split; [apply negb_true_iff|]; lia.
Qed.

Lemma getMedalEmoji_overall_podium_gold_witness :
  (isPodium overallSecond = true /\
   BibBook.getMedalEmoji overallSecond = Some Gold) /\
  ((forall p, overall_place overallSecond = Some p -> (1 <= p)%Z) /\
   (isPodium overallSecond = true <->
    exists p, overall_place overallSecond = Some p /\ (p <= 3)%Z)).
Proof.
assert (Hrank : forall p, overall_place overallSecond = Some p -> (1 <= p)%Z).
{ intros p [= <-]. lia. }
split; split.
- reflexivity.
- apply (proj1 (getMedalEmoji_overall_podium_gold overallSecond)). reflexivity.
- exact Hrank.
- apply (proj2 (proj2 (proj2 (proj2 (proj2
           (getMedalEmoji_overall_podium_gold overallSecond)))))).
  exact Hrank.
Defined.

(** ** Distance classes *)

Lemma ltb_true (x y : Q) : JS.ltb x y = true <-> x < y.
Proof. apply (gtb_true y x). Qed.

Lemma near_iff (d c : Q) : near d c = true <-> Qabs (d - c) < 0.1.
Proof. unfold near, JS.abs. apply ltb_true. Qed.

Lemma near_band (d c : Q) : near d c = true <-> c - 0.1 < d < c + 0.1.
Proof.
rewrite near_iff, Qabs_Qlt_condition. split; intros [H1 H2]; split; lra.
Qed.

Lemma near_false_band (d c : Q) :
  near d c = false <-> ~ (c - 0.1 < d < c + 0.1).
Proof.
rewrite <- near_band. destruct (near d c); split; congruence.
Qed.

Lemma canonical_bands_disjoint (d c c' : Q) :
  In c canonical -> In c' canonical -> ~ c == c' ->
  near d c = true -> near d c' = false /\ Qabs (d - c) < Qabs (d - c').
Proof.
intros Hc Hc' Hne Hnear.
assert (Hfar : 0.1 <= Qabs (d - c')).
{ apply near_band in Hnear.
  apply Qabs_case; intros Hs;
  cbn [canonical In] in Hc, Hc';
  repeat (destruct Hc as [<-|Hc]; [|try contradiction]);
  repeat (destruct Hc' as [<-|Hc']; [|try contradiction]);
  try (exfalso; apply Hne; reflexivity); try lra. }
split.
- apply near_false_band. rewrite <- near_band, near_iff. lra.
- apply near_iff in Hnear. lra.
Qed.

Ltac band_facts :=
  repeat match goal with
         | H : near _ _ = true |- _ => apply near_band in H
         | H : near _ _ = false |- _ => apply near_false_band in H
         end.

Lemma Forall_canonical (P : Q -> Prop) :
  Forall P canonical <-> P 26.2 /\ P 13.1 /\ P 3.1 /\ P 6.21371 /\ P 9.3.
Proof.
unfold canonical. split.
- intros H. repeat (inversion_clear H as [|? ? ? H0]; rename H0 into H; split; [assumption|]).
  inversion_clear H as [|? ? ? H0]. assumption.
- intros (? & ? & ? & ? & ?). repeat constructor; assumption.
Qed.

Lemma getRaceCategory_cases (d : Q) :
  (SeasonStatsRaces.getRaceCategory d = SeasonStatsRaces.Marathon <-> near d 26.2 = true) /\
  (SeasonStatsRaces.getRaceCategory d = SeasonStatsRaces.Half <-> near d 13.1 = true) /\
  (SeasonStatsRaces.getRaceCategory d = SeasonStatsRaces.FiveK <-> near d 3.1 = true) /\
  (SeasonStatsRaces.getRaceCategory d = SeasonStatsRaces.Other <->
   near d 26.2 = false /\ near d 13.1 = false /\ near d 3.1 = false).
Proof.
unfold SeasonStatsRaces.getRaceCategory.
destruct (near d 26.2) eqn:E1, (near d 13.1) eqn:E2, (near d 3.1) eqn:E3;
  try (exfalso; band_facts; lra);
  repeat split; try discriminate; try reflexivity;
  try (intros (? & ? & ?); discriminate).
Qed.

(** ** The bands of the race distances in binary64

    [Math.abs(d - c) < 0.1] subtracts and compares doubles.  The lemmas
    below follow the subtraction through the rounding of the format: a
    difference of at least an eighth is never rounded below 0.1, and
    within the binade of [c] the subtraction is exact, so that the test
    holds on a closed range of doubles. *)

Section Binary64Bands.
Import PrimFloat FloatOps FloatAxioms SpecFloat Binary64.
#[local] Set Warnings "-inexact-float".
Local Open Scope Z_scope.

Lemma digits_pos (p : positive) : 1 <= digits p.
Proof. unfold digits. lia. Qed.

Lemma digits_bounds (p : positive) : 2 ^ (digits p - 1) <= Zpos p < 2 ^ digits p.
Proof.
unfold digits. induction p as [p IH|p IH|]; cbn [digits2_pos].
- rewrite Pos2Z.inj_succ.
  replace (Z.succ (Zpos (digits2_pos p)) - 1) with (Z.succ (Zpos (digits2_pos p) - 1)) by lia.
  rewrite !Z.pow_succ_r by lia. lia.
- rewrite Pos2Z.inj_succ.
  replace (Z.succ (Zpos (digits2_pos p)) - 1) with (Z.succ (Zpos (digits2_pos p) - 1)) by lia.
  rewrite !Z.pow_succ_r by lia. lia.
- cbn. lia.
Qed.

Lemma pow2_pos (n : Z) : 0 <= n -> 0 < 2 ^ n.
Proof. intros. apply Z.pow_pos_nonneg; lia. Qed.

(** More digits, larger number. *)
Lemma digits_le (p q : positive) : (Zpos p <= Zpos q) -> digits p <= digits q.
Proof.
intros H. pose proof (digits_bounds p) as [Hp _]. pose proof (digits_bounds q) as [_ Hq].
destruct (Z_le_gt_dec (digits p) (digits q)) as [|Hgt]; [assumption|].
assert (2 ^ digits q <= 2 ^ (digits p - 1)).
{ apply Z.pow_le_mono_r; [lia|]. lia. }
lia.
Qed.

Lemma digits_lower (p : positive) (n : Z) : 0 <= n -> 2 ^ n <= Zpos p -> n + 1 <= digits p.
Proof.
intros Hn H. pose proof (digits_bounds p) as [_ Hq].
destruct (Z_le_gt_dec (n + 1) (digits p)) as [|Hgt]; [assumption|].
assert (2 ^ digits p <= 2 ^ n).
{ apply Z.pow_le_mono_r; [lia|]. lia. }
lia.
Qed.

Lemma shr_1_m (mrs : shr_record) :
  0 <= shr_m mrs -> shr_m (shr_1 mrs) = shr_m mrs / 2.
Proof.
destruct mrs as [m r s]. cbn [shr_m]. intros Hm.
destruct m as [|p|p]; [reflexivity| |lia].
destruct p as [p|p|]; cbn [shr_1 shr_m].
- apply Z.div_unique with 1; lia.
- apply Z.div_unique with 0; lia.
- reflexivity.
Qed.

Lemma iter_shr_m (p : positive) (mrs : shr_record) :
  0 <= shr_m mrs ->
  shr_m (iter_pos shr_1 p mrs) = shr_m mrs / 2 ^ Zpos p.
Proof.
revert mrs. induction p as [p IH|p IH|]; intros mrs Hm; cbn [iter_pos].
- assert (H1 : 0 <= shr_m (shr_1 mrs)).
  { rewrite shr_1_m by assumption. apply Z.div_pos; lia. }
  assert (H2 : 0 <= shr_m (iter_pos shr_1 p (shr_1 mrs))).
  { rewrite IH by assumption. apply Z.div_pos; [assumption|apply pow2_pos; lia]. }
  rewrite IH, IH, shr_1_m by assumption.
  rewrite !Z.div_div by (try apply pow2_pos; lia).
  f_equal. replace (Zpos p~1) with (1 + Zpos p + Zpos p) by lia.
  rewrite !Z.pow_add_r by lia. lia.
- assert (H2 : 0 <= shr_m (iter_pos shr_1 p mrs)).
  { rewrite IH by assumption. apply Z.div_pos; [assumption|apply pow2_pos; lia]. }
  rewrite IH, IH by assumption.
  rewrite !Z.div_div by (try apply pow2_pos; lia).
  f_equal. replace (Zpos p~0) with (Zpos p + Zpos p) by lia.
  rewrite !Z.pow_add_r by lia. lia.
- rewrite shr_1_m by assumption. reflexivity.
Qed.

Lemma shr_m_of_loc (m : Z) (l : location) : shr_m (shr_record_of_loc m l) = m.
Proof. destruct l as [|[]]; reflexivity. Qed.

Lemma fexp_normal (e : Z) : -1074 <= e - 53 -> fexp 53 1024 e = e - 53.
Proof. intros H. unfold fexp, emin. lia. Qed.

Lemma shr_fexp_pos (p : positive) (e : Z) (l : location) :
  -1074 <= digits p + e - 53 ->
  0 < shr_m (fst (shr_fexp 53 1024 (Zpos p) e l)) /\
  e <= snd (shr_fexp 53 1024 (Zpos p) e l) /\
  digits p + e - 53 <= snd (shr_fexp 53 1024 (Zpos p) e l).
Proof.
intros H. unfold shr_fexp. cbn [Zdigits2]. fold (digits p).
rewrite fexp_normal by lia.
unfold shr.
destruct (digits p + e - 53 - e) as [|k|k] eqn:E; cbn [fst snd].
- rewrite shr_m_of_loc. lia.
- rewrite iter_shr_m by (rewrite shr_m_of_loc; lia).
  rewrite shr_m_of_loc.
  split; [|lia].
  pose proof (digits_bounds p) as [Hlo _].
  apply Z.div_str_pos. split; [apply pow2_pos; lia|].
  eapply Z.le_trans; [|exact Hlo].
  apply Z.pow_le_mono_r; lia.
- rewrite shr_m_of_loc. lia.
Qed.

Lemma round_nearest_even_pos (m : Z) (l : location) :
  0 < m -> 0 < round_nearest_even m l.
Proof.
intros H. unfold round_nearest_even.
destruct l as [|[]]; try destruct (Z.even m); lia.
Qed.

Lemma binary_round_aux_far (s : bool) (p : positive) (e : Z) (l : location) :
  -55 <= digits p + e - 53 ->
  binary_round_aux 53 1024 s (Zpos p) e l = S754_infinity s \/
  exists m e', binary_round_aux 53 1024 s (Zpos p) e l = S754_finite s m e' /\
               digits p + e - 53 <= e'.
Proof.
intros H. unfold binary_round_aux.
pose proof (shr_fexp_pos p e l) as H1.
destruct (shr_fexp 53 1024 (Zpos p) e l) as [mrs1 e1]. cbn [fst snd] in H1.
destruct H1 as (Hm1 & He1 & He1'); [lia|].
pose proof (round_nearest_even_pos (shr_m mrs1) (loc_of_shr_record mrs1) Hm1) as Hm2.
destruct (round_nearest_even (shr_m mrs1) (loc_of_shr_record mrs1)) as [|p2|p2]; try lia.
pose proof (shr_fexp_pos p2 e1 loc_Exact) as H2.
destruct (shr_fexp 53 1024 (Zpos p2) e1 loc_Exact) as [mrs2 e2]. cbn [fst snd] in H2.
pose proof (digits_pos p2).
destruct H2 as (Hm3 & He2 & _); [lia|].
destruct (shr_m mrs2) as [|m3|m3]; try lia.
destruct (e2 <=? 1024 - 53); [|left; reflexivity].
right. exists m3, e2. split; [reflexivity|lia].
Qed.

Lemma iter_xO (m d : positive) : Zpos (Pos.iter xO m d) = Zpos m * 2 ^ Zpos d.
Proof.
induction d as [|d IH] using Pos.peano_ind.
- cbn. lia.
- rewrite Pos.iter_succ, Pos2Z.inj_succ, Z.pow_succ_r by lia.
  rewrite Pos2Z.inj_xO, IH. lia.
Qed.

Lemma digits_iter_xO (m d : positive) : digits (Pos.iter xO m d) = digits m + Zpos d.
Proof.
unfold digits. induction d as [|d IH] using Pos.peano_ind.
- cbn [Pos.iter digits2_pos]. lia.
- rewrite Pos.iter_succ. cbn [digits2_pos]. rewrite Pos2Z.inj_succ, IH. lia.
Qed.

Lemma shl_align_same (m : positive) (e : Z) : shl_align m e e = (m, e).
Proof. unfold shl_align. rewrite Z.sub_diag. reflexivity. Qed.

Lemma shl_align_lt (m : positive) (e e' : Z) :
  e' < e ->
  exists m', shl_align m e e' = (m', e') /\
             Zpos m' = Zpos m * 2 ^ (e - e') /\ digits m' = digits m + (e - e').
Proof.
intros H. unfold shl_align.
destruct (e' - e) as [|d|d] eqn:E; try lia.
exists (Pos.iter xO m d). split; [reflexivity|].
replace (e - e') with (Zpos d) by lia.
split; [apply iter_xO | apply digits_iter_xO].
Qed.

Lemma shl_align_ge (m : positive) (e e' : Z) :
  e <= e' -> shl_align m e e' = (m, e).
Proof.
intros H. unfold shl_align. destruct (e' - e) as [|d|d] eqn:E; try lia; reflexivity.
Qed.

Lemma binary_round_far (s : bool) (p : positive) (e : Z) :
  -2 <= digits p + e ->
  binary_round 53 1024 s p e = S754_infinity s \/
  exists m e', binary_round 53 1024 s p e = S754_finite s m e' /\ -55 <= e'.
Proof.
intros H. unfold binary_round. fold (digits p). rewrite fexp_normal by lia.
destruct (Z_lt_le_dec (digits p + e - 53) e) as [Hlt|Hge].
- destruct (shl_align_lt p e _ Hlt) as (m' & -> & _ & Hd).
  destruct (binary_round_aux_far s m' (digits p + e - 53) loc_Exact) as [Hr|(m & e' & Hr & He)];
    [lia|left; exact Hr|].
  right. exists m, e'. split; [exact Hr|lia].
- rewrite shl_align_ge by assumption.
  destruct (binary_round_aux_far s p e loc_Exact) as [Hr|(m & e' & Hr & He)];
    [lia|left; exact Hr|].
  right. exists m, e'. split; [exact Hr|lia].
Qed.

Lemma double_far_not_near (s : bool) (r : spec_float) :
  r = S754_infinity s \/ (exists m e', r = S754_finite s m e' /\ -55 <= e') ->
  SFltb (SFabs r) tenth = false.
Proof.
intros [->|(m & e' & -> & He)]; [reflexivity|].
unfold SFltb, SFabs, tenth, SFcompare.
assert (E : (e' ?= -56) = Gt) by (apply Z.compare_gt_iff; lia).
rewrite E. reflexivity.
Qed.

Lemma digits_upper (p : positive) (n : Z) : Zpos p < 2 ^ n -> digits p <= n.
Proof.
intros H. pose proof (digits_bounds p) as [Hlo _].
destruct (Z_le_gt_dec (digits p) n) as [|Hgt]; [assumption|].
assert (0 <= n).
{ destruct (Z_le_gt_dec 0 n); [assumption|]. rewrite Z.pow_neg_r in H by lia. lia. }
assert (2 ^ n <= 2 ^ (digits p - 1)) by (apply Z.pow_le_mono_r; lia).
lia.
Qed.

(** A number of at most 53 digits is not rounded. *)
Lemma binary_round_exact (s : bool) (p : positive) (e : Z) :
  digits p <= 53 -> -1074 <= e - (53 - digits p) -> e - (53 - digits p) <= 971 ->
  exists m, binary_round 53 1024 s p e = S754_finite s m (e - (53 - digits p)) /\
            Zpos m = Zpos p * 2 ^ (53 - digits p).
Proof.
intros Hd Hlo Hhi. unfold binary_round. fold (digits p). rewrite fexp_normal by lia.
assert (Haux : forall m', digits m' = 53 ->
          binary_round_aux 53 1024 s (Zpos m') (e - (53 - digits p)) loc_Exact
          = S754_finite s m' (e - (53 - digits p))).
{ intros m' Hm'. unfold binary_round_aux, shr_fexp. cbn [Zdigits2]. fold (digits m').
  rewrite Hm', fexp_normal by lia.
  replace (53 + (e - (53 - digits p)) - 53 - (e - (53 - digits p))) with 0 by lia.
  cbn [shr shr_record_of_loc shr_m loc_of_shr_record round_nearest_even Zdigits2].
  fold (digits m'). rewrite Hm', fexp_normal by lia.
  replace (53 + (e - (53 - digits p)) - 53 - (e - (53 - digits p))) with 0 by lia.
  cbn [shr shr_record_of_loc shr_m].
  replace (e - (53 - digits p) <=? 1024 - 53) with true by (symmetry; apply Z.leb_le; lia).
  reflexivity. }
destruct (Z_lt_le_dec (digits p + e - 53) e) as [Hlt|Hge].
- destruct (shl_align_lt p e _ Hlt) as (m' & -> & Hm' & Hd').
  exists m'. replace (digits p + e - 53) with (e - (53 - digits p)) by lia.
  split; [apply Haux; lia|].
  rewrite Hm'. f_equal. f_equal. lia.
- rewrite shl_align_ge by assumption.
  assert (digits p = 53) by lia.
  exists p. replace e with (e - (53 - digits p)) at 1 by lia.
  split; [apply Haux; assumption|].
  replace (53 - digits p) with 0 by lia. lia.
Qed.

Lemma SFleb_same_exp (a b : positive) (e : Z) :
  SFleb (S754_finite false a e) (S754_finite false b e) = (Zpos a <=? Zpos b).
Proof.
unfold SFleb, SFcompare. rewrite Z.compare_refl.
unfold Z.leb. cbn [Z.compare]. change (Pos.compare_cont Eq a b) with (a ?= b)%positive.
destruct (a ?= b)%positive; reflexivity.
Qed.

Lemma SFleb_lt_exp (a b : positive) (e1 e2 : Z) :
  e1 < e2 ->
  SFleb (S754_finite false a e1) (S754_finite false b e2) = true /\
  SFleb (S754_finite false b e2) (S754_finite false a e1) = false.
Proof.
intros H. unfold SFleb, SFcompare.
assert (E1 : (e1 ?= e2) = Lt) by (apply Z.compare_lt_iff; lia).
assert (E2 : (e2 ?= e1) = Gt) by (apply Z.compare_gt_iff; lia).
rewrite E1, E2. split; reflexivity.
Qed.

Section Band.


Variable mc : positive.
Variable ec : Z.
Let c : spec_float := S754_finite false mc ec.
Let w : Z := (tenthMantissa - 1) / 2 ^ (ec + 56).
Let lo : positive := Z.to_pos (Zpos mc - w).
Let hi : positive := Z.to_pos (Zpos mc + w).

Hypothesis Hdc : digits mc = 53.
Hypothesis Hec : -51 <= ec <= -48.
Hypothesis Hmc : 2 ^ 52 < Zpos mc.
Hypothesis Hlo : 2 ^ 52 <= Zpos mc - w.
Hypothesis Hhi : Zpos mc + w < 2 ^ 53.
Hypothesis Habove : -2 <= digits (Z.to_pos (2 ^ 53 - Zpos mc)) + ec.
Hypothesis Hbelow : -2 <= digits (Z.to_pos (Zpos mc - 2 ^ 52)) + ec.

Lemma band_width_nonneg : 0 <= w.
Proof. unfold w. apply Z.div_pos; [unfold tenthMantissa; lia|apply pow2_pos; lia]. Qed.

Lemma le_band_width (p : Z) : p <= w <-> p * 2 ^ (ec + 56) < tenthMantissa.
Proof.
unfold w. pose proof (pow2_pos (ec + 56)) as Hp.
split; intros H.
- assert (H' : p * 2 ^ (ec + 56) <= (tenthMantissa - 1) / 2 ^ (ec + 56) * 2 ^ (ec + 56))
    by (apply Z.mul_le_mono_nonneg_r; lia).
  pose proof (Z.mul_div_le (tenthMantissa - 1) (2 ^ (ec + 56))). lia.
- apply Z.div_le_lower_bound; lia.
Qed.

(** The difference of two numbers of the binade of [c]. *)
Lemma double_near_exact (s : bool) (p : positive) :
  Zpos p < 2 ^ 53 ->
  SFltb (SFabs (binary_round 53 1024 s p ec)) tenth = (Zpos p <=? w).
Proof.
intros Hp.
pose proof (digits_upper p 53 Hp) as Hd. pose proof (digits_pos p) as Hd1.
pose proof (digits_bounds p) as [Hplo Hphi].
destruct (binary_round_exact s p ec Hd) as (m & -> & Hm); [lia|lia|].
set (k := 53 - digits p) in *.
unfold SFabs, SFltb, tenth, SFcompare.
assert (Hpow : 2 ^ 53 = 2 ^ digits p * 2 ^ k).
{ rewrite <- Z.pow_add_r by lia. f_equal. lia. }
assert (Hpow' : 2 ^ 52 = 2 ^ (digits p - 1) * 2 ^ k).
{ rewrite <- Z.pow_add_r by lia. f_equal. lia. }
pose proof (pow2_pos k) as Hk. pose proof (pow2_pos (ec + 56)) as Hj.
destruct (Z.compare_spec (ec - k) (-56)) as [E|E|E].
- rewrite Pos.compare_cont_spec. cbn [Pos.switch_Eq].
  rewrite Pos2Z.inj_compare. fold tenthMantissa.
  rewrite Hm. replace k with (ec + 56) by lia.
  pose proof (le_band_width (Zpos p)) as [Hw1 Hw2].
  destruct (Z.compare_spec (Zpos p * 2 ^ (ec + 56)) tenthMantissa) as [E'|E'|E'];
    destruct (Z.leb_spec (Zpos p) w); try reflexivity; exfalso; lia.
- symmetry. apply Z.leb_le, le_band_width.
  assert (H1 : 2 ^ (ec + 56) * 2 <= 2 ^ k).
  { replace k with (Z.succ (k - 1)) by lia.
    rewrite Z.pow_succ_r by lia.
    assert (2 ^ (ec + 56) <= 2 ^ (k - 1)) by (apply Z.pow_le_mono_r; lia). lia. }
  assert (H2 : Zpos p * (2 ^ (ec + 56) * 2) < 2 ^ 53) by nia.
  unfold tenthMantissa. change (2 ^ 53) with 9007199254740992 in H2. lia.
- destruct (Z.leb_spec (Zpos p) w) as [H|H]; [|reflexivity].
  exfalso. apply le_band_width in H.
  assert (H1 : 2 ^ k * 2 <= 2 ^ (ec + 56)).
  { replace (ec + 56) with (Z.succ (ec + 55)) by lia.
    rewrite Z.pow_succ_r by lia.
    assert (2 ^ k <= 2 ^ (ec + 55)) by (apply Z.pow_le_mono_r; lia). lia. }
  assert (H2 : 2 ^ 52 * 2 <= Zpos p * 2 ^ (ec + 56)) by nia.
  unfold tenthMantissa in H. change (2 ^ 52) with 4503599627370496 in H2. lia.
Qed.

Lemma double_near_band (x : spec_float) :
  valid_binary 53 1024 x = true ->
  SFltb (SFabs (SFsub 53 1024 x c)) tenth
  = SFleb (S754_finite false lo ec) x && SFleb x (S754_finite false hi ec).
Proof.
intros Hvalid. pose proof band_width_nonneg as Hw.
assert (Hlo' : Zpos lo = Zpos mc - w).
{ unfold lo. rewrite Z2Pos.id; [reflexivity|]. change (2 ^ 52) with 4503599627370496 in Hlo. lia. }
assert (Hhi' : Zpos hi = Zpos mc + w) by (unfold hi; rewrite Z2Pos.id; lia).
destruct x as [s|s| |sx mx ex].
- (* zero *)
  unfold c, SFsub, SFabs, SFltb, SFleb, tenth, SFcompare. cbn [negb].
  assert (E : (ec ?= -56) = Gt) by (apply Z.compare_gt_iff; lia).
  rewrite E. reflexivity.
- (* infinity *)
  destruct s; reflexivity.
- reflexivity.
- (* finite *)
  cbn [valid_binary] in Hvalid. unfold bounded, canonical_mantissa in Hvalid.
  apply andb_true_iff in Hvalid as [Hcan _]. apply Z.eqb_eq in Hcan.
  fold (digits mx) in Hcan. unfold fexp, emin in Hcan.
  pose proof (digits_bounds mx) as [Hmxlo Hmxhi].
  pose proof (digits_bounds mc) as [Hmclo Hmchi]. rewrite Hdc in Hmclo, Hmchi.
  change (2 ^ (53 - 1)) with (2 ^ 52) in Hmclo.
  destruct sx.
  + (* negative *)
    assert (Hrhs : SFleb (S754_finite false lo ec) (S754_finite true mx ex) = false)
      by reflexivity.
    rewrite Hrhs. cbn [andb].
    unfold c, SFsub.
    set (ez := Z.min ex ec).
    assert (Hc : exists b, fst (shl_align mc ec ez) = b /\ digits mc + (ec - ez) <= digits b).
    { destruct (Z_lt_le_dec ez ec) as [H|H].
      - destruct (shl_align_lt mc ec ez H) as (b & -> & _ & Hb). exists b. split; [reflexivity|lia].
      - replace ez with ec by (unfold ez in *; lia). rewrite shl_align_same.
        exists mc. split; [reflexivity|lia]. }
    destruct Hc as (b & -> & Hb).
    cbn [cond_Zopp Z.opp Z.sub Z.add binary_normalize].
    apply (double_far_not_near true).
    apply binary_round_far.
    assert (digits b <= digits (fst (shl_align mx ex ez) + b)%positive) by (apply digits_le; lia).
    lia.
  + destruct (Z.compare_spec ex ec) as [E|E|E].
    * (* the binade of c *)
      subst ex.
      assert (Hdx : digits mx = 53) by lia.
      rewrite Hdx in Hmxlo, Hmxhi. change (2 ^ (53 - 1)) with (2 ^ 52) in Hmxlo.
      rewrite !SFleb_same_exp, Hlo', Hhi'.
      unfold c, SFsub. rewrite Z.min_id, !shl_align_same.
      cbn [fst cond_Zopp].
      destruct (Zpos mx - Zpos mc) as [|p|p] eqn:Ep; cbn [binary_normalize].
      -- replace (Zpos mx) with (Zpos mc) by lia.
         replace (Zpos mc - w <=? Zpos mc) with true by (symmetry; apply Z.leb_le; lia).
         replace (Zpos mc <=? Zpos mc + w) with true by (symmetry; apply Z.leb_le; lia).
         reflexivity.
      -- rewrite double_near_exact by lia.
         replace (Zpos mc - w <=? Zpos mx) with true by (symmetry; apply Z.leb_le; lia).
         cbn [andb]. replace (Zpos mx) with (Zpos mc + Zpos p) by lia.
         destruct (Z.leb_spec (Zpos p) w); symmetry; [apply Z.leb_le|apply Z.leb_gt]; lia.
      -- rewrite double_near_exact by lia.
         replace (Zpos mx <=? Zpos mc + w) with true by (symmetry; apply Z.leb_le; lia).
         rewrite andb_true_r. replace (Zpos mx) with (Zpos mc - Zpos p) by lia.
         destruct (Z.leb_spec (Zpos p) w); symmetry; [apply Z.leb_le|apply Z.leb_gt]; lia.
    * (* below the binade of c *)
      destruct (SFleb_lt_exp mx lo ex ec E) as [_ Hrhs]. rewrite Hrhs. cbn [andb].
      assert (Hdx : digits mx <= 53) by lia.
      unfold c, SFsub. replace (Z.min ex ec) with ex by lia.
      rewrite shl_align_same.
      destruct (shl_align_lt mc ec ex E) as (b & -> & Hb & _).
      cbn [fst cond_Zopp].
      set (K := Z.to_pos (Zpos mc - 2 ^ 52)) in *.
      assert (HK : Zpos K = Zpos mc - 2 ^ 52).
      { unfold K. rewrite Z2Pos.id; [reflexivity|].
        change (2 ^ 52) with 4503599627370496 in *. lia. }
      pose proof (digits_bounds K) as [HKlo _]. pose proof (digits_pos K) as HK1.
      assert (Hmx53 : Zpos mx < 2 ^ 53).
      { eapply Z.lt_le_trans; [exact Hmxhi|]. apply Z.pow_le_mono_r; lia. }
      pose proof (pow2_pos (ec - ex)) as Hk.
      assert (Hk2 : 2 <= 2 ^ (ec - ex)).
      { change 2 with (2 ^ 1) at 1. apply Z.pow_le_mono_r; lia. }
      assert (Hbig : (Zpos K) * 2 ^ (ec - ex) <= Zpos b - Zpos mx).
      { rewrite Hb, HK. change (2 ^ 53) with (2 ^ 52 * 2) in Hmx53. nia. }
      destruct (Zpos mx - Zpos b) as [|p|p] eqn:Ep; try nia.
      cbn [binary_normalize].
      apply (double_far_not_near true). apply binary_round_far.
      assert (digits K - 1 + (ec - ex) + 1 <= digits p).
      { apply digits_lower; [lia|]. rewrite Z.pow_add_r by lia.
        assert (2 ^ (digits K - 1) * 2 ^ (ec - ex) <= Zpos K * 2 ^ (ec - ex))
          by (apply Z.mul_le_mono_nonneg_r; lia).
        lia. }
      lia.
    * (* above the binade of c *)
      destruct (SFleb_lt_exp hi mx ec ex E) as [_ Hrhs]. rewrite Hrhs, andb_false_r.
      assert (Hdx : digits mx = 53) by lia.
      rewrite Hdx in Hmxlo. change (2 ^ (53 - 1)) with (2 ^ 52) in Hmxlo.
      unfold c, SFsub. replace (Z.min ex ec) with ec by lia.
      rewrite shl_align_same.
      destruct (shl_align_lt mx ex ec E) as (a & -> & Ha & _).
      cbn [fst cond_Zopp].
      set (K := Z.to_pos (2 ^ 53 - Zpos mc)) in *.
      assert (HK : Zpos K = 2 ^ 53 - Zpos mc) by (unfold K; rewrite Z2Pos.id; lia).
      assert (Hk2 : 2 <= 2 ^ (ex - ec)).
      { change 2 with (2 ^ 1) at 1. apply Z.pow_le_mono_r; lia. }
      assert (Hbig : Zpos K <= Zpos a - Zpos mc).
      { rewrite Ha, HK. change (2 ^ 53) with (2 ^ 52 * 2). nia. }
      destruct (Zpos a - Zpos mc) as [|p|p] eqn:Ep; try lia.
      cbn [binary_normalize].
      apply (double_far_not_near false). apply binary_round_far.
      assert (digits K <= digits p) by (apply digits_le; lia).
      lia.
Qed.

End Band.

(** A number between two numbers of one binade is of that binade. *)
Lemma in_band_inv (lo hi : positive) (e : Z) (x : spec_float) :
  SFleb (S754_finite false lo e) x && SFleb x (S754_finite false hi e) = true ->
  exists m, x = S754_finite false m e /\ Zpos lo <= Zpos m <= Zpos hi.
Proof.
destruct x as [s|s| |sx mx ex]; try discriminate.
- destruct s; discriminate.
- destruct sx; [discriminate|].
  destruct (Z.compare_spec e ex) as [E|E|E].
  + subst ex. rewrite !SFleb_same_exp. intros H.
    apply andb_true_iff in H as [H1 H2]. apply Z.leb_le in H1, H2.
    exists mx. split; [reflexivity|lia].
  + destruct (SFleb_lt_exp hi mx e ex E) as [_ ->]. rewrite andb_false_r. discriminate.
  + destruct (SFleb_lt_exp mx lo ex e E) as [_ ->]. discriminate.
Qed.

Local Open Scope float_scope.

Ltac band_side :=
  match goal with
  | |- _ = _ => vm_compute; reflexivity
  | |- (_ <= _ <= _)%Z => split; apply Z.leb_le; vm_compute; reflexivity
  | |- (_ <= _)%Z => apply Z.leb_le; vm_compute; reflexivity
  | |- (_ < _)%Z => apply Z.ltb_lt; vm_compute; reflexivity
  end.

Example tenth_is_a_tenth : Prim2SF 0.1 = tenth.
Proof. reflexivity. Qed.

Lemma near_marathon (d : float) :
  near d 26.2 = (26.1 <=? d) && (d <=? 26.299999999999997).
Proof.
unfold near. rewrite ltb_spec, abs_spec, sub_spec, !leb_spec.
apply (double_near_band 7374644389819187 (-48)); try band_side.
apply Prim2SF_valid.
Qed.

Lemma near_half (d : float) : near d 13.1 = (13 <=? d) && (d <=? 13.2).
Proof.
unfold near. rewrite ltb_spec, abs_spec, sub_spec, !leb_spec.
apply (double_near_band 7374644389819187 (-49)); try band_side.
apply Prim2SF_valid.
Qed.

Lemma near_5K (d : float) :
  near d 3.1 = (3.0000000000000004 <=? d) && (d <=? 3.1999999999999997).
Proof.
unfold near. rewrite ltb_spec, abs_spec, sub_spec, !leb_spec.
apply (double_near_band 6980579422424269 (-51)); try band_side.
apply Prim2SF_valid.
Qed.

Lemma near_10K (d : float) :
  near d 6.21371 = (6.11371 <=? d) && (d <=? 6.3137099999999995).
Proof.
unfold near. rewrite ltb_spec, abs_spec, sub_spec, !leb_spec.
apply (double_near_band 6996015510147081 (-50)); try band_side.
apply Prim2SF_valid.
Qed.

Lemma near_15K (d : float) :
  near d 9.3 = (9.2000000000000011 <=? d) && (d <=? 9.4).
Proof.
unfold near. rewrite ltb_spec, abs_spec, sub_spec, !leb_spec.
apply (double_near_band 5235434566818202 (-49)); try band_side.
apply Prim2SF_valid.
Qed.

(** The mantissas of each band. *)
Lemma band_marathon (d : float) :
  near d 26.2 = true ->
  exists m, Prim2SF d = S754_finite false m (-48) /\
            (7346496892148122 <= Zpos m <= 7402791887490252)%Z.
Proof.
rewrite near_marathon, !leb_spec. intros H.
exact (in_band_inv 7346496892148122 7402791887490252 (-48) _ H).
Qed.

Lemma band_half (d : float) :
  near d 13.1 = true ->
  exists m, Prim2SF d = S754_finite false m (-49) /\
            (7318349394477056 <= Zpos m <= 7430939385161318)%Z.
Proof.
rewrite near_half, !leb_spec. intros H.
exact (in_band_inv 7318349394477056 7430939385161318 (-49) _ H).
Qed.

Lemma band_5K (d : float) :
  near d 3.1 = true ->
  exists m, Prim2SF d = S754_finite false m (-51) /\
            (6755399441055745 <= Zpos m <= 7205759403792793)%Z.
Proof.
rewrite near_5K, !leb_spec. intros H.
exact (in_band_inv 6755399441055745 7205759403792793 (-51) _ H).
Qed.

Lemma band_10K (d : float) :
  near d 6.21371 = true ->
  exists m, Prim2SF d = S754_finite false m (-50) /\
            (6883425519462819 <= Zpos m <= 7108605500831343)%Z.
Proof.
rewrite near_10K, !leb_spec. intros H.
exact (in_band_inv 6883425519462819 7108605500831343 (-50) _ H).
Qed.

Lemma band_15K (d : float) :
  near d 9.3 = true ->
  exists m, Prim2SF d = S754_finite false m (-49) /\
            (5179139571476071 <= Zpos m <= 5291729562160333)%Z.
Proof.
rewrite near_15K, !leb_spec. intros H.
exact (in_band_inv 5179139571476071 5291729562160333 (-49) _ H).
Qed.

Ltac in_band H :=
  first [apply band_marathon in H | apply band_half in H | apply band_5K in H
        | apply band_10K in H | apply band_15K in H];
  destruct H as (? & ? & ?).

(** No double is in two bands. *)
Lemma double_bands_disjoint (d c c' : float) :
  In c canonical -> In c' canonical -> c <> c' ->
  near d c = true -> near d c' = false.
Proof.
intros Hc Hc' Hne H.
destruct (near d c') eqn:H'; [exfalso|reflexivity].
cbn [canonical In] in Hc, Hc'.
repeat (destruct Hc as [<-|Hc]; [|try contradiction]);
  repeat (destruct Hc' as [<-|Hc']; [|try contradiction]);
  try (apply Hne; reflexivity);
  in_band H; in_band H';
  match goal with
  | E : Prim2SF d = _, E' : Prim2SF d = _ |- _ =>
      rewrite E in E'; injection E' as E'; try discriminate; try lia
  end.
Qed.

Lemma Forall_canonical64 (P : float -> Prop) :
  Forall P canonical <-> P 26.2 /\ P 13.1 /\ P 3.1 /\ P 6.21371 /\ P 9.3.
Proof.
unfold canonical. split.
- intros H. repeat (inversion_clear H as [|? ? ? H0]; rename H0 into H; split; [assumption|]).
  inversion_clear H as [|? ? ? H0]. assumption.
- intros (? & ? & ? & ? & ?). repeat constructor; assumption.
Qed.

Lemma float_neq (x y : float) : Prim2SF x <> Prim2SF y -> x <> y.
Proof. intros H ->. apply H. reflexivity. Qed.

Ltac canonical_neq := apply float_neq; vm_compute; discriminate.
Ltac is_canonical := unfold canonical; cbn [In]; tauto.

Ltac band_clash d :=
  match goal with
  | H : near d ?c = true, H' : near d ?c' = true |- _ =>
      lazymatch c with c' => fail | _ => idtac end;
      exfalso;
      rewrite (double_bands_disjoint d c c') in H';
      [discriminate|is_canonical|is_canonical|canonical_neq|exact H]
  end.

Lemma double_distanceLabel_cases (d : float) :
  (distanceLabel d = Marathon <-> near d 26.2 = true) /\
  (distanceLabel d = HalfMarathon <-> near d 13.1 = true) /\
  (distanceLabel d = FiveK <-> near d 3.1 = true) /\
  (distanceLabel d = TenK <-> near d 6.21371 = true) /\
  (distanceLabel d = FifteenK <-> near d 9.3 = true) /\
  (distanceLabel d = Miles d <-> Forall (fun c => near d c = false) canonical).
Proof.
rewrite Forall_canonical64. unfold distanceLabel.
destruct (near d 26.2) eqn:H1; destruct (near d 13.1) eqn:H2;
  destruct (near d 3.1) eqn:H3; destruct (near d 6.21371) eqn:H4;
  destruct (near d 9.3) eqn:H5;
  try band_clash d;
  repeat split; intros; try discriminate; try reflexivity;
  repeat match goal with H : _ /\ _ |- _ => destruct H end; discriminate.
Qed.

Lemma double_getRaceCategory_cases (d : float) :
  (getRaceCategory d = SeasonStatsRaces.Marathon <-> near d 26.2 = true) /\
  (getRaceCategory d = SeasonStatsRaces.Half <-> near d 13.1 = true) /\
  (getRaceCategory d = SeasonStatsRaces.FiveK <-> near d 3.1 = true) /\
  (getRaceCategory d = SeasonStatsRaces.Other <->
   near d 26.2 = false /\ near d 13.1 = false /\ near d 3.1 = false).
Proof.
unfold getRaceCategory.
destruct (near d 26.2) eqn:H1; destruct (near d 13.1) eqn:H2;
  destruct (near d 3.1) eqn:H3;
  try band_clash d;
  repeat split; intros; try discriminate; try reflexivity;
  repeat match goal with H : _ /\ _ |- _ => destruct H end; discriminate.
Qed.

(** *** The nearest canonical distance *)

Local Open Scope Z_scope.

Lemma SFltb_finite (m1 m2 : positive) (e1 e2 : Z) :
  SFltb (S754_finite false m1 e1) (S754_finite false m2 e2) = true <->
  e1 < e2 \/ (e1 = e2 /\ Zpos m1 < Zpos m2).
Proof.
unfold SFltb. cbn [SFcompare].
destruct (Z.compare_spec e1 e2) as [E|E|E].
- rewrite Pos.compare_cont_spec. cbn [Pos.switch_Eq].
  destruct (Pos.compare_spec m1 m2) as [F|F|F]; split; intros H;
    try discriminate; try reflexivity; try lia.
- split; [left; assumption|reflexivity].
- split; [discriminate|lia].
Qed.

(** Below a bound that another distance does not undercut. *)
Lemma SFltb_abs_below (a b : spec_float) (mt : positive) (et : Z) :
  SFltb (SFabs a) (S754_finite false mt et) = true ->
  SFltb (SFabs b) (S754_finite false mt et) = false ->
  b <> S754_nan ->
  SFltb (SFabs a) (SFabs b) = true.
Proof.
intros Ha Hb Hnan.
destruct b as [sb|sb| |sb mb eb]; [discriminate| | contradiction |].
- destruct a as [sa|sa| |sa ma ea]; try discriminate; reflexivity.
- destruct a as [sa|sa| |sa ma ea]; try discriminate; [reflexivity|].
  cbn [SFabs] in *. apply SFltb_finite. apply SFltb_finite in Ha.
  destruct (SFltb (S754_finite false mb eb) (S754_finite false mt et)) eqn:E;
    [discriminate|].
  assert (Hn : ~ (eb < et \/ (eb = et /\ Zpos mb < Zpos mt))).
  { intros H. apply SFltb_finite in H. congruence. }
  lia.
Qed.

Lemma round_nearest_even_nonneg (m : Z) (l : location) :
  0 <= m -> 0 <= round_nearest_even m l.
Proof.
intros H. unfold round_nearest_even.
destruct l as [|[]]; try destruct (Z.even m); lia.
Qed.

Lemma shr_fexp_nonneg (m e : Z) (l : location) :
  0 <= m -> 0 <= shr_m (fst (shr_fexp 53 1024 m e l)).
Proof.
intros H. unfold shr_fexp, shr.
destruct (fexp 53 1024 (Zdigits2 m + e) - e) as [|p|p]; cbn [fst];
  try (rewrite shr_m_of_loc; assumption).
rewrite iter_shr_m by (rewrite shr_m_of_loc; assumption).
rewrite shr_m_of_loc. apply Z.div_pos; [assumption|apply pow2_pos; lia].
Qed.

Lemma binary_round_aux_number (s : bool) (m e : Z) (l : location) :
  0 <= m -> binary_round_aux 53 1024 s m e l <> S754_nan.
Proof.
intros H. unfold binary_round_aux.
pose proof (shr_fexp_nonneg m e l H) as H1.
destruct (shr_fexp 53 1024 m e l) as [mrs1 e1]. cbn [fst] in H1.
pose proof (round_nearest_even_nonneg _ (loc_of_shr_record mrs1) H1) as H2.
pose proof (shr_fexp_nonneg _ e1 loc_Exact H2) as H3.
destruct (shr_fexp 53 1024 (round_nearest_even (shr_m mrs1) (loc_of_shr_record mrs1)) e1
            loc_Exact) as [mrs2 e2].
cbn [fst] in H3.
destruct (shr_m mrs2) as [|m3|m3]; [discriminate| |lia].
destruct (e2 <=? 1024 - 53); discriminate.
Qed.

Lemma binary_round_number (s : bool) (p : positive) (e : Z) :
  binary_round 53 1024 s p e <> S754_nan.
Proof.
unfold binary_round.
destruct (shl_align p e (fexp 53 1024 (Zpos (digits2_pos p) + e))) as [mz ez].
apply binary_round_aux_number. lia.
Qed.

(** The difference of two finite doubles is a number. *)
Lemma SFsub_finite_number (sx sy : bool) (mx my : positive) (ex ey : Z) :
  SFsub 53 1024 (S754_finite sx mx ex) (S754_finite sy my ey) <> S754_nan.
Proof.
unfold SFsub, binary_normalize.
match goal with |- context [match ?z with Z0 => _ | Zpos _ => _ | Zneg _ => _ end] =>
  destruct z end; [discriminate|apply binary_round_number..].
Qed.

Local Open Scope float_scope.

Lemma canonical_finite (c : float) :
  In c canonical -> exists m e, Prim2SF c = S754_finite false m e.
Proof.
unfold canonical. cbn [In].
intros [<-|[<-|[<-|[<-|[<-|[]]]]]]; eexists; eexists; vm_compute; reflexivity.
Qed.

Lemma band_finite (d c : float) :
  In c canonical -> near d c = true ->
  exists m e, Prim2SF d = S754_finite false m e.
Proof.
unfold canonical. cbn [In].
intros [<-|[<-|[<-|[<-|[<-|[]]]]]] H; in_band H; eauto.
Qed.

(** A distance within the tolerance of a canonical distance is nearer to
    it than to any other canonical distance. *)
Lemma double_band_nearest (d c c' : float) :
  In c canonical -> In c' canonical -> c <> c' ->
  near d c = true -> (abs (d - c) <? abs (d - c')) = true.
Proof.
intros Hc Hc' Hne H.
pose proof (double_bands_disjoint d c c' Hc Hc' Hne H) as H'.
destruct (band_finite d c Hc H) as (m & e & Ed).
destruct (canonical_finite c' Hc') as (m' & e' & Ec').
unfold near in H, H'.
rewrite ltb_spec, abs_spec, sub_spec in H, H'.
rewrite ltb_spec, !abs_spec, !sub_spec.
apply (SFltb_abs_below _ _ 7205759403792794 (-56)); [exact H|exact H'|].
rewrite Ed, Ec'. apply SFsub_finite_number.
Qed.

(** C4 (as the code has it): [PerformanceLab] labels a race that has a
    distance and a time with the canonical class (marathon 26.2, half
    marathon 13.1, 5K 3.1, 10K 6.21371, 15K 9.3) for which
    [Math.abs(distance - canonical) < 0.1] holds in double arithmetic, and
    with its raw mileage when the test holds for none.  The test holds on
    a closed range of doubles, both ends included: 26.1 to
    26.299999999999997, 13 to 13.2, 3.0000000000000004 to
    3.1999999999999997, 6.11371 to 6.3137099999999995 and
    9.2000000000000011 to 9.4.  The ranges are disjoint, so that the order
    of the tests does not matter, and a distance in a range is nearer to
    its canonical distance than to any other.  The season view's
    [getRaceCategory] makes the marathon, half marathon and 5K tests only
    and calls every other race 'Other'. *)
Theorem distanceLabel_tolerance_bands (d : float) :
  ((abs (d - 26.2) <? 0.1) = (26.1 <=? d) && (d <=? 26.299999999999997)) /\
  ((abs (d - 13.1) <? 0.1) = (13 <=? d) && (d <=? 13.2)) /\
  ((abs (d - 3.1) <? 0.1) = (3.0000000000000004 <=? d) && (d <=? 3.1999999999999997)) /\
  ((abs (d - 6.21371) <? 0.1) = (6.11371 <=? d) && (d <=? 6.3137099999999995)) /\
  ((abs (d - 9.3) <? 0.1) = (9.2000000000000011 <=? d) && (d <=? 9.4)) /\
  (Binary64.distanceLabel d = Binary64.Marathon <->
   (26.1 <=? d) && (d <=? 26.299999999999997) = true) /\
  (Binary64.distanceLabel d = Binary64.HalfMarathon <->
   (13 <=? d) && (d <=? 13.2) = true) /\
  (Binary64.distanceLabel d = Binary64.FiveK <->
   (3.0000000000000004 <=? d) && (d <=? 3.1999999999999997) = true) /\
  (Binary64.distanceLabel d = Binary64.TenK <->
   (6.11371 <=? d) && (d <=? 6.3137099999999995) = true) /\
  (Binary64.distanceLabel d = Binary64.FifteenK <->
   (9.2000000000000011 <=? d) && (d <=? 9.4) = true) /\
  (Binary64.distanceLabel d = Binary64.Miles d <->
   Forall (fun c => (abs (d - c) <? 0.1) = false) Binary64.canonical) /\
  (forall c c', In c Binary64.canonical -> In c' Binary64.canonical -> c <> c' ->
     (abs (d - c) <? 0.1) = true ->
     (abs (d - c') <? 0.1) = false /\ (abs (d - c) <? abs (d - c')) = true) /\
  (forall time,
     Binary64.labelOf d time =
     if Binary64.truthy d && JS.truthyStr time
     then Some (Binary64.distanceLabel d) else None) /\
  (Binary64.getRaceCategory d = SeasonStatsRaces.Marathon <->
   (26.1 <=? d) && (d <=? 26.299999999999997) = true) /\
  (Binary64.getRaceCategory d = SeasonStatsRaces.Half <->
   (13 <=? d) && (d <=? 13.2) = true) /\
  (Binary64.getRaceCategory d = SeasonStatsRaces.FiveK <->
   (3.0000000000000004 <=? d) && (d <=? 3.1999999999999997) = true) /\
  (Binary64.getRaceCategory d = SeasonStatsRaces.Other <->
   (abs (d - 26.2) <? 0.1) = false /\ (abs (d - 13.1) <? 0.1) = false /\
   (abs (d - 3.1) <? 0.1) = false).
Proof.
destruct (double_distanceLabel_cases d) as (L1 & L2 & L3 & L4 & L5 & L6).
destruct (double_getRaceCategory_cases d) as (G1 & G2 & G3 & G4).
rewrite near_marathon in L1, G1. rewrite near_half in L2, G2.
rewrite near_5K in L3, G3. rewrite near_10K in L4. rewrite near_15K in L5.
split; [exact (near_marathon d)|]. split; [exact (near_half d)|].
split; [exact (near_5K d)|]. split; [exact (near_10K d)|].
split; [exact (near_15K d)|].
split; [exact L1|]. split; [exact L2|]. split; [exact L3|].
split; [exact L4|]. split; [exact L5|]. split; [exact L6|].
split.
{ intros c c' Hc Hc' Hne H. split.
  - exact (double_bands_disjoint d c c' Hc Hc' Hne H).
  - exact (double_band_nearest d c c' Hc Hc' Hne H). }
split; [intros time; reflexivity|].
split; [exact G1|]. split; [exact G2|]. split; [exact G3|]. exact G4.
Qed.

Lemma distanceLabel_tolerance_bands_witness :
  In 13.1 Binary64.canonical /\ In 26.2 Binary64.canonical /\ 13.1 <> 26.2 /\
  (abs (13 - 13.1) <? 0.1) = true /\
  (abs (13 - 26.2) <? 0.1) = false /\ (abs (13 - 13.1) <? abs (13 - 26.2)) = true.
Proof.
assert (H1 : In 13.1 Binary64.canonical) by (right; left; reflexivity).
assert (H2 : In 26.2 Binary64.canonical) by (left; reflexivity).
assert (H3 : 13.1 <> 26.2) by (apply float_neq; vm_compute; discriminate).
assert (H4 : (abs (13 - 13.1) <? 0.1) = true) by reflexivity.
split; [exact H1|]. split; [exact H2|]. split; [exact H3|]. split; [exact H4|].
destruct (distanceLabel_tolerance_bands 13) as (_ & _ & _ & _ & _ & _ & _ & _ & _ & _ & _ & Hn & _).
exact (Hn 13.1 26.2 H1 H2 H3 H4).
Defined.

(** The ends of the ranges, which the test accepts, and their
    neighbours, which it refuses. *)
Example distanceLabel_range_ends :
  Binary64.distanceLabel 13 = Binary64.HalfMarathon /\
  Binary64.distanceLabel 13.2 = Binary64.HalfMarathon /\
  Binary64.distanceLabel 26.1 = Binary64.Marathon /\
  Binary64.distanceLabel 9.4 = Binary64.FifteenK /\
  Binary64.distanceLabel 6.11371 = Binary64.TenK /\
  Binary64.distanceLabel 3 = Binary64.Miles 3 /\
  Binary64.distanceLabel 3.2 = Binary64.Miles 3.2 /\
  Binary64.distanceLabel 26.3 = Binary64.Miles 26.3 /\
  Binary64.distanceLabel 9.2 = Binary64.Miles 9.2 /\
  Binary64.labelOf 13 (Some "1:45:00"%string) = Some Binary64.HalfMarathon /\
  Binary64.labelOf 13 None = None /\
  Binary64.labelOf 0 (Some "1:45:00"%string) = None.
Proof. repeat split. Qed.

(** C4 as stated fails in the season view: a 10K and a 15K get no class of
    their own, and 'Other' does not keep the mileage (races of 6.21371 and
    of 50 miles share it). *)
Lemma getRaceCategory_no_10K_15K :
  Binary64.getRaceCategory 6.21371 = SeasonStatsRaces.Other /\
  Binary64.getRaceCategory 9.3 = SeasonStatsRaces.Other /\
  Binary64.getRaceCategory 50 = Binary64.getRaceCategory 6.21371 /\
  Binary64.distanceLabel 6.21371 = Binary64.TenK /\
  Binary64.distanceLabel 9.3 = Binary64.FifteenK /\
  Binary64.distanceLabel 50 = Binary64.Miles 50.
Proof. repeat split. Qed.

End Binary64Bands.

(** ** The order of [number] *)

Lemma ltb_false (x y : Q) : JS.ltb x y = false <-> y <= x.
Proof. apply (gtb_false y x). Qed.

Ltac number_order :=
  repeat match goal with
         | H : JS.ltb _ _ = true |- _ => apply ltb_true in H
         | H : JS.ltb _ _ = false |- _ => apply ltb_false in H
         | |- JS.ltb _ _ = true => apply ltb_true
         | |- JS.ltb _ _ = false => apply ltb_false
         end;
  try lra.

Lemma lt_irrefl (a : JS.number) : JS.lt a a = false.
Proof. destruct a; cbn; number_order. Qed.

Lemma lt_trans (a b c : JS.number) :
  JS.lt a b = true -> JS.lt b c = true -> JS.lt a c = true.
Proof.
destruct a, b, c; cbn; intros H1 H2; try discriminate; try reflexivity;
  number_order.
Qed.

(** Below a bound that [c], a number, does not undercut. *)
Lemma lt_of_not_lt (a b c : JS.number) :
  JS.lt a b = true -> JS.lt c b = false -> c <> JS.NaN -> JS.lt a c = true.
Proof.
destruct a, b, c; cbn; intros H1 H2 H3; try discriminate; try reflexivity;
  try contradiction; number_order.
Qed.

Lemma gt0_not_NaN (a : JS.number) : JS.gt0 a = true -> a <> JS.NaN.
Proof. destruct a; cbn; congruence. Qed.

Lemma lt_asym (a b : JS.number) : JS.lt a b = true -> JS.lt b a = false.
Proof.
destruct a, b; cbn; intros H; try discriminate; try reflexivity; number_order.
Qed.

(** ** The best-time loop *)

Section BestLoopFacts.

Variable timeToSeconds : option string -> outcome JS.number.
Variable seconds : option string -> JS.number.
Hypothesis timeToSeconds_returns :
  forall ts, timeToSeconds ts = Returns (seconds ts).

Local Abbreviation secondsOf := (Races.secondsOf seconds).
Local Abbreviation valid := (Races.validTime seconds).
Local Abbreviation bestSoFar := (Races.bestSoFar seconds).

Lemma bestStep_returns (best : Race * JS.number) (r : Race) :
  bestStep timeToSeconds best r =
  Returns (if JS.lt (secondsOf r) (snd best) && JS.gt0 (secondsOf r)
           then (r, secondsOf r) else best).
Proof.
unfold bestStep, Races.secondsOf. rewrite timeToSeconds_returns. reflexivity.
Qed.

Lemma forEach_bestStep (todo before after : list Race) (best : Race) :
  bestSoFar before best after ->
  exists before' best' after',
    forEach (bestStep timeToSeconds) todo (best, secondsOf best)
    = Returns (best', secondsOf best') /\
    before ++ best :: after ++ todo = before' ++ best' :: after' /\
    bestSoFar before' best' after'.
Proof.
revert before after best.
induction todo as [|x todo IH]; intros before after best Hinv.
- exists before, best, after. rewrite app_nil_r. auto.
- cbn [forEach]. rewrite bestStep_returns. cbn [bind snd].
  destruct Hinv as (Hvalid & Hbefore & Hafter).
  destruct (JS.lt (secondsOf x) (secondsOf best) && JS.gt0 (secondsOf x)) eqn:E.
  + apply andb_true_iff in E as [Hlt Hx].
    destruct (IH (before ++ best :: after) [] x) as (b' & r' & a' & Hrun & Hsplit & Hinv').
    { split; [exact Hx|]. split; [|intros ? []].
      intros y Hy Hvy. apply in_app_or in Hy as [Hy|[<-|Hy]].
      - apply (lt_trans _ (secondsOf best)); auto.
      - exact Hlt.
      - apply (lt_of_not_lt _ (secondsOf best)); auto using gt0_not_NaN. }
    exists b', r', a'. split; [exact Hrun|]. split; [|exact Hinv'].
    rewrite <- Hsplit. cbn [app]. rewrite <- !app_assoc. reflexivity.
  + destruct (IH before (after ++ [x]) best) as (b' & r' & a' & Hrun & Hsplit & Hinv').
    { split; [exact Hvalid|]. split; [exact Hbefore|].
      intros y Hy Hvy. apply in_app_or in Hy as [Hy|[<-|[]]]; [auto|].
      apply andb_false_iff in E as [E|E]; [exact E|].
      unfold validTime in Hvy. congruence. }
    exists b', r', a'. split; [exact Hrun|]. split; [|exact Hinv'].
    rewrite <- Hsplit, <- app_assoc. reflexivity.
Qed.

(** The loop on a class whose first race is valid: it returns the first of
    the fastest valid races. *)
Lemma bestRaceOf_first_fastest (r0 : Race) (rest : list Race) :
  valid r0 ->
  exists before best after,
    bestRaceOf timeToSeconds (r0 :: rest)
    = Returns (Some (best, secondsOf best)) /\
    r0 :: rest = before ++ best :: after /\
    bestSoFar before best after.
Proof.
intros Hr0. unfold bestRaceOf.
rewrite timeToSeconds_returns. cbn [bind forEach].
rewrite bestStep_returns. cbn [bind snd].
fold (secondsOf r0). rewrite lt_irrefl. cbn [andb].
destruct (forEach_bestStep rest [] [] r0) as (b & r & a & Hrun & Hsplit & Hinv).
{ split; [exact Hr0|]. split; intros ? []. }
exists b, r, a. rewrite Hrun. auto.
Qed.

(** A later race without a positive time never replaces the best one, and a
    first race stays when no later race is valid. *)
Lemma bestRaceOf_keeps_first (r0 : Race) (rest : list Race) :
  (forall x, In x rest -> ~ valid x \/ JS.lt (secondsOf x) (secondsOf r0) = false) ->
  bestRaceOf timeToSeconds (r0 :: rest) = Returns (Some (r0, secondsOf r0)).
Proof.
intros Hrest. unfold bestRaceOf.
rewrite timeToSeconds_returns. cbn [bind forEach].
rewrite bestStep_returns. cbn [bind snd].
fold (secondsOf r0). rewrite lt_irrefl. cbn [andb].
assert (Hrun : forEach (bestStep timeToSeconds) rest (r0, secondsOf r0)
               = Returns (r0, secondsOf r0)).
{ induction rest as [|x rest IH]; [reflexivity|].
  cbn [forEach]. rewrite bestStep_returns. cbn [bind snd].
  destruct (Hrest x (or_introl eq_refl)) as [Hx|Hx].
  - unfold validTime in Hx. apply not_true_is_false in Hx. rewrite Hx, andb_false_r.
    apply IH. intros y Hy. apply Hrest. right. exact Hy.
  - rewrite Hx. cbn [andb]. apply IH. intros y Hy. apply Hrest. right. exact Hy. }
rewrite Hrun. reflexivity.
Qed.

(** The loop always returns: nothing for an empty class, otherwise a race
    of the class with its time. *)
Lemma bestRaceOf_returns (l : list Race) :
  match l with
  | [] => bestRaceOf timeToSeconds l = Returns None
  | _ :: _ =>
      exists best, In best l /\
        bestRaceOf timeToSeconds l = Returns (Some (best, secondsOf best))
  end.
Proof.
destruct l as [|r0 rest]; [reflexivity|].
unfold bestRaceOf. rewrite timeToSeconds_returns. cbn [bind].
assert (Hrun : forall todo best, exists best',
           (best' = best \/ In best' todo) /\
           forEach (bestStep timeToSeconds) todo (best, secondsOf best)
           = Returns (best', secondsOf best')).
{ induction todo as [|x todo IH]; intros best.
  - exists best. auto.
  - cbn [forEach]. rewrite bestStep_returns. cbn [bind snd].
    destruct (JS.lt (secondsOf x) (secondsOf best) && JS.gt0 (secondsOf x)).
    + destruct (IH x) as (b & [Hb|Hb] & Hrun); exists b; cbn [In]; auto.
    + destruct (IH best) as (b & [Hb|Hb] & Hrun); exists b; cbn [In]; auto. }
destruct (Hrun (r0 :: rest) r0) as (b & Hb & Hrun').
fold (secondsOf r0). rewrite Hrun'. exists b. split; [|reflexivity].
destruct Hb as [->|Hb]; [left; reflexivity | exact Hb].
Qed.

End BestLoopFacts.

(** ** The table of best times *)

(** A loop over keys that stores [e k] under [name k], or leaves the object
    alone, yields an object that holds for each key what the loop stored. *)
Lemma forEach_store {K V : Type} (name : K -> string) (e : K -> option V)
  (step : gmap string V -> K -> outcome (gmap string V)) (keys : list K) :
  (forall m k, step m k
               = Returns (match e k with Some v => <[name k := v]> m | None => m end)) ->
  List.NoDup (map name keys) ->
  forall m0, exists m,
    forEach step keys m0 = Returns m /\
    (forall k, In k keys ->
       m !! name k = match e k with Some v => Some v | None => m0 !! name k end) /\
    (forall n, ~ In n (map name keys) -> m !! n = m0 !! n).
Proof.
intros Hstep. induction keys as [|k keys IH]; intros Hnd m0.
- exists m0. split; [reflexivity|]. split; [intros ? []|reflexivity].
- cbn [forEach]. rewrite Hstep. cbn [bind].
  inversion_clear Hnd as [|? ? Hk Hnd'].
  destruct (IH Hnd' (match e k with Some v => <[name k := v]> m0 | None => m0 end))
    as (m & Hrun & Hin & Hout).
  exists m. split; [exact Hrun|]. split.
  + intros k' [<-|Hk'].
    * rewrite (Hout _ Hk). destruct (e k); [apply lookup_insert_eq|reflexivity].
    * rewrite (Hin _ Hk'). destruct (e k') eqn:E'; [reflexivity|].
      destruct (e k); [|reflexivity].
      apply lookup_insert_ne. intros Heq. apply Hk. rewrite Heq.
      apply in_map. exact Hk'.
  + intros n Hn. cbn [map In] in Hn.
    rewrite (Hout n) by tauto.
    destruct (e k); [|reflexivity].
    apply lookup_insert_ne. tauto.
Qed.

Lemma BibBook_bestTimesStep_returns (races : list Race)
  (m : gmap string BibBook.BestTime) (key : string * Q) :
  BibBook.bestTimesStep (BibBook.validRaces races) m key
  = Returns (match BibBook.entry races (snd key) with
             | Some v => <[fst key := v]> m
             | None => m
             end).
Proof.
destruct key as [name target]. unfold BibBook.bestTimesStep, BibBook.entry.
fold (BibBook.distanceRaces races target). cbn [fst snd].
pose proof (bestRaceOf_returns _ _ BibBook_timeToSeconds_returns
              (BibBook.distanceRaces races target)) as H.
destruct (BibBook.distanceRaces races target) as [|r0 rest].
- rewrite H. reflexivity.
- destruct H as (best & _ & ->). cbn [bind valueOf option_map].
  unfold BibBook.entryOf. cbn [fst snd].
  destruct (BibBook_formatTime_returns (time best)) as [text ->]. reflexivity.
Qed.

Lemma SeasonStats_bestTimesStep_returns (races : list Race)
  (m : gmap string SeasonStatsRaces.BestTime) (c : SeasonStatsRaces.Category) :
  SeasonStatsRaces.bestTimesStep (SeasonStatsRaces.validRaces races) m c
  = Returns (match SeasonStatsRaces.entry races c with
             | Some v => <[SeasonStatsRaces.categoryName c := v]> m
             | None => m
             end).
Proof.
unfold SeasonStatsRaces.bestTimesStep, SeasonStatsRaces.entry.
pose proof (bestRaceOf_returns _ _ SeasonStats_timeToSeconds_returns
              (SeasonStatsRaces.categoryRaces (SeasonStatsRaces.validRaces races) c)) as H.
destruct (SeasonStatsRaces.categoryRaces _ c) as [|r0 rest].
- rewrite H. reflexivity.
- destruct H as (best & _ & ->). cbn [bind valueOf option_map].
  unfold SeasonStatsRaces.entryOf. cbn [fst snd].
  destruct (SeasonStats_formatTime_returns (time best)) as [text ->]. reflexivity.
Qed.

Lemma BibBook_seconds_returns (ts : option string) :
  BibBook.timeToSeconds ts = Returns (BibBook.seconds ts).
Proof. apply BibBook_timeToSeconds_returns. Qed.

Lemma SeasonStats_seconds_returns (ts : option string) :
  SeasonStatsRaces.timeToSeconds ts = Returns (SeasonStatsRaces.seconds ts).
Proof. apply SeasonStats_timeToSeconds_returns. Qed.

Lemma BibBook_bestTimes_entries (races : list Race) :
  exists m, BibBook.bestTimes races = Returns m /\
    forall key target, In (key, target) BibBook.distanceKeys ->
      m !! key = BibBook.entry races target.
Proof.
destruct (forEach_store fst (fun k => BibBook.entry races (snd k))
            (BibBook.bestTimesStep (BibBook.validRaces races)) BibBook.distanceKeys)
  with (m0 := (∅ : gmap string BibBook.BestTime)) as (m & Hrun & Hin & _).
{ intros. apply BibBook_bestTimesStep_returns. }
{ repeat (constructor; [cbn [In map fst]; intuition discriminate|]). constructor. }
exists m. split; [exact Hrun|].
intros key target Hk. specialize (Hin _ Hk). cbn [fst snd] in Hin.
rewrite Hin.
destruct (BibBook.entry races target); [reflexivity|apply lookup_empty].
Qed.

Lemma SeasonStats_bestTimes_entries (races : list Race) :
  exists m, SeasonStatsRaces.bestTimes races = Returns m /\
    forall c, m !! SeasonStatsRaces.categoryName c = SeasonStatsRaces.entry races c.
Proof.
destruct (forEach_store SeasonStatsRaces.categoryName (SeasonStatsRaces.entry races)
            (SeasonStatsRaces.bestTimesStep (SeasonStatsRaces.validRaces races))
            [SeasonStatsRaces.Marathon; SeasonStatsRaces.Half;
             SeasonStatsRaces.FiveK; SeasonStatsRaces.Other])
  with (m0 := (∅ : gmap string SeasonStatsRaces.BestTime)) as (m & Hrun & Hin & _).
{ intros. apply SeasonStats_bestTimesStep_returns. }
{ repeat (constructor; [cbn [In map SeasonStatsRaces.categoryName];
                        intuition discriminate|]). constructor. }
exists m. split; [exact Hrun|].
intros c. rewrite Hin by (destruct c; cbn; tauto).
destruct (SeasonStatsRaces.entry races c); [reflexivity|apply lookup_empty].
Qed.

(** C2 (as the code has it): the best-times loop never throws and stores,
    for every class with at least one race, a race of that class; when the
    first race of the class has a valid (positive) time, the stored race
    is the first of the fastest races with a valid time: every valid race
    before it is strictly slower and no valid race after it is strictly
    faster.  This holds for the table of [BibBook] and for the one of the
    season view. *)
Theorem bestTimes_first_fastest_valid (races : list Race) :
  ((exists m, BibBook.bestTimes races = Returns m /\
      forall key target, In (key, target) BibBook.distanceKeys ->
        m !! key = BibBook.entry races target) /\
   (forall target,
      BibBook.distanceRaces races target = [] ->
      BibBook.entry races target = None) /\
   (forall target r0 rest,
      BibBook.distanceRaces races target = r0 :: rest ->
      (exists best, In best (r0 :: rest) /\
         BibBook.entry races target
         = Some (BibBook.entryOf (best, secondsOf BibBook.seconds best))) /\
      (validTime BibBook.seconds r0 ->
       exists before best after,
         BibBook.entry races target
         = Some (BibBook.entryOf (best, secondsOf BibBook.seconds best)) /\
         r0 :: rest = before ++ best :: after /\
         bestSoFar BibBook.seconds before best after))) /\
  ((exists m, SeasonStatsRaces.bestTimes races = Returns m /\
      forall c, m !! SeasonStatsRaces.categoryName c = SeasonStatsRaces.entry races c) /\
   (forall c,
      SeasonStatsRaces.categoryRaces (SeasonStatsRaces.validRaces races) c = [] ->
      SeasonStatsRaces.entry races c = None) /\
   (forall c r0 rest,
      SeasonStatsRaces.categoryRaces (SeasonStatsRaces.validRaces races) c = r0 :: rest ->
      (exists best, In best (r0 :: rest) /\
         SeasonStatsRaces.entry races c
         = Some (SeasonStatsRaces.entryOf (best, secondsOf SeasonStatsRaces.seconds best))) /\
      (validTime SeasonStatsRaces.seconds r0 ->
       exists before best after,
         SeasonStatsRaces.entry races c
         = Some (SeasonStatsRaces.entryOf (best, secondsOf SeasonStatsRaces.seconds best)) /\
         r0 :: rest = before ++ best :: after /\
         bestSoFar SeasonStatsRaces.seconds before best after))).
Proof.
split; (split; [|split]).
- apply BibBook_bestTimes_entries.
- intros target Hnil. unfold BibBook.entry. rewrite Hnil. reflexivity.
- intros target r0 rest Hcons. unfold BibBook.entry. rewrite Hcons. split.
  + destruct (bestRaceOf_returns _ _ BibBook_seconds_returns (r0 :: rest))
      as (best & Hbest & ->).
    exists best. auto.
  + intros Hvalid.
    destruct (bestRaceOf_first_fastest _ _ BibBook_seconds_returns r0 rest Hvalid)
      as (before & best & after & -> & Hsplit & Hinv).
    exists before, best, after. auto.
- apply SeasonStats_bestTimes_entries.
- intros c Hnil. unfold SeasonStatsRaces.entry. rewrite Hnil. reflexivity.
- intros c r0 rest Hcons. unfold SeasonStatsRaces.entry. rewrite Hcons. split.
  + destruct (bestRaceOf_returns _ _ SeasonStats_seconds_returns (r0 :: rest))
      as (best & Hbest & ->).
    exists best. auto.
  + intros Hvalid.
    destruct (bestRaceOf_first_fastest _ _ SeasonStats_seconds_returns r0 rest Hvalid)
      as (before & best & after & -> & Hsplit & Hinv).
    exists before, best, after. auto.
Qed.

Lemma bestTimes_first_fastest_valid_witness :
  BibBook.distanceRaces marathons 26.2 = marathons /\
  validTime BibBook.seconds (mkRace "City Marathon" 10 26.2 (Some "3:45:00"%string) None None) /\
  exists before best after,
    BibBook.entry marathons 26.2
    = Some (BibBook.entryOf (best, secondsOf BibBook.seconds best)) /\
    marathons = before ++ best :: after /\
    bestSoFar BibBook.seconds before best after.
Proof.
split; [reflexivity|]. split; [reflexivity|].
destruct (bestTimes_first_fastest_valid marathons) as [(_ & _ & H) _].
destruct (H 26.2 _ _ eq_refl) as [_ Hbest].
apply Hbest. reflexivity.
Defined.

Example bestTimes_scenarioD :
  BibBook.entry marathons 26.2
  = Some {| BibBook.bt_time := "3:30:00"; BibBook.bt_race := "Coast Marathon";
            BibBook.bt_date := 20; BibBook.bt_timeSeconds := JS.Fin 12600;
            BibBook.bt_strava := None |}.
Proof. reflexivity. Qed.

(** C2 as stated fails: of two 5K races the table keeps the first, 1530 s,
    although the second one's time, "24:10", counts as 0 s, the minimum
    of the class; the guard [raceTimeSeconds > 0] skips it. *)
Lemma bestTimes_skips_zero_time :
  BibBook.distanceRaces fiveKs 3.1 = fiveKs /\
  (exists m, BibBook.bestTimes fiveKs = Returns m /\
     (BibBook.bt_race <$> m !! "5K"%string) = Some "Spring 5K"%string /\
     (BibBook.bt_timeSeconds <$> m !! "5K"%string) = Some (JS.Fin 1530)) /\
  map (fun r => BibBook.timeToSeconds (time r)) fiveKs
  = [Returns (JS.Fin 1530); Returns (JS.Fin 0)] /\
  JS.lt (JS.Fin 0) (JS.Fin 1530) = true.
Proof.
split; [reflexivity|]. split; [|split; reflexivity].
destruct (BibBook_bestTimes_entries fiveKs) as [m [Hrun Hm]].
exists m. split; [exact Hrun|].
rewrite (Hm "5K"%string 3.1) by (cbn; tauto).
split; reflexivity.
Qed.

(** ** Loops with callbacks that return *)

Lemma filterM_returns {A : Type} (p : A -> outcome bool) (q : A -> bool)
  (l : list A) :
  Forall (fun x => p x = Returns (q x)) l ->
  filterM p l = Returns (List.filter q l).
Proof.
induction 1 as [|x l Hx _ IH]; [reflexivity|].
cbn [filterM List.filter]. rewrite Hx, IH. reflexivity.
Qed.

Lemma mapM_returns {A B : Type} (f : A -> outcome B) (g : A -> B) (l : list A) :
  Forall (fun x => f x = Returns (g x)) l ->
  mapM f l = Returns (map g l).
Proof.
induction 1 as [|x l Hx _ IH]; [reflexivity|].
cbn [mapM map]. rewrite Hx, IH. reflexivity.
Qed.

Lemma mapiFrom_nth_error {A B : Type} (f : A -> nat -> B) (l : list A) (k i : nat) :
  nth_error (mapiFrom f l k) i
  = option_map (fun x => f x (k + i)%nat) (nth_error l i).
Proof.
revert k i. induction l as [|x l IH]; intros k [|i]; cbn; try reflexivity.
- rewrite Nat.add_0_r. reflexivity.
- rewrite IH. rewrite Nat.add_succ_r. reflexivity.
Qed.

Lemma mapi_nth_error {A B : Type} (f : A -> nat -> B) (l : list A) (i : nat) :
  nth_error (mapi f l) i = option_map (fun x => f x i) (nth_error l i).
Proof. unfold mapi. rewrite mapiFrom_nth_error. reflexivity. Qed.

Lemma mapiFrom_length {A B : Type} (f : A -> nat -> B) (l : list A) (k : nat) :
  length (mapiFrom f l k) = length l.
Proof. revert k. induction l; intros k; cbn; [reflexivity|]. now rewrite IHl. Qed.

(** ** [<=] and [Math.min] on numbers *)

Lemma le_lt_false (a b : JS.number) :
  a <> JS.NaN -> b <> JS.NaN -> (JS.le a b = true <-> JS.lt b a = false).
Proof.
destruct a, b; cbn; intros Ha Hb; try contradiction;
  try (split; congruence).
rewrite ltb_false. apply Qle_bool_iff.
Qed.

Lemma le_refl (a : JS.number) : a <> JS.NaN -> JS.le a a = true.
Proof. destruct a; cbn; try congruence. intros _. apply Qle_bool_iff. lra. Qed.

Lemma le_trans (a b c : JS.number) :
  JS.le a b = true -> JS.le b c = true -> JS.le a c = true.
Proof.
destruct a, b, c; cbn; intros H1 H2; try discriminate; try reflexivity.
apply Qle_bool_iff in H1, H2. apply Qle_bool_iff. lra.
Qed.

Lemma min2_cases (a b : JS.number) :
  a <> JS.NaN -> b <> JS.NaN ->
  (JS.min2 a b = a \/ JS.min2 a b = b) /\
  JS.le (JS.min2 a b) a = true /\ JS.le (JS.min2 a b) b = true.
Proof.
intros Ha Hb. unfold JS.min2.
destruct (JS.lt b a) eqn:E.
- destruct a, b; try contradiction; (split; [auto|split]);
    try apply le_refl; try assumption;
    apply le_lt_false; try assumption; apply lt_asym; exact E.
- destruct a, b; try contradiction; (split; [auto|split]);
    try apply le_refl; try assumption;
    apply le_lt_false; assumption.
Qed.

Lemma min_least (x : JS.number) (rest : list JS.number) :
  Forall (fun y => y <> JS.NaN) (x :: rest) ->
  In (JS.min x rest) (x :: rest) /\
  Forall (fun y => JS.le (JS.min x rest) y = true) (x :: rest).
Proof.
unfold JS.min. revert x.
induction rest as [|y rest IH]; intros x Hnum.
- inversion_clear Hnum as [|? ? Hx _]. cbn.
  split; [auto|]. constructor; [apply le_refl; assumption|constructor].
- inversion_clear Hnum as [|? ? Hx Hrest]. inversion_clear Hrest as [|? ? Hy Hrest'].
  destruct (min2_cases x y Hx Hy) as (Hcase & Hlx & Hly).
  assert (Hm : JS.min2 x y <> JS.NaN) by (destruct Hcase as [-> | ->]; assumption).
  cbn [fold_left].
  destruct (IH (JS.min2 x y)) as (Hin & Hall).
  { constructor; assumption. }
  inversion_clear Hall as [|? ? Hmm Hall'].
  split.
  + destruct Hin as [Hin|Hin].
    * rewrite <- Hin. destruct Hcase as [-> | ->]; cbn; auto.
    * cbn. auto.
  + repeat constructor; try assumption;
      eapply le_trans; eassumption.
Qed.

(** ** The progression series *)

Import PerformanceLab.

Lemma insertByDate_perm (x : Timed) (l : list Timed) :
  Permutation (x :: l) (insertByDate x l).
Proof.
induction l as [|y l IH]; cbn [insertByDate]; [reflexivity|].
destruct (raceDate x <=? raceDate y)%Z; [reflexivity|].
rewrite perm_swap. apply perm_skip. exact IH.
Qed.

Lemma sortByDate_perm (l : list Timed) : Permutation l (sortByDate l).
Proof.
induction l as [|x l IH]; [reflexivity|].
cbn [sortByDate fold_right]. rewrite <- insertByDate_perm.
apply perm_skip. exact IH.
Qed.

Lemma insertByDate_sorted (x : Timed) (l : list Timed) :
  StronglySorted byDate l -> StronglySorted byDate (insertByDate x l).
Proof.
induction 1 as [|y l Hl IH Hy]; cbn [insertByDate].
- repeat constructor.
- destruct (raceDate x <=? raceDate y)%Z eqn:E.
  + apply Z.leb_le in E. constructor; [constructor; assumption|].
    constructor; [exact E|].
    eapply List.Forall_impl; [|exact Hy]. unfold byDate. intros; lia.
  + apply Z.leb_gt in E. constructor; [exact IH|].
    eapply Permutation_Forall; [apply insertByDate_perm|].
    constructor; [unfold byDate; lia | exact Hy].
Qed.

Lemma sortByDate_sorted (l : list Timed) : StronglySorted byDate (sortByDate l).
Proof.
induction l as [|x l IH]; [constructor|].
cbn [sortByDate fold_right]. apply insertByDate_sorted. exact IH.
Qed.

(** The sort is stable: races of one date keep their order. *)
Lemma insertByDate_filter (d : Z) (x : Timed) (l : list Timed) :
  StronglySorted byDate l ->
  List.filter (fun r => (raceDate r =? d)%Z) (insertByDate x l)
  = List.filter (fun r => (raceDate r =? d)%Z) (x :: l).
Proof.
induction 1 as [|y l Hl IH Hy]; [reflexivity|].
cbn [insertByDate].
destruct (raceDate x <=? raceDate y)%Z eqn:E; [reflexivity|].
apply Z.leb_gt in E.
cbn [List.filter] in *. rewrite IH.
destruct (raceDate x =? d)%Z eqn:Ex, (raceDate y =? d)%Z eqn:Ey; try reflexivity.
lia.
Qed.

Lemma sortByDate_stable (d : Z) (l : list Timed) :
  List.filter (fun r => (raceDate r =? d)%Z) (sortByDate l)
  = List.filter (fun r => (raceDate r =? d)%Z) l.
Proof.
induction l as [|x l IH]; [reflexivity|].
cbn [sortByDate fold_right].
rewrite insertByDate_filter by apply sortByDate_sorted.
cbn [List.filter]. fold (sortByDate l). rewrite IH. reflexivity.
Qed.

Lemma raceSeconds_returns (r : Race) :
  JS.truthyStr (time r) = true -> raceSeconds r = Returns (seconds r).
Proof.
unfold raceSeconds, timeIncludesT, seconds.
destruct (time r) as [s|]; [|discriminate]. intros _. reflexivity.
Qed.

Lemma filter_filter {A : Type} (p q : A -> bool) (l : list A) :
  List.filter q (List.filter p l) = List.filter (fun x => p x && q x) l.
Proof.
induction l as [|x l IH]; [reflexivity|].
cbn [List.filter]. destruct (p x); cbn [List.filter andb]; rewrite IH; reflexivity.
Qed.

Lemma filteredRaces_returns (races : list Race) (label : Label) :
  filteredRaces races label
  = Returns (sortByDate
               (map timed (List.filter (entersSeries (getDistanceValue label)) races))).
Proof.
unfold filteredRaces.
set (ofDistance := List.filter _ races).
assert (Htime : Forall (fun r => JS.truthyStr (time r) = true) ofDistance).
{ apply List.Forall_forall. intros r Hr. apply filter_In in Hr as [_ Hr].
  apply andb_true_iff in Hr. tauto. }
rewrite (filterM_returns _ (fun r => JS.gt0 (seconds r))).
2:{ eapply List.Forall_impl; [|exact Htime]. cbn beta. intros r Hr.
    rewrite (raceSeconds_returns r Hr). reflexivity. }
cbn [bind].
rewrite (mapM_returns _ timed).
2:{ apply List.Forall_forall. intros r Hr. apply filter_In in Hr as [Hr _].
    rewrite List.Forall_forall in Htime.
    rewrite (raceSeconds_returns r (Htime r Hr)). reflexivity. }
cbn [bind]. unfold ofDistance. rewrite filter_filter. reflexivity.
Qed.

Lemma firstn_S_nth_error {A : Type} (l : list A) (i : nat) (x : A) :
  nth_error l i = Some x -> firstn (S i) l = firstn i l ++ [x].
Proof.
revert i. induction l as [|y l IH]; intros [|i] H; try discriminate.
- injection H as ->. reflexivity.
- cbn [nth_error] in H. rewrite firstn_cons, (IH i H). reflexivity.
Qed.

Lemma In_firstn {A : Type} (x : A) (n : nat) (l : list A) :
  In x (firstn n l) -> In x l.
Proof.
revert n. induction l as [|y l IH]; intros [|n] H; cbn in *; try contradiction.
destruct H as [H|H]; [auto|]. right. exact (IH n H).
Qed.

Lemma In_firstn_le {A : Type} (x : A) (j i : nat) (l : list A) :
  (j <= i)%nat -> In x (firstn j l) -> In x (firstn i l).
Proof.
intros Hle H.
replace j with (Nat.min j i) in H by lia.
rewrite <- firstn_firstn in H. exact (In_firstn _ _ _ H).
Qed.

Lemma map_progressSeconds (sorted : list Timed) :
  map progressSeconds (mapi (progressRow sorted) sorted) = map timeSeconds sorted.
Proof.
unfold mapi. generalize 0%nat. generalize sorted at 1 as all.
induction sorted as [|r l IH]; intros all k; [reflexivity|].
cbn [mapiFrom map]. rewrite IH. reflexivity.
Qed.

Lemma map_progressDate (sorted : list Timed) :
  map progressDate (mapi (progressRow sorted) sorted) = map raceDate sorted.
Proof.
unfold mapi. generalize 0%nat. generalize sorted at 1 as all.
induction sorted as [|r l IH]; intros all k; [reflexivity|].
cbn [mapiFrom map]. rewrite IH. reflexivity.
Qed.

Lemma map_raceName (sorted : list Timed) :
  map raceName (mapi (progressRow sorted) sorted)
  = map (fun t => race (source t)) sorted.
Proof.
unfold mapi. generalize 0%nat. generalize sorted at 1 as all.
induction sorted as [|r l IH]; intros all k; [reflexivity|].
cbn [mapiFrom map]. rewrite IH. reflexivity.
Qed.

Lemma personalBest_min (sorted : list Timed) (r : Timed) (i : nat) :
  personalBest (progressRow sorted r i)
  = JS.min (timeSeconds r) (map timeSeconds (firstn i sorted)).
Proof.
unfold progressRow. cbn [personalBest].
destruct i; [reflexivity|reflexivity].
Qed.

Lemma sorted_times_valid (races : list Race) (target : Q) :
  Forall (fun r => JS.gt0 (timeSeconds r) = true)
         (sortByDate (map timed (List.filter (entersSeries target) races))).
Proof.
eapply Permutation_Forall; [apply sortByDate_perm|].
apply List.Forall_forall. intros r Hr.
apply in_map_iff in Hr as (x & <- & Hx).
apply filter_In in Hx as [_ Hx]. unfold entersSeries in Hx.
apply andb_true_iff in Hx as [_ Hx]. exact Hx.
Qed.

(** The row of index [i]: its personal best is the least of the times of
    the rows 0 to [i]. *)
Lemma progressRow_running_min (sorted : list Timed) (r : Timed) (i : nat) :
  Forall (fun r => JS.gt0 (timeSeconds r) = true) sorted ->
  nth_error sorted i = Some r ->
  let best := personalBest (progressRow sorted r i) in
  In best (map timeSeconds (firstn (S i) sorted)) /\
  Forall (fun t => JS.le best t = true) (map timeSeconds (firstn (S i) sorted)).
Proof.
intros Hvalid Hnth. cbn zeta. rewrite personalBest_min.
rewrite (firstn_S_nth_error _ _ _ Hnth), map_app. cbn [map].
destruct (min_least (timeSeconds r) (map timeSeconds (firstn i sorted)))
  as [Hin Hall].
{ apply List.Forall_forall. intros t Ht. apply gt0_not_NaN.
  rewrite List.Forall_forall in Hvalid.
  destruct Ht as [<-|Ht].
  - apply Hvalid. eapply nth_error_In. exact Hnth.
  - apply in_map_iff in Ht as (x & <- & Hx). apply Hvalid.
    eapply In_firstn. exact Hx. }
split.
- apply in_or_app. destruct Hin as [Hin|Hin]; [right; left; exact Hin|left; exact Hin].
- apply Forall_app. inversion_clear Hall as [|? ? H1 H2].
  split; [exact H2|]. constructor; [exact H1|constructor].
Qed.

Lemma mapiMFrom_returns {A B : Type} (f : A -> nat -> outcome B)
  (g : A -> nat -> B) (l : list A) (k : nat) :
  (forall x i, In x l -> f x i = Returns (g x i)) ->
  mapiMFrom f l k = Returns (mapiFrom g l k).
Proof.
revert k. induction l as [|x l IH]; intros k H; [reflexivity|].
cbn [mapiMFrom mapiFrom]. rewrite H by (left; reflexivity).
rewrite IH by (intros; apply H; right; assumption). reflexivity.
Qed.

Lemma mapiMFrom_throws {A B : Type} (f : A -> nat -> outcome B)
  (l : list A) (k : nat) (x : A) :
  In x l -> (forall i, f x i = Throws) -> mapiMFrom f l k = Throws.
Proof.
revert k. induction l as [|y l IH]; intros k Hin Hx; [contradiction|].
cbn [mapiMFrom]. destruct Hin as [->|Hin].
- rewrite Hx. reflexivity.
- destruct (f y k); [|reflexivity]. cbn [bind].
  rewrite (IH (S k) Hin Hx). reflexivity.
Qed.

Lemma sortByDate_source_sorted (l : list Timed) :
  Forall (fun t => raceDate t = date (source t)) l ->
  StronglySorted (fun a b => (date a <= date b)%Z) (map source (sortByDate l)).
Proof.
intros Hl.
assert (Hs : Forall (fun t => raceDate t = date (source t)) (sortByDate l)).
{ eapply Permutation_Forall; [apply sortByDate_perm|exact Hl]. }
pose proof (sortByDate_sorted l) as Hsorted.
induction Hsorted as [|x s Hsorted IH Hx]; [constructor|].
inversion_clear Hs as [|? ? Hdx Hs'].
cbn [map]. constructor; [apply IH; exact Hs'|].
apply List.Forall_forall. intros r Hr.
apply in_map_iff in Hr as (y & <- & Hy).
rewrite List.Forall_forall in Hx, Hs'.
specialize (Hx y Hy). specialize (Hs' y Hy). unfold byDate in Hx. lia.
Qed.

Lemma filter_map_source (d : Z) (l : list Timed) :
  Forall (fun t => raceDate t = date (source t)) l ->
  List.filter (fun r => (date r =? d)%Z) (map source l)
  = map source (List.filter (fun t => (raceDate t =? d)%Z) l).
Proof.
induction 1 as [|x l Hx _ IH]; [reflexivity|].
cbn [map List.filter]. rewrite <- Hx.
destruct (raceDate x =? d)%Z; cbn [map]; rewrite IH; reflexivity.
Qed.

Lemma map_timed_source (l : list Timed) :
  Forall (fun t => t = timed (source t)) l -> l = map timed (map source l).
Proof.
induction 1 as [|x l Hx _ IH]; [reflexivity|].
cbn [map]. rewrite <- Hx, <- IH. reflexivity.
Qed.

Lemma Forall_timed (l : list Race) :
  Forall (fun t => raceDate t = date (source t)) (map timed l).
Proof.
apply List.Forall_forall. intros t Ht.
apply in_map_iff in Ht as (r & <- & _). reflexivity.
Qed.

(** C3: for races whose dates parse, the progression series of a distance
    class is the list of the races of the class that have a positive time,
    sorted by date ascending (races of one day in the order of the file),
    one row per race with the race's name, date and seconds; in every row
    the personal best is the minimum of the seconds of the rows up to it
    (one of them, and at most each of them), so it is at most the row's own
    seconds and never increases along the series. *)
Theorem raceProgressData_running_best (validDate : Race -> bool)
  (races : list Race) (label : Label) :
  (forall r, In r races -> entersSeries (getDistanceValue label) r = true ->
             validDate r = true) ->
  exists sorted rows,
    raceProgressData validDate races (Some label) = Returns rows /\
    filteredRaces races label = Returns sorted /\
    Permutation (map source sorted)
                (List.filter (entersSeries (getDistanceValue label)) races) /\
    StronglySorted (fun a b => (date a <= date b)%Z) (map source sorted) /\
    (forall d,
       List.filter (fun r => (date r =? d)%Z) (map source sorted)
       = List.filter (fun r => (date r =? d)%Z)
           (List.filter (entersSeries (getDistanceValue label)) races)) /\
    sorted = map timed (map source sorted) /\
    StronglySorted byDate sorted /\
    map raceName rows = map race (map source sorted) /\
    map progressDate rows = map date (map source sorted) /\
    map progressSeconds rows = map seconds (map source sorted) /\
    map progressSeconds rows = map timeSeconds sorted /\
    forall i row,
      nth_error rows i = Some row ->
      raceNumber row = (Z.of_nat i + 1)%Z /\
      JS.gt0 (progressSeconds row) = true /\
      In (personalBest row) (map progressSeconds (firstn (S i) rows)) /\
      Forall (fun t => JS.le (personalBest row) t = true)
             (map progressSeconds (firstn (S i) rows)) /\
      JS.le (personalBest row) (progressSeconds row) = true /\
      forall j row', (j <= i)%nat -> nth_error rows j = Some row' ->
                     JS.le (personalBest row) (personalBest row') = true.
Proof.
intros Hdates.
set (target := getDistanceValue label) in *.
set (entering := List.filter (entersSeries target) races).
set (sorted := sortByDate (map timed entering)).
exists sorted, (mapi (progressRow sorted) sorted).
assert (Hvalid : Forall (fun r => JS.gt0 (timeSeconds r) = true) sorted)
  by apply sorted_times_valid.
assert (Htimes : map progressSeconds (mapi (progressRow sorted) sorted)
                 = map timeSeconds sorted) by apply map_progressSeconds.
assert (Hperm : Permutation (map source sorted) entering).
{ unfold sorted.
  eapply Permutation_trans;
    [apply Permutation_map; symmetry; apply sortByDate_perm|].
  rewrite map_map. cbn [timed source]. rewrite List.map_id. apply Permutation_refl. }
assert (Htimed : sorted = map timed (map source sorted)).
{ assert (H : Forall (fun t => t = timed (source t)) sorted).
  { eapply Permutation_Forall; [apply sortByDate_perm|].
    apply List.Forall_forall. intros t Ht.
    apply in_map_iff in Ht as (r & <- & _). reflexivity. }
  apply map_timed_source. exact H. }
assert (Hsrc : forall (A : Type) (f : Timed -> A) (g : Race -> A),
           (forall t, f (timed (source t)) = g (source t)) ->
           map f sorted = map g (map source sorted)).
{ intros A f g Hfg. rewrite Htimed at 1. rewrite !map_map.
  apply map_ext. intros t. apply Hfg. }
split.
{ unfold raceProgressData. rewrite filteredRaces_returns. cbn [bind].
  fold target. fold entering. fold sorted.
  apply mapiMFrom_returns. intros t i Ht. unfold progressOf.
  rewrite Hdates; [reflexivity| |].
  - assert (Hin : In (source t) entering).
    { eapply Permutation_in; [exact Hperm|]. apply in_map. exact Ht. }
    apply filter_In in Hin. tauto.
  - assert (Hin : In (source t) entering).
    { eapply Permutation_in; [exact Hperm|]. apply in_map. exact Ht. }
    apply filter_In in Hin. tauto. }
split; [apply filteredRaces_returns|].
split; [exact Hperm|].
split; [apply sortByDate_source_sorted, Forall_timed|].
split.
{ intros d. unfold sorted.
  rewrite filter_map_source.
  2:{ eapply Permutation_Forall; [apply sortByDate_perm|apply Forall_timed]. }
  rewrite sortByDate_stable, <- filter_map_source by apply Forall_timed.
  rewrite map_map. cbn [timed source]. rewrite List.map_id. reflexivity. }
split; [exact Htimed|].
split; [apply sortByDate_sorted|].
split.
{ rewrite map_raceName. apply Hsrc. reflexivity. }
split.
{ rewrite map_progressDate. apply Hsrc. reflexivity. }
split.
{ rewrite Htimes. apply Hsrc. reflexivity. }
split; [exact Htimes|].
assert (Hrow : forall i row,
           nth_error (mapi (progressRow sorted) sorted) i = Some row ->
           exists r, nth_error sorted i = Some r /\ row = progressRow sorted r i).
{ intros i row. rewrite mapi_nth_error.
  destruct (nth_error sorted i) as [r|]; [|discriminate].
  intros [= <-]. eauto. }
assert (Hfirst : forall i,
           map progressSeconds (firstn i (mapi (progressRow sorted) sorted))
           = map timeSeconds (firstn i sorted)).
{ intros i. rewrite <- !firstn_map, Htimes. reflexivity. }
intros i row Hi.
destruct (Hrow i row Hi) as (r & Hr & ->).
destruct (progressRow_running_min sorted r i Hvalid Hr) as [Hin Hall].
rewrite Hfirst.
split; [reflexivity|].
split.
{ rewrite List.Forall_forall in Hvalid. apply Hvalid.
  eapply nth_error_In. exact Hr. }
split; [exact Hin|]. split; [exact Hall|].
split.
{ rewrite List.Forall_forall in Hall. apply Hall.
  rewrite (firstn_S_nth_error _ _ _ Hr), map_app.
  apply in_or_app. right. left. reflexivity. }
intros j row' Hle Hj.
destruct (Hrow j row' Hj) as (r' & Hr' & ->).
destruct (progressRow_running_min sorted r' j Hvalid Hr') as [Hin' _].
rewrite List.Forall_forall in Hall. apply Hall.
apply in_map_iff in Hin' as (x & Hx & Hin').
apply in_map_iff. exists x. split; [exact Hx|].
eapply In_firstn_le; [|exact Hin']. lia.
Qed.

Example raceProgressData_scenarioC :
  (map personalBest
     <$> Some (valueOf [] (raceProgressData (fun _ => true) scenarioC (Some Marathon))))
  = Some [JS.Fin 13500; JS.Fin 12600; JS.Fin 12600].
Proof. reflexivity. Qed.

Lemma raceProgressData_running_best_witness :
  (forall r, In r shuffledMarathons ->
             entersSeries (getDistanceValue Marathon) r = true ->
             (fun _ : Race => true) r = true) /\
  exists rows,
    raceProgressData (fun _ => true) shuffledMarathons (Some Marathon) = Returns rows /\
    map raceName rows = ["Early"; "Middle"; "Same day"; "Late"]%string /\
    map progressDate rows = [10; 20; 20; 30]%Z /\
    map personalBest rows
    = [JS.Fin 13500; JS.Fin 12000; JS.Fin 12000; JS.Fin 12000].
Proof.
assert (Hdates : forall r, In r shuffledMarathons ->
                   entersSeries (getDistanceValue Marathon) r = true ->
                   (fun _ : Race => true) r = true) by reflexivity.
split; [exact Hdates|].
destruct (raceProgressData_running_best (fun _ => true) shuffledMarathons Marathon Hdates)
  as (sorted & rows & Hrun & Hsorted & _ & _ & _ & _ & _ & Hnames & Hd & _).
exists rows. split; [exact Hrun|].
assert (Hs : sorted = sortByDate
               (map timed (List.filter (entersSeries (getDistanceValue Marathon))
                                       shuffledMarathons))).
{ rewrite filteredRaces_returns in Hsorted. injection Hsorted as <-. reflexivity. }
split; [rewrite Hnames, Hs; reflexivity|].
split; [rewrite Hd, Hs; reflexivity|].
vm_compute in Hrun. injection Hrun as <-. reflexivity.
Defined.

(** A race of the series whose date does not parse makes the whole
    computation throw. *)
Lemma raceProgressData_invalid_date_throws (validDate : Race -> bool)
  (races : list Race) (label : Label) (r : Race) :
  In r races -> entersSeries (getDistanceValue label) r = true ->
  validDate r = false ->
  raceProgressData validDate races (Some label) = Throws.
Proof.
intros Hin Henters Hbad.
unfold raceProgressData. rewrite filteredRaces_returns. cbn [bind].
apply (mapiMFrom_throws _ _ _ (timed r)).
- eapply Permutation_in; [apply sortByDate_perm|].
  apply in_map, filter_In. auto.
- intros i. unfold progressOf. cbn [timed source]. rewrite Hbad. reflexivity.
Qed.

(** ** Sums, rounding and paces *)

Import DateFns Buckets.

Lemma sumBy_fold {A : Type} (f : A -> Q) (l : list A) (acc : Q) :
  fold_left (fun sum x => sum + f x) l acc == acc + JS.sumBy f l.
Proof.
unfold JS.sumBy. revert acc.
induction l as [|x l IH]; intros acc; cbn [fold_left]; [lra|].
rewrite (IH (acc + f x)), (IH (0 + f x)). lra.
Qed.

Lemma sumBy_cons {A : Type} (f : A -> Q) (x : A) (l : list A) :
  JS.sumBy f (x :: l) == f x + JS.sumBy f l.
Proof. unfold JS.sumBy at 1. cbn [fold_left]. rewrite sumBy_fold. lra. Qed.

Lemma sumBy_nonneg {A : Type} (f : A -> Q) (l : list A) :
  Forall (fun x => 0 <= f x) l -> 0 <= JS.sumBy f l.
Proof.
induction 1 as [|x l Hx _ IH]; [unfold JS.sumBy; cbn; lra|].
rewrite sumBy_cons. lra.
Qed.

Lemma round_nonneg (y : Q) : 0 <= y -> (0 <= JS.round y)%Z.
Proof.
intros Hy. unfold JS.round.
assert (H : 0 <= y + (1 # 2)) by lra.
exact (Qfloor_resp_le 0 _ H).
Qed.

Lemma round_pos (y : Q) : (1 # 2) <= y -> (1 <= JS.round y)%Z.
Proof.
intros Hy. unfold JS.round.
assert (H : 1 <= y + (1 # 2)) by lra.
exact (Qfloor_resp_le 1 _ H).
Qed.

Lemma round_small (y : Q) : 0 <= y -> y < (1 # 2) -> JS.round y = 0%Z.
Proof.
intros H0 Hy. pose proof (round_nonneg y H0) as Hlo.
unfold JS.round in *.
pose proof (Qfloor_le (y + (1 # 2))) as Hle.
assert (Hlt : inject_Z (Qfloor (y + (1 # 2))) < inject_Z 1).
{ change (inject_Z 1) with 1. lra. }
rewrite <- Zlt_Qlt in Hlt. lia.
Qed.

Lemma round1_nonneg (x : Q) : 0 <= x -> 0 <= JS.round1 x.
Proof.
intros Hx. unfold JS.round1.
assert (H : (0 <= JS.round (x * 10))%Z) by (apply round_nonneg; lra).
apply Qle_shift_div_l; [lra|].
rewrite Qmult_0_l. change 0 with (inject_Z 0). rewrite <- Zle_Qle. exact H.
Qed.

Lemma round1_pos (x : Q) : (1 # 20) <= x -> 0 < JS.round1 x.
Proof.
intros Hx. unfold JS.round1.
assert (H : (1 <= JS.round (x * 10))%Z) by (apply round_pos; lra).
apply Qlt_shift_div_l; [lra|].
rewrite Qmult_0_l. change 0 with (inject_Z 0). rewrite <- Zlt_Qlt. lia.
Qed.

Lemma round1_small (x : Q) : 0 <= x -> x < (1 # 20) -> JS.round1 x == 0.
Proof.
intros H0 Hx. unfold JS.round1.
rewrite (round_small (x * 10)) by lra. reflexivity.
Qed.

Lemma div_finite (x y : Q) : ~ y == 0 -> JS.div x y = JS.Fin (x / y).
Proof.
intros Hy. unfold JS.div.
destruct (Qeq_bool y 0) eqn:E; [|reflexivity].
apply Qeq_bool_iff in E. contradiction.
Qed.

(** The pace of a bucket divides only by a positive mileage. *)
Lemma pace_cases (h m : Q) :
  (0 < m -> pace h m = Some (JS.Fin (h * 60 / m))) /\
  (~ 0 < m -> pace h m = None).
Proof.
unfold pace. split; intros Hm.
- rewrite (proj2 (gtb_true m 0) Hm), div_finite by lra. reflexivity.
- destruct (JS.gtb m 0) eqn:E; [|reflexivity].
  apply gtb_true in E. contradiction.
Qed.

Lemma pace_finite (h m : Q) (n : JS.number) :
  pace h m = Some n -> 0 < m /\ n = JS.Fin (h * 60 / m).
Proof.
destruct (Qlt_le_dec 0 m) as [Hm|Hm].
- rewrite (proj1 (pace_cases h m) Hm). intros [= <-]. auto.
- rewrite (proj2 (pace_cases h m)) by lra. discriminate.
Qed.

(** ** The season's average pace *)

(** C6 fails on the season's average pace: [runningStats] guards the
    division by the hours, not by the mileage, so a year whose only run has
    moving time but no distance divides 30 minutes by 0 miles and reports
    [Infinity]; the month of the same run, guarded by the mileage, reports
    no pace. *)
Theorem runningStats_avgPace_zero_mileage :
  let stats := SeasonStats.runningStats 2024 [treadmill] in
  let june := nth_error (SeasonStats.monthlyData 2024 [treadmill]) 5 in
  SeasonStats.totalRuns stats = 1%nat /\
  JS.sumBy Activities.distance
           (within (SeasonStats.yearStart 2024) (SeasonStats.yearEnd 2024)
                   (runningActivities [treadmill])) == 0 /\
  SeasonStats.rawAvgPace stats = JS.div 30 0 /\
  SeasonStats.rawAvgPace stats = JS.PInf /\
  SeasonStats.seasonAvgPace stats = JS.PInf /\
  option_map SeasonStats.runs june = Some 1%nat /\
  option_map SeasonStats.avgPace june = Some None /\
  option_map SeasonStats.roadPace june = Some None.
Proof. cbv zeta. repeat split. Qed.

(** ** Pace fields *)

Lemma truthy_false (q : Q) : JS.truthy q = false <-> q == 0.
Proof.
unfold JS.truthy. rewrite negb_false_iff. apply Qeq_bool_iff.
Qed.

Lemma truthy_true (q : Q) : JS.truthy q = true <-> ~ q == 0.
Proof.
unfold JS.truthy. rewrite negb_true_iff. split.
- intros E H. apply Qeq_bool_iff in H. congruence.
- intros H. destruct (Qeq_bool q 0) eqn:E; [|reflexivity].
  apply Qeq_bool_iff in E. contradiction.
Qed.

(** The pace field of a subset with [h] hours and [m] miles. *)
Lemma paceField_cases (h m : Q) :
  0 <= h ->
  (~ 0 < m -> paceField (pace h m) = None) /\
  (0 < m -> h == 0 -> paceField (pace h m) = None) /\
  (0 < m -> 0 < h ->
   paceField (pace h m) = Some (JS.Fin (JS.round1 (h * 60 / m))) /\
   0 < h * 60 / m /\ 0 <= JS.round1 (h * 60 / m)).
Proof.
intros Hh. split; [|split].
- intros Hm. rewrite (proj2 (pace_cases h m) Hm). reflexivity.
- intros Hm H0. rewrite (proj1 (pace_cases h m) Hm). cbn [paceField JS.truthyNumber].
  rewrite (proj2 (truthy_false _)); [reflexivity|].
  rewrite H0. field. lra.
- intros Hm Hpos. rewrite (proj1 (pace_cases h m) Hm).
  assert (Hp : 0 < h * 60 / m) by (apply Qlt_shift_div_l; lra).
  cbn [paceField JS.truthyNumber JS.round1N].
  rewrite (proj2 (truthy_true _)) by lra.
  split; [reflexivity|]. split; [exact Hp|]. apply round1_nonneg. lra.
Qed.

Lemma paceField_nullOrNonneg (h m : Q) :
  0 <= h -> nullOrNonneg (paceField (pace h m)).
Proof.
intros Hh. destruct (paceField_cases h m Hh) as (Hnone & Hzero & Hpos).
destruct (Qlt_le_dec 0 m) as [Hm|Hm].
- destruct (Qlt_le_dec 0 h) as [Hh'|Hh'].
  + destruct (Hpos Hm Hh') as (-> & _ & Hr). right. eauto.
  + left. apply Hzero; [exact Hm|lra].
- left. apply Hnone. lra.
Qed.

Lemma Forall_filter {A : Type} (P : A -> Prop) (f : A -> bool) (l : list A) :
  Forall P l -> Forall P (List.filter f l).
Proof.
intros H. apply List.Forall_forall. intros x Hx.
apply filter_In in Hx as [Hx _]. rewrite List.Forall_forall in H. auto.
Qed.

Lemma totals_paces (acts : list Run) :
  Forall nonnegRun acts ->
  nullOrNonneg (paceField (trailPaceOf acts)) /\
  nullOrNonneg (paceField (roadPaceOf acts)).
Proof.
intros H. unfold trailPaceOf, roadPaceOf, trailOf, roadOf.
split; apply paceField_nullOrNonneg; apply sumBy_nonneg;
  apply Forall_filter; exact H.
Qed.

Lemma normalize_nonneg (activities : list Activity) :
  Forall nonnegTime activities -> Forall nonnegRun (map normalize activities).
Proof.
intros H. apply Forall_map. eapply List.Forall_impl; [|exact H].
unfold nonnegTime, nonnegRun. intros act Ht. cbn [normalize Activities.hours].
apply Qle_shift_div_l; lra.
Qed.

Lemma runningActivities_nonneg (activities : list Activity) :
  Forall nonnegTime activities -> Forall nonnegRun (runningActivities activities).
Proof.
intros H. unfold runningActivities.
apply Forall_filter, normalize_nonneg, Forall_filter, H.
Qed.

Lemma In_mapiFrom {A B : Type} (f : A -> nat -> B) (l : list A) (k : nat) (b : B) :
  In b (mapiFrom f l k) -> exists x i, In x l /\ b = f x i.
Proof.
revert k. induction l as [|x l IH]; intros k; cbn [mapiFrom In]; [tauto|].
intros [<-|H].
- exists x, k. auto.
- destruct (IH _ H) as (y & i & Hy & ->). exists y, i. auto.
Qed.

Lemma within_nonneg (start finish : Z) (l : list Run) :
  Forall nonnegRun l -> Forall nonnegRun (within start finish l).
Proof. apply Forall_filter. Qed.

Import InteractiveRunningChart.

(** The pace fields of a bucket of each view. *)
Lemma yearlyData_paces (level : DrillDownLevel) (activities : list Activity)
  (b : YearStat) :
  In b (yearlyData level activities) ->
  exists acts, incl acts (runningActivities activities) /\
    trailPace (yearTotals b) = paceField (trailPaceOf acts) /\
    roadPace (yearTotals b) = paceField (roadPaceOf acts).
Proof.
unfold yearlyData. destruct (negb _); [intros []|].
intros H. apply in_map_iff in H as (y & <- & _).
eexists. split; [|split; reflexivity].
intros r Hr. apply filter_In in Hr. tauto.
Qed.

Lemma monthlyData_paces (level : DrillDownLevel) (y : Z)
  (activities : list Activity) (b : MonthStat) :
  In b (monthlyData level y activities) ->
  exists acts, incl acts (runningActivities activities) /\
    monthTrailPace b = paceField (trailPaceOf acts) /\
    monthRoadPace b = paceField (roadPaceOf acts).
Proof.
unfold monthlyData. destruct (negb _); [intros []|].
intros H. apply in_map_iff in H as (m & <- & _).
eexists. split; [|split; reflexivity].
intros r Hr. apply filter_In in Hr as [Hr _]. apply filter_In in Hr. tauto.
Qed.

Lemma weeklyData_paces (level : DrillDownLevel) (y : Z) (m : option Z)
  (activities : list Activity) (b : WeekStat) :
  In b (weeklyData level y m activities) ->
  exists acts, incl acts (runningActivities activities) /\
    trailPace (weekTotals b) = paceField (trailPaceOf acts) /\
    roadPace (weekTotals b) = paceField (roadPaceOf acts).
Proof.
unfold weeklyData. destruct m as [m|]; [|intros []].
destruct (negb _); [intros []|].
intros H. apply In_mapiFrom in H as (ws & i & _ & ->).
eexists. split; [|split; reflexivity].
intros r Hr. apply filter_In in Hr as [Hr _]. apply filter_In in Hr. tauto.
Qed.

Lemma dailyData_paces (level : DrillDownLevel) (w : option (Z * nat))
  (activities : list Activity) (b : DayStat) :
  In b (dailyData level w activities) ->
  exists acts, incl acts (runningActivities activities) /\
    trailPace (dayTotals b) = paceField (trailPaceOf acts) /\
    roadPace (dayTotals b) = paceField (roadPaceOf acts).
Proof.
unfold dailyData. destruct w as [[ws i]|]; [|intros []].
destruct (negb _); [intros []|].
intros H. apply in_map_iff in H as (day & <- & _).
eexists. split; [|split; reflexivity].
intros r Hr. apply filter_In in Hr as [Hr _]. apply filter_In in Hr. tauto.
Qed.

Lemma season_monthlyData_paces (y : Z) (activities : list Activity)
  (b : SeasonStats.MonthStat) :
  In b (SeasonStats.monthlyData y activities) ->
  exists acts, incl acts (runningActivities activities) /\
    SeasonStats.trailPace b = paceField (trailPaceOf acts) /\
    SeasonStats.roadPace b = paceField (roadPaceOf acts).
Proof.
unfold SeasonStats.monthlyData.
intros H. apply in_map_iff in H as (m & <- & _).
eexists. split; [|split; reflexivity].
intros r Hr. apply filter_In in Hr as [Hr _]. apply filter_In in Hr. tauto.
Qed.

Lemma incl_paces (activities : list Activity) (acts : list Run)
  (p1 p2 : option JS.number) :
  Forall nonnegTime activities ->
  incl acts (runningActivities activities) ->
  p1 = paceField (trailPaceOf acts) -> p2 = paceField (roadPaceOf acts) ->
  nullOrNonneg p1 /\ nullOrNonneg p2.
Proof.
intros Hall Hincl -> ->. apply totals_paces.
apply List.Forall_forall. intros r Hr.
pose proof (runningActivities_nonneg activities Hall) as H.
rewrite List.Forall_forall in H. auto.
Qed.

(** C10 (as the code has it): when no moving time is negative, the trail
    and road pace fields of every yearly, monthly, weekly and daily bucket
    are [null] or a number that is not negative; a pace that computes to
    exactly 0 (positive mileage, no moving time) is reported as [null]; a
    positive pace is reported as its rounding to one decimal, which is
    positive from 0.05 minutes per mile on and 0 below. *)
Theorem pace_fields_null_or_nonnegative (activities : list Activity) :
  Forall nonnegTime activities ->
  (forall level b, In b (yearlyData level activities) ->
     nullOrNonneg (trailPace (yearTotals b)) /\
     nullOrNonneg (roadPace (yearTotals b))) /\
  (forall level y b, In b (monthlyData level y activities) ->
     nullOrNonneg (monthTrailPace b) /\ nullOrNonneg (monthRoadPace b)) /\
  (forall level y m b, In b (weeklyData level y m activities) ->
     nullOrNonneg (trailPace (weekTotals b)) /\
     nullOrNonneg (roadPace (weekTotals b))) /\
  (forall level w b, In b (dailyData level w activities) ->
     nullOrNonneg (trailPace (dayTotals b)) /\
     nullOrNonneg (roadPace (dayTotals b))) /\
  (forall y b, In b (SeasonStats.monthlyData y activities) ->
     nullOrNonneg (SeasonStats.trailPace b) /\
     nullOrNonneg (SeasonStats.roadPace b)) /\
  (forall h m, 0 < m -> h == 0 -> paceField (pace h m) = None) /\
  (forall h m, 0 < m -> 0 < h ->
     paceField (pace h m) = Some (JS.Fin (JS.round1 (h * 60 / m))) /\
     ((1 # 20) <= h * 60 / m -> 0 < JS.round1 (h * 60 / m)) /\
     (h * 60 / m < (1 # 20) -> JS.round1 (h * 60 / m) == 0)).
Proof.
intros Hall.
split; [|split; [|split; [|split; [|split; [|split]]]]].
- intros level b H.
  destruct (yearlyData_paces _ _ _ H) as (acts & Hincl & H1 & H2).
  eapply incl_paces; eassumption.
- intros level y b H.
  destruct (monthlyData_paces _ _ _ _ H) as (acts & Hincl & H1 & H2).
  eapply incl_paces; eassumption.
- intros level y m b H.
  destruct (weeklyData_paces _ _ _ _ _ H) as (acts & Hincl & H1 & H2).
  eapply incl_paces; eassumption.
- intros level w b H.
  destruct (dailyData_paces _ _ _ _ H) as (acts & Hincl & H1 & H2).
  eapply incl_paces; eassumption.
- intros y b H.
  destruct (season_monthlyData_paces _ _ _ H) as (acts & Hincl & H1 & H2).
  eapply incl_paces; eassumption.
- intros h m Hm Hh. destruct (paceField_cases h m) as (_ & Hzero & _); [lra|].
  apply Hzero; assumption.
- intros h m Hm Hh.
  destruct (paceField_cases h m) as (_ & _ & Hpos); [lra|].
  destruct (Hpos Hm Hh) as (Hfield & Hp & _).
  split; [exact Hfield|]. split; [apply round1_pos|].
  intros Hsmall. apply round1_small; [lra|exact Hsmall].
Qed.

Lemma pace_fields_null_or_nonnegative_witness :
  Forall nonnegTime [easyRun] /\
  exists b, nth_error (SeasonStats.monthlyData 2024 [easyRun]) 5 = Some b /\
            SeasonStats.roadPace b = Some (JS.Fin (JS.round1 9)) /\
            nullOrNonneg (SeasonStats.roadPace b) /\
            paceField (pace 0 5) = None.
Proof.
assert (Hall : Forall nonnegTime [easyRun]).
{ repeat constructor. unfold nonnegTime. vm_compute. discriminate. }
split; [exact Hall|].
destruct (pace_fields_null_or_nonnegative [easyRun] Hall)
  as (_ & _ & _ & _ & Hmonth & Hzero & _).
eexists. split; [reflexivity|]. split; [reflexivity|]. split.
- apply (Hmonth 2024%Z). cbn [SeasonStats.monthlyData monthIndices map seq].
  do 5 right. left. reflexivity.
- apply Hzero; [lra|reflexivity].
Defined.

(** C10 as stated fails: a road run of 30 miles with one minute of moving
    time has a pace of 1/30 minute per mile, which is truthy and rounds to
    0.0; its year, month and week report the road pace 0, neither [null]
    nor strictly positive. *)
Lemma pace_field_rounds_to_zero :
  Forall nonnegTime [oneMinute] /\
  (exists b, yearlyData years [oneMinute] = [b] /\
             (exists p, roadPaceOf (ofYear 2024 [oneMinute]) = Some (JS.Fin p) /\
                        p == 1 # 30) /\
             roadPace (yearTotals b) = Some (JS.Fin (0 # 10)) /\
             ~ nullOrPositive (roadPace (yearTotals b))) /\
  (exists b, nth_error (SeasonStats.monthlyData 2024 [oneMinute]) 5 = Some b /\
             SeasonStats.roadPace b = Some (JS.Fin (0 # 10)) /\
             ~ nullOrPositive (SeasonStats.roadPace b)).
Proof.
assert (Hno : ~ nullOrPositive (Some (JS.Fin (0 # 10)))).
{ intros [H|(q & [= <-] & Hq)]; [discriminate|]. vm_compute in Hq. discriminate. }
split; [repeat constructor; unfold nonnegTime; vm_compute; discriminate|].
split.
- eexists. split; [vm_compute; reflexivity|]. split.
  + let v := eval vm_compute in (roadPaceOf (ofYear 2024 [oneMinute])) in
    match v with
    | Some (JS.Fin ?p) => exists p; split; vm_compute; reflexivity
    end.
  + split; [vm_compute; reflexivity|exact Hno].
- eexists. split; [vm_compute; reflexivity|].
  split; [vm_compute; reflexivity|exact Hno].
Qed.

(** ** Days and weeks *)

Local Open Scope Z_scope.

Ltac calendar :=
  unfold startOfWeek, endOfWeek, subWeeks, getDay, startOfDay, endOfDay,
         dayOf, DateFns.days, msPerDay in *;
  repeat match goal with
         | |- context [if ?b then _ else _] => destruct b eqn:?
         | H : context [if ?b then _ else _] |- _ => destruct b eqn:?
         end;
  repeat match goal with
         | H : (_ <? _) = true |- _ => apply Z.ltb_lt in H
         | H : (_ <? _) = false |- _ => apply Z.ltb_ge in H
         end;
  Z.div_mod_to_equations; lia.

Lemma dayOf_days (k : Z) : dayOf (DateFns.days k) = k.
Proof. calendar. Qed.

Lemma startOfDay_days (k : Z) : startOfDay (DateFns.days k) = DateFns.days k.
Proof. calendar. Qed.

(** The start of the week of [t] is the midnight that begins the last day
    of weekday [weekStartsOn] not after the day of [t]. *)
Lemma startOfWeek_day (wso t : Z) :
  0 <= wso <= 6 ->
  exists k, startOfWeek wso t = DateFns.days k /\ (k + 4) mod 7 = wso /\
            k <= dayOf t <= k + 6.
Proof.
intros Hw.
exists (dayOf t - ((if getDay t <? wso then 7 else 0) + getDay t - wso)).
split; [|split]; calendar.
Qed.

Lemma endOfWeek_days (wso k : Z) :
  0 <= wso <= 6 -> (k + 4) mod 7 = wso ->
  endOfWeek wso (DateFns.days k) = DateFns.days (k + 7) - 1.
Proof. intros Hw Hk. calendar. Qed.

Lemma startOfWeek_days (wso k : Z) :
  0 <= wso <= 6 -> (k + 4) mod 7 = wso -> startOfWeek wso (DateFns.days k) = DateFns.days k.
Proof. intros Hw Hk. calendar. Qed.

Lemma startOfWeek_subWeeks (wso t i : Z) :
  startOfWeek wso (subWeeks t i) = startOfWeek wso t - DateFns.days (7 * i).
Proof. calendar. Qed.

Lemma startOfWeek_contains (wso t : Z) :
  0 <= wso <= 6 ->
  startOfWeek wso t <= t <= endOfWeek wso (startOfWeek wso t).
Proof.
intros Hw. destruct (startOfWeek_day wso t Hw) as (k & Hk & Hday & Hin).
rewrite Hk, (endOfWeek_days wso k Hw Hday). calendar.
Qed.

Lemma getDay_startOfWeek (wso t : Z) :
  0 <= wso <= 6 -> getDay (startOfWeek wso t) = wso.
Proof.
intros Hw. destruct (startOfWeek_day wso t Hw) as (k & Hk & Hday & _).
rewrite Hk. unfold getDay. rewrite dayOf_days. exact Hday.
Qed.

Local Close Scope Z_scope.

(** ** The last four weeks *)

Lemma weeklySummary_week (now : Z) (acts : list TrainingSummaryChart.StravaActivity)
  (i : nat) :
  let w := TrainingSummaryChart.weeklySummary now acts i in
  TrainingSummaryChart.week w = (startOfWeek 1 now - DateFns.days (7 * Z.of_nat i))%Z /\
  getDay (TrainingSummaryChart.week w) = 1%Z /\
  startOfDay (TrainingSummaryChart.week w) = TrainingSummaryChart.week w /\
  TrainingSummaryChart.runCount w
  = length (List.filter
              (fun a => match TrainingSummaryChart.start_date a with
                        | Some d => (TrainingSummaryChart.week w <=? d)%Z
                                    && (d <? TrainingSummaryChart.week w + DateFns.days 7)%Z
                        | None => false
                        end) acts).
Proof.
cbv zeta. unfold TrainingSummaryChart.weeklySummary.
cbn [TrainingSummaryChart.week TrainingSummaryChart.runCount].
assert (Hw : (0 <= 1 <= 6)%Z) by lia.
destruct (startOfWeek_day 1 (subWeeks now (Z.of_nat i)) Hw) as (k & Hk & Hday & _).
split; [apply startOfWeek_subWeeks|].
split; [apply getDay_startOfWeek; lia|].
rewrite Hk, (endOfWeek_days 1 k Hw Hday).
split; [apply startOfDay_days|].
f_equal. apply filter_ext. intros a.
destruct (TrainingSummaryChart.start_date a) as [d|]; [|reflexivity].
f_equal. apply eq_true_iff_eq. rewrite Z.leb_le, Z.ltb_lt.
unfold DateFns.days, msPerDay. lia.
Qed.

(** C9: the weekly summary has exactly four buckets, one for each of the
    four Monday-starting weeks that end with the week containing [now],
    the most recent last, labelled "3 weeks ago", "2 weeks ago",
    "Last Week" and "This Week"; each counts the activities that start in
    its week. *)
Theorem generateWeeklySummaries_four_weeks (now : Z)
  (acts : list TrainingSummaryChart.StravaActivity) :
  exists w3 w2 w1 w0,
    TrainingSummaryChart.generateWeeklySummaries now acts = [w3; w2; w1; w0] /\
    (TrainingSummaryChart.week w0 <= now
     <= endOfWeek 1 (TrainingSummaryChart.week w0))%Z /\
    endOfWeek 1 (TrainingSummaryChart.week w0)
    = (TrainingSummaryChart.week w0 + DateFns.days 7 - 1)%Z /\
    TrainingSummaryChart.week w1 = (TrainingSummaryChart.week w0 - DateFns.days 7)%Z /\
    TrainingSummaryChart.week w2 = (TrainingSummaryChart.week w1 - DateFns.days 7)%Z /\
    TrainingSummaryChart.week w3 = (TrainingSummaryChart.week w2 - DateFns.days 7)%Z /\
    Forall (fun w =>
              getDay (TrainingSummaryChart.week w) = 1%Z /\
              startOfDay (TrainingSummaryChart.week w) = TrainingSummaryChart.week w /\
              TrainingSummaryChart.runCount w
              = length (List.filter
                          (fun a => match TrainingSummaryChart.start_date a with
                                    | Some d =>
                                        (TrainingSummaryChart.week w <=? d)%Z
                                        && (d <? TrainingSummaryChart.week w + DateFns.days 7)%Z
                                    | None => false
                                    end) acts))
           [w3; w2; w1; w0] /\
    map TrainingSummaryChart.weekLabel [w3; w2; w1; w0]
    = ["3 weeks ago"; "2 weeks ago"; "Last Week"; "This Week"]%string.
Proof.
exists (TrainingSummaryChart.weeklySummary now acts 3),
       (TrainingSummaryChart.weeklySummary now acts 2),
       (TrainingSummaryChart.weeklySummary now acts 1),
       (TrainingSummaryChart.weeklySummary now acts 0).
destruct (weeklySummary_week now acts 0) as (H0 & G0 & D0 & C0).
destruct (weeklySummary_week now acts 1) as (H1 & G1 & D1 & C1).
destruct (weeklySummary_week now acts 2) as (H2 & G2 & D2 & C2).
destruct (weeklySummary_week now acts 3) as (H3 & G3 & D3 & C3).
cbv zeta in *.
assert (Hw : (0 <= 1 <= 6)%Z) by lia.
assert (Hweek0 : TrainingSummaryChart.week (TrainingSummaryChart.weeklySummary now acts 0)
                 = startOfWeek 1 now).
{ rewrite H0. unfold DateFns.days. cbn. lia. }
split; [reflexivity|].
split; [rewrite Hweek0; apply startOfWeek_contains; exact Hw|].
split.
{ rewrite Hweek0.
  destruct (startOfWeek_day 1 now Hw) as (k & Hk & Hday & _).
  rewrite Hk, (endOfWeek_days 1 k Hw Hday). unfold DateFns.days. lia. }
split; [rewrite H1, H0; unfold DateFns.days; cbn; lia|].
split; [rewrite H2, H1; unfold DateFns.days; cbn; lia|].
split; [rewrite H3, H2; unfold DateFns.days; cbn; lia|].
split; [|reflexivity].
repeat constructor; assumption.
Qed.

(** ** The periods of a range *)

Local Open Scope Z_scope.

Lemma nth_error_map_seq {A : Type} (f : nat -> A) (n i : nat) :
  nth_error (map f (seq 0 n)) i = if (i <? n)%nat then Some (f i) else None.
Proof.
rewrite nth_error_map.
destruct (i <? n)%nat eqn:E.
- apply Nat.ltb_lt in E. rewrite nth_error_nth' with (d := 0%nat) by (rewrite length_seq; lia).
  rewrite seq_nth by lia. reflexivity.
- apply Nat.ltb_ge in E.
  rewrite (proj2 (nth_error_None _ _)) by (rewrite length_seq; lia). reflexivity.
Qed.

(** The weeks of an interval: Sunday midnights seven days apart, from the
    week of [start] to the week of [finish], none left out. *)
Lemma eachWeekOfInterval_weeks (start finish : Z) :
  start <= finish ->
  let l := eachWeekOfInterval start finish in
  (forall i ws, nth_error l i = Some ws ->
     ws = startOfWeek 0 start + DateFns.days (7 * Z.of_nat i) /\
     getDay ws = 0 /\ startOfDay ws = ws /\ ws <= finish /\
     start <= endOfWeek 0 ws) /\
  (forall t, start <= t <= finish -> In (startOfWeek 0 t) l) /\
  Z.of_nat (length l)
  = (startOfWeek 0 finish - startOfWeek 0 start) / DateFns.days 7 + 1 /\
  (0 < length l)%nat.
Proof.
intros Hle. cbv zeta. unfold eachWeekOfInterval.
assert (Hw : 0 <= 0 <= 6) by lia.
destruct (startOfWeek_day 0 start Hw) as (k0 & Hk0 & Hd0 & Hin0).
destruct (startOfWeek_day 0 finish Hw) as (k1 & Hk1 & Hd1 & Hin1).
rewrite Hk0, Hk1.
assert (Hk : k0 <= k1).
{ assert (dayOf start <= dayOf finish) by calendar.
  clear Hk0 Hk1. Z.div_mod_to_equations. lia. }
assert (Hcount : (DateFns.days k1 - DateFns.days k0) / DateFns.days 7 + 1 = (k1 - k0) / 7 + 1).
{ clear Hk0 Hk1. unfold DateFns.days, msPerDay. Z.div_mod_to_equations. lia. }
rewrite Hcount.
split; [|split; [|split]].
- intros i ws. rewrite nth_error_map_seq.
  destruct (i <? _)%nat eqn:E; [|discriminate]. intros [= <-].
  apply Nat.ltb_lt in E.
  assert (Hi : Z.of_nat i <= (k1 - k0) / 7) by lia.
  replace (DateFns.days k0 + DateFns.days (7 * Z.of_nat i)) with (DateFns.days (k0 + 7 * Z.of_nat i))
    by (unfold DateFns.days; lia).
  assert (Hday : (k0 + 7 * Z.of_nat i + 4) mod 7 = 0).
  { clear Hk0 Hk1 Hcount. Z.div_mod_to_equations. lia. }
  split; [reflexivity|].
  split; [unfold getDay; rewrite dayOf_days; exact Hday|].
  split; [apply startOfDay_days|].
  rewrite (endOfWeek_days 0 _ Hw Hday).
  clear Hk0 Hk1 Hcount.
  unfold dayOf, DateFns.days, msPerDay in *. Z.div_mod_to_equations. lia.
- intros t Ht.
  destruct (startOfWeek_day 0 t Hw) as (k & Hkt & Hdt & Hint).
  rewrite Hkt.
  assert (Hrange : k0 <= k <= k1).
  { assert (dayOf start <= dayOf t <= dayOf finish) by calendar.
    clear Hk0 Hk1 Hkt Hcount. Z.div_mod_to_equations. lia. }
  apply in_map_iff. exists (Z.to_nat ((k - k0) / 7)).
  split.
  + rewrite Z2Nat.id by (apply Z.div_pos; lia).
    clear Hk0 Hk1 Hkt Hcount. unfold DateFns.days, msPerDay.
    Z.div_mod_to_equations. lia.
  + apply in_seq.
    assert ((k - k0) / 7 <= (k1 - k0) / 7) by (apply Z.div_le_mono; lia).
    assert (0 <= (k - k0) / 7) by (apply Z.div_pos; lia).
    lia.
- rewrite length_map, length_seq.
  assert (0 <= (k1 - k0) / 7) by (apply Z.div_pos; lia). lia.
- rewrite length_map, length_seq.
  assert (0 <= (k1 - k0) / 7) by (apply Z.div_pos; lia). lia.
Qed.

(** The days of an interval: the midnights from the day of [start] to the
    day of [finish], none left out. *)
Lemma eachDayOfInterval_days (start finish : Z) :
  start <= finish ->
  let l := eachDayOfInterval start finish in
  (forall i d, nth_error l i = Some d ->
     d = startOfDay start + DateFns.days (Z.of_nat i) /\ startOfDay d = d /\ d <= finish) /\
  (forall t, start <= t <= finish -> In (startOfDay t) l) /\
  Z.of_nat (length l) = dayOf finish - dayOf start + 1.
Proof.
intros Hle. cbv zeta. unfold eachDayOfInterval.
assert (Hcount : (finish - startOfDay start) / msPerDay + 1
                 = dayOf finish - dayOf start + 1) by calendar.
rewrite Hcount.
assert (Hdays : dayOf start <= dayOf finish) by calendar.
split; [|split].
- intros i d. rewrite nth_error_map_seq.
  destruct (i <? _)%nat eqn:E; [|discriminate]. intros [= <-].
  apply Nat.ltb_lt in E.
  split; [reflexivity|].
  split; [|clear Hcount; calendar].
  assert (Heq : startOfDay start + DateFns.days (Z.of_nat i)
                = DateFns.days (dayOf start + Z.of_nat i))
    by (unfold startOfDay, DateFns.days; lia).
  rewrite Heq. apply startOfDay_days.
- intros t Ht. apply in_map_iff.
  assert (Hrange : dayOf start <= dayOf t <= dayOf finish) by calendar.
  exists (Z.to_nat (dayOf t - dayOf start)). split.
  + rewrite Z2Nat.id by lia. unfold startOfDay, DateFns.days. lia.
  + apply in_seq. lia.
- rewrite length_map, length_seq. lia.
Qed.

Lemma year_length (y : Z) :
  DayFromYear (y + 1) - DayFromYear y = if InLeapYear y then 366 else 365.
Proof.
unfold DayFromYear, InLeapYear.
destruct (y mod 4 =? 0) eqn:E4, (y mod 100 =? 0) eqn:E100, (y mod 400 =? 0) eqn:E400;
  cbn [andb orb negb];
  rewrite ?Z.eqb_eq, ?Z.eqb_neq in *;
  Z.div_mod_to_equations; lia.
Qed.

Lemma daysBeforeMonth_step (leap : bool) (m : Z) :
  0 <= m <= 10 ->
  28 <= daysBeforeMonth leap (m + 1) - daysBeforeMonth leap m <= 31.
Proof.
intros Hm.
assert (Hcases : m = 0 \/ m = 1 \/ m = 2 \/ m = 3 \/ m = 4 \/ m = 5 \/ m = 6 \/
                 m = 7 \/ m = 8 \/ m = 9 \/ m = 10) by lia.
destruct Hcases as [->|[->|[->|[->|[->|[->|[->|[->|[->|[->| ->]]]]]]]]]];
  destruct leap; vm_compute; split; discriminate.
Qed.

(** Every month has 28 to 31 days. *)
Lemma month_length (y m : Z) :
  0 <= m <= 11 ->
  28 <= MakeDay y (m + 1) 1 - MakeDay y m 1 <= 31.
Proof.
intros Hm. unfold MakeDay.
destruct (Z.eq_dec m 11) as [->|Hne].
- change ((11 + 1) / 12) with 1. change ((11 + 1) mod 12) with 0.
  change (11 / 12) with 0. change (11 mod 12) with 11.
  pose proof (year_length y) as Hy. replace (y + 0) with y by lia.
  revert Hy. unfold daysBeforeMonth.
  destruct (InLeapYear y), (InLeapYear (y + 1)); lia.
- rewrite (Z.div_small m 12), (Z.mod_small m 12) by lia.
  rewrite (Z.div_small (m + 1) 12), (Z.mod_small (m + 1) 12) by lia.
  replace (y + 0) with y by lia.
  pose proof (daysBeforeMonth_step (InLeapYear y) m). lia.
Qed.

Local Close Scope Z_scope.

(** ** Buckets of periods without activities *)

Lemma totals_empty (acts : list Run) :
  runs (totals acts) = 0%nat -> emptyTotals (totals acts).
Proof.
cbn [runs totals]. intros H. apply length_zero_iff_nil in H. subst acts.
repeat split.
Qed.

Lemma monthStat_empty (y : Z) (running : list Run) (m : Z) :
  let b := monthStat y running m in
  monthRuns b = 0%nat ->
  runningMiles b == 0 /\ monthTrailMiles b == 0 /\ monthRoadMiles b == 0 /\
  runningHours b == 0 /\ monthTrailPace b = None /\ monthRoadPace b = None.
Proof.
cbv zeta. unfold monthStat. cbn [monthRuns runningMiles monthTrailMiles monthRoadMiles
                                runningHours monthTrailPace monthRoadPace].
intros H. apply length_zero_iff_nil in H. rewrite H. repeat split.
Qed.

Lemma season_monthStat_empty (y : Z) (running allActs : list Run) (m : Z) :
  let b := SeasonStats.monthStat y running allActs m in
  SeasonStats.runs b = 0%nat ->
  SeasonStats.runningMiles b == 0 /\ SeasonStats.trailMiles b == 0 /\
  SeasonStats.roadMiles b == 0 /\ SeasonStats.runningHours b == 0 /\
  SeasonStats.avgPace b = None /\
  SeasonStats.trailPace b = None /\ SeasonStats.roadPace b = None.
Proof.
cbv zeta. unfold SeasonStats.monthStat.
cbn [SeasonStats.runs SeasonStats.runningMiles SeasonStats.trailMiles
     SeasonStats.roadMiles SeasonStats.runningHours SeasonStats.avgPace
     SeasonStats.trailPace SeasonStats.roadPace].
intros H. apply length_zero_iff_nil in H. rewrite H. repeat split.
Qed.

Lemma newDate_month_lt (y m : Z) :
  (0 <= m <= 11)%Z -> (newDate y m 1 < newDate y (m + 1) 1)%Z.
Proof.
intros Hm. unfold newDate.
pose proof (month_length (if (0 <=? y)%Z && (y <=? 99)%Z then (1900 + y)%Z else y) m Hm).
unfold DateFns.days, msPerDay. lia.
Qed.

Lemma newDate_month_end (y m : Z) :
  (0 <= m <= 11)%Z ->
  (newDate y m 1 <= newDate y (m + 1) 0)%Z /\
  (newDate y (m + 1) 0 + DateFns.days 1 = newDate y (m + 1) 1)%Z.
Proof.
intros Hm. unfold newDate.
pose proof (month_length (if (0 <=? y)%Z && (y <=? 99)%Z then (1900 + y)%Z else y) m Hm).
unfold MakeDay, DateFns.days, msPerDay in *. lia.
Qed.

(** ** One bucket per period *)

Lemma monthlyData_months (y : Z) (activities : list Activity) :
  map monthNumber (monthlyData months y activities)
  = [0; 1; 2; 3; 4; 5; 6; 7; 8; 9; 10; 11]%Z /\
  map SeasonStats.monthNumber (SeasonStats.monthlyData y activities)
  = [0; 1; 2; 3; 4; 5; 6; 7; 8; 9; 10; 11]%Z /\
  (forall b, In b (monthlyData months y activities) ->
     monthRuns b
     = length (within (startOfMonth (newDate y (monthNumber b) 1))
                      (endOfMonth (startOfMonth (newDate y (monthNumber b) 1)))
                      (ofYear y activities)) /\
     (monthRuns b = 0%nat ->
      runningMiles b == 0 /\ monthTrailMiles b == 0 /\ monthRoadMiles b == 0 /\
      runningHours b == 0 /\ monthTrailPace b = None /\ monthRoadPace b = None)) /\
  (forall b, In b (SeasonStats.monthlyData y activities) ->
     SeasonStats.runs b
     = length (within (newDate y (SeasonStats.monthNumber b) 1)
                      (newDate y (SeasonStats.monthNumber b + 1) 0)
                      (within (SeasonStats.yearStart y) (SeasonStats.yearEnd y)
                              (runningActivities activities))) /\
     (SeasonStats.runs b = 0%nat ->
      SeasonStats.runningMiles b == 0 /\ SeasonStats.trailMiles b == 0 /\
      SeasonStats.roadMiles b == 0 /\ SeasonStats.runningHours b == 0 /\
      SeasonStats.avgPace b = None /\
      SeasonStats.trailPace b = None /\ SeasonStats.roadPace b = None)).
Proof.
split; [reflexivity|]. split; [reflexivity|]. split.
- intros b Hb. unfold monthlyData in Hb. cbn [isLevel negb] in Hb.
  apply in_map_iff in Hb as (m & <- & _).
  split; [reflexivity|apply monthStat_empty].
- intros b Hb. unfold SeasonStats.monthlyData in Hb.
  apply in_map_iff in Hb as (m & <- & _).
  split; [reflexivity|apply season_monthStat_empty].
Qed.

Lemma weeklyData_weeks (y m : Z) (activities : list Activity) :
  (0 <= m <= 11)%Z ->
  let out := weeklyData weeks y (Some m) activities in
  let monthStart := newDate y m 1 in
  let monthEnd := newDate y (m + 1) 0 in
  length out = length (eachWeekOfInterval monthStart monthEnd) /\
  (0 < length out)%nat /\
  (forall i b, nth_error out i = Some b ->
     weekIndex b = i /\
     weekStart b = (startOfWeek 0 monthStart + DateFns.days (7 * Z.of_nat i))%Z /\
     getDay (weekStart b) = 0%Z /\
     (weekStart b <= monthEnd)%Z /\ (monthStart <= endOfWeek 0 (weekStart b))%Z /\
     runs (weekTotals b)
     = length (within (weekStart b) (endOfWeek 0 (weekStart b))
                      (within monthStart monthEnd (runningActivities activities))) /\
     (runs (weekTotals b) = 0%nat -> emptyTotals (weekTotals b))) /\
  (forall t, (monthStart <= t <= monthEnd)%Z ->
     exists b, In b out /\ (weekStart b <= t <= endOfWeek 0 (weekStart b))%Z).
Proof.
intros Hm. cbv zeta. unfold weeklyData. cbn [isLevel negb].
destruct (newDate_month_end y m Hm) as [Hle _].
destruct (eachWeekOfInterval_weeks _ _ Hle) as (Hnth & Hcover & _ & Hpos).
cbv zeta in *. unfold mapi.
split; [apply mapiFrom_length|].
split; [rewrite mapiFrom_length; exact Hpos|].
split.
- intros i b. rewrite mapiFrom_nth_error.
  destruct (nth_error (eachWeekOfInterval _ _) i) as [ws|] eqn:E; [|discriminate].
  intros [= <-]. destruct (Hnth i ws E) as (Hws & Hday & _ & Hend & Hstart).
  cbn [weekStat weekIndex weekStart weekTotals Nat.add].
  repeat (split; [assumption || reflexivity|]).
  apply totals_empty.
- intros t Ht. specialize (Hcover t Ht).
  apply In_nth_error in Hcover as [i Hi].
  exists (weekStat (within (newDate y m 1) (newDate y (m + 1) 0)
                           (runningActivities activities))
                   (startOfWeek 0 t) i).
  split.
  + eapply nth_error_In with (n := i). rewrite mapiFrom_nth_error, Hi. reflexivity.
  + cbn [weekStat weekStart]. apply startOfWeek_contains. lia.
Qed.

Lemma dailyData_days (ws : Z) (idx : nat) (activities : list Activity) :
  let out := dailyData InteractiveRunningChart.days (Some (ws, idx)) activities in
  Z.of_nat (length out) = (7 - getDay ws)%Z /\
  (getDay ws = 0%Z -> length out = 7%nat) /\
  (forall i b, nth_error out i = Some b ->
     fullDate b = (startOfDay ws + DateFns.days (Z.of_nat i))%Z /\
     (fullDate b <= endOfWeek 0 ws)%Z /\
     runs (dayTotals b)
     = length (List.filter (fun act => isSameDay (Activities.date act) (fullDate b))
                 (within ws (endOfWeek 0 ws) (runningActivities activities))) /\
     (runs (dayTotals b) = 0%nat -> emptyTotals (dayTotals b))).
Proof.
cbv zeta. unfold dailyData. cbn [isLevel negb].
assert (Hle : (ws <= endOfWeek 0 ws)%Z) by calendar.
destruct (eachDayOfInterval_days _ _ Hle) as (Hnth & _ & Hlen).
cbv zeta in *.
assert (Hcount : (dayOf (endOfWeek 0 ws) - dayOf ws + 1 = 7 - getDay ws)%Z)
  by calendar.
rewrite length_map.
split; [lia|]. split; [lia|].
intros i b. rewrite nth_error_map.
destruct (nth_error (eachDayOfInterval _ _) i) as [d|] eqn:E; [|discriminate].
intros [= <-]. destruct (Hnth i d E) as (Hd & _ & Hend).
cbn [dayStat fullDate dayTotals].
split; [exact Hd|]. split; [exact Hend|]. split; [reflexivity|].
apply totals_empty.
Qed.



(** A run at noon of 30 June 2024 is counted by the chart's bucket of June,
    by no weekly bucket of June and not by the June bucket of
    [SeasonStats]. *)
Example last_day_run_not_counted :
  map monthRuns (monthlyData months 2024 [lastDayRun])
  = [0; 0; 0; 0; 0; 1; 0; 0; 0; 0; 0; 0]%nat /\
  map (fun b => runs (weekTotals b)) (weeklyData weeks 2024 (Some 5%Z) [lastDayRun])
  = [0; 0; 0; 0; 0; 0]%nat /\
  map SeasonStats.runs (SeasonStats.monthlyData 2024 [lastDayRun])
  = [0; 0; 0; 0; 0; 0; 0; 0; 0; 0; 0; 0]%nat.
Proof. repeat split; vm_compute; reflexivity. Qed.

(** * Further properties of the views *)

(** ** The category filter and the PR flag of the season's race table *)

Import RaceTables.

Lemma far_negb_near (d c : Q) : SeasonStatsRaces.far d c = negb (near d c).
Proof.
unfold SeasonStatsRaces.far, near, JS.ltb. rewrite negb_involutive. reflexivity.
Qed.

Lemma categoryRaces_In (valid : list Race) (c : SeasonStatsRaces.Category) (r : Race) :
  In r (SeasonStatsRaces.categoryRaces valid c) <->
  In r valid /\ SeasonStatsRaces.getRaceCategory (distance r) = c.
Proof.
destruct (getRaceCategory_cases (distance r)) as (G1 & G2 & G3 & G4).
destruct c; cbn [SeasonStatsRaces.categoryRaces SeasonStatsRaces.targetDistance];
  rewrite filter_In; rewrite ?far_negb_near, ?andb_true_iff, ?negb_true_iff;
  intuition.
Qed.

(** The category filter of the season's race table keeps exactly the races
    whose category, as [getRaceCategory] names it, is the selected one, so
    the four filters split the year's races without overlap; the classes
    of the best-times table are split the same way, and ['All'] keeps every
    race. *)
Theorem category_filter_matches_getRaceCategory (l : list Race) (r : Race) :
  filteredRacesForTable None l = l /\
  (forall c, In r (filteredRacesForTable (Some c) l) <->
             In r l /\ SeasonStatsRaces.getRaceCategory (distance r) = c) /\
  (forall c, In r (SeasonStatsRaces.categoryRaces l c) <->
             In r l /\ SeasonStatsRaces.getRaceCategory (distance r) = c) /\
  (In r l ->
   exists c, In r (filteredRacesForTable (Some c) l) /\
             forall c', In r (filteredRacesForTable (Some c') l) -> c' = c).
Proof.
assert (Hfilter : forall c, In r (filteredRacesForTable (Some c) l) <->
                            In r (SeasonStatsRaces.categoryRaces l c)).
{ intros c. destruct c; reflexivity. }
split; [reflexivity|]. split; [|split].
- intros c. rewrite Hfilter. apply categoryRaces_In.
- intros c. apply categoryRaces_In.
- intros Hr. exists (SeasonStatsRaces.getRaceCategory (distance r)). split.
  + rewrite Hfilter, categoryRaces_In. auto.
  + intros c'. rewrite Hfilter, categoryRaces_In. intros [_ H]. auto.
Qed.

Lemma category_filter_matches_getRaceCategory_witness :
  In longMarathon [longMarathon] /\
  exists c, In longMarathon (filteredRacesForTable (Some c) [longMarathon]) /\
            forall c', In longMarathon (filteredRacesForTable (Some c') [longMarathon]) ->
                       c' = c.
Proof.
assert (H : In longMarathon [longMarathon]) by (left; reflexivity).
split; [exact H|].
destruct (category_filter_matches_getRaceCategory [longMarathon] longMarathon)
  as (_ & _ & _ & Hone).
exact (Hone H).
Defined.

Lemma strictEq_refl (a : JS.number) : a <> JS.NaN -> strictEq a a = true.
Proof.
destruct a; cbn; try congruence. intros _. apply Qeq_bool_iff. reflexivity.
Qed.

Lemma lt_strictEq (x a b : JS.number) :
  strictEq a b = true -> JS.lt x a = false -> JS.lt x b = false.
Proof.
destruct x, a, b; cbn; intros He Hl; try discriminate; try reflexivity.
apply Qeq_bool_iff in He. apply ltb_false in Hl. apply ltb_false. lra.
Qed.

Lemma bestSoFar_fastest (seconds : option string -> JS.number)
  (before : list Race) (best : Race) (after : list Race) (x : Race) :
  bestSoFar seconds before best after ->
  In x (before ++ best :: after) -> validTime seconds x ->
  JS.lt (secondsOf seconds x) (secondsOf seconds best) = false.
Proof.
intros (Hbest & Hbefore & Hafter) Hx Hv.
apply in_app_or in Hx as [Hx|[<-|Hx]].
- apply lt_asym. auto.
- apply lt_irrefl.
- auto.
Qed.

(** In the season's race table the PR flag of a race compares its seconds
    with the best time stored for its category.  When the first race of a
    category has a valid time, the race stored as best is flagged, and a
    race of the category is flagged exactly when its seconds equal the
    best ones, in which case no race of the category with a valid time is
    strictly faster. *)
Theorem season_isPersonalBest_flags_best (races : list Race)
  (m : gmap string SeasonStatsRaces.BestTime) (c : SeasonStatsRaces.Category)
  (r0 : Race) (rest : list Race) :
  SeasonStatsRaces.bestTimes races = Returns m ->
  SeasonStatsRaces.categoryRaces (SeasonStatsRaces.validRaces races) c = r0 :: rest ->
  validTime SeasonStatsRaces.seconds r0 ->
  exists best,
    In best (r0 :: rest) /\
    isPersonalBest m best = Returns true /\
    forall r, In r (r0 :: rest) ->
      isPersonalBest m r
      = Returns (strictEq (secondsOf SeasonStatsRaces.seconds best)
                          (secondsOf SeasonStatsRaces.seconds r)) /\
      (isPersonalBest m r = Returns true ->
       forall x, In x (r0 :: rest) -> validTime SeasonStatsRaces.seconds x ->
                 JS.lt (secondsOf SeasonStatsRaces.seconds x)
                       (secondsOf SeasonStatsRaces.seconds r) = false).
Proof.
intros Hm Hclass Hvalid.
destruct (SeasonStats_bestTimes_entries races) as (m' & Hm' & Hentries).
rewrite Hm in Hm'. injection Hm' as <-.
destruct (bestRaceOf_first_fastest _ _ SeasonStats_seconds_returns r0 rest Hvalid)
  as (before & best & after & Hrun & Hsplit & Hinv).
assert (Hentry : m !! SeasonStatsRaces.categoryName c
                 = Some (SeasonStatsRaces.entryOf
                           (best, secondsOf SeasonStatsRaces.seconds best))).
{ rewrite Hentries. unfold SeasonStatsRaces.entry. rewrite Hclass, Hrun. reflexivity. }
assert (Hflag : forall r, In r (r0 :: rest) ->
          isPersonalBest m r
          = Returns (strictEq (secondsOf SeasonStatsRaces.seconds best)
                              (secondsOf SeasonStatsRaces.seconds r))).
{ intros r Hr. rewrite <- Hclass in Hr. apply categoryRaces_In in Hr as [_ Hcat].
  unfold isPersonalBest. rewrite SeasonStats_seconds_returns, Hcat, Hentry.
  reflexivity. }
assert (Hbest : In best (r0 :: rest)).
{ rewrite Hsplit. apply in_or_app. right. left. reflexivity. }
exists best. split; [exact Hbest|]. split.
- rewrite (Hflag best Hbest), strictEq_refl; [reflexivity|].
  apply gt0_not_NaN. apply Hinv.
- intros r Hr. split; [apply Hflag; exact Hr|].
  rewrite (Hflag r Hr). intros [= He] x Hx Hvx.
  apply (lt_strictEq _ _ _ He).
  apply (bestSoFar_fastest _ before best after); [exact Hinv| |exact Hvx].
  rewrite <- Hsplit. exact Hx.
Qed.

Lemma season_isPersonalBest_flags_best_witness :
  exists m best,
    SeasonStatsRaces.bestTimes marathons = Returns m /\
    In best marathons /\ isPersonalBest m best = Returns true.
Proof.
destruct (SeasonStats_bestTimes_entries marathons) as (m & Hm & _).
assert (Hclass : SeasonStatsRaces.categoryRaces
                   (SeasonStatsRaces.validRaces marathons) SeasonStatsRaces.Marathon
                 = mkRace "City Marathon" 10 26.2 (Some "3:45:00"%string) None None
                   :: [mkRace "Coast Marathon" 20 26.2 (Some "3:30:00"%string) None None])
  by reflexivity.
destruct (season_isPersonalBest_flags_best marathons m _ _ _ Hm Hclass)
  as (best & Hin & Hflag & _); [reflexivity|].
exists m, best. auto.
Defined.

(** The table of best times of [BibBook] has no key but the names of the
    five classes. *)
Lemma BibBook_bestTimes_keys (races : list Race)
  (m : gmap string BibBook.BestTime) (key : string) :
  BibBook.bestTimes races = Returns m ->
  ~ In key (map fst BibBook.distanceKeys) -> m !! key = None.
Proof.
intros Hm Hkey.
destruct (forEach_store fst (fun k => BibBook.entry races (snd k))
            (BibBook.bestTimesStep (BibBook.validRaces races)) BibBook.distanceKeys)
  with (m0 := (∅ : gmap string BibBook.BestTime)) as (m' & Hrun & _ & Hout).
{ intros. apply BibBook_bestTimesStep_returns. }
{ repeat (constructor; [cbn [In map fst]; intuition discriminate|]). constructor. }
unfold BibBook.bestTimes in Hm. rewrite Hrun in Hm. injection Hm as <-.
rewrite (Hout key Hkey). apply lookup_empty.
Qed.

Lemma includes_miles (s : string) :
  JS.includes " miles" (s ++ " miles")%string = true.
Proof.
induction s as [|a s IH]; [reflexivity|].
rewrite append_cons. cbn [JS.includes]. rewrite IH. apply orb_true_r.
Qed.

Lemma miles_not_a_class (s : string) :
  ~ In (s ++ " miles")%string (map fst BibBook.distanceKeys).
Proof.
intros Hin. pose proof (includes_miles s) as Hs.
cbn [map fst BibBook.distanceKeys In] in Hin.
repeat (destruct Hin as [Hin|Hin]; [rewrite <- Hin in Hs; discriminate|]).
contradiction.
Qed.



(** ** BibBook: the distance breakdown and the best times *)

Import BibBookStats.

Lemma breakdown_counts (l : list Race) :
  (length (List.filter (fun r => near (distance r) 26.2) l)
   + length (List.filter (fun r => near (distance r) 13.1) l)
   + length (List.filter (fun r => near (distance r) 6.21371) l)
   + length (List.filter (fun r => near (distance r) 3.1) l)
   + length (List.filter (fun r => near (distance r) 9.3) l) <= length l)%nat.
Proof.
induction l as [|r l IH]; [cbn; lia|].
cbn [List.filter].
destruct (near (distance r) 26.2) eqn:E1, (near (distance r) 13.1) eqn:E2,
         (near (distance r) 6.21371) eqn:E3, (near (distance r) 3.1) eqn:E4,
         (near (distance r) 9.3) eqn:E5;
  try (exfalso; band_facts; lra); cbn [length]; lia.
Qed.

(** The bands of the five classes do not overlap, so the counts of the
    distance breakdown never add up to more than the number of races with a
    time; and the table of best times has an entry for a class exactly
    when the class counts at least one race, which are the classes the
    distance chart shows. *)
Theorem distanceBreakdown_counts_and_bestTimes (races : list Race) :
  (list_sum (map snd (distanceBreakdown races)) <= length (BibBook.validRaces races))%nat /\
  map fst (distanceBreakdown races) = map fst BibBook.distanceKeys /\
  (forall m key n,
     BibBook.bestTimes races = Returns m ->
     In (key, n) (distanceBreakdown races) ->
     (m !! key = None <-> n = 0%nat) /\
     (In (key, n) (distanceChartData races) <-> exists best, m !! key = Some best)).
Proof.
split; [|split].
- pose proof (breakdown_counts (BibBook.validRaces races)) as H.
  unfold distanceBreakdown, list_sum.
  cbn [map BibBook.distanceKeys fst snd fold_right].
  lia.
- reflexivity.
- intros m key n Hm Hin.
  destruct (BibBook_bestTimes_entries races) as (m' & Hm' & Hentries).
  rewrite Hm in Hm'. injection Hm' as <-.
  unfold distanceBreakdown in Hin. apply in_map_iff in Hin as ([k target] & [= <- <-] & Hkey).
  cbn [fst snd].
  assert (Hnone : m !! k = None <->
                  length (List.filter (fun r => near (distance r) target)
                                      (BibBook.validRaces races)) = 0%nat).
  { rewrite (Hentries k target Hkey). unfold BibBook.entry.
    fold (BibBook.distanceRaces races target).
    pose proof (bestRaceOf_returns _ _ BibBook_seconds_returns
                  (BibBook.distanceRaces races target)) as H.
    destruct (BibBook.distanceRaces races target) as [|r0 rest].
    - rewrite H. cbn. tauto.
    - destruct H as (best & _ & ->). cbn. split; [discriminate|lia]. }
  split; [exact Hnone|].
  unfold distanceChartData. rewrite filter_In. cbn [snd].
  rewrite Nat.ltb_lt. split.
  + intros [_ Hpos].
    destruct (m !! k) as [best|]; [eauto|].
    destruct Hnone as [Hn _]. specialize (Hn eq_refl). lia.
  + intros [best Hbest]. split.
    * unfold distanceBreakdown. apply in_map_iff. exists (k, target). auto.
    * destruct (Nat.eq_dec (length (List.filter (fun r => near (distance r) target)
                                                (BibBook.validRaces races))) 0%nat) as [E|E];
        [|lia].
      apply Hnone in E. congruence.
Qed.

Lemma distanceBreakdown_counts_and_bestTimes_witness :
  exists m,
    BibBook.bestTimes marathons = Returns m /\
    In ("Marathon"%string, 2%nat) (distanceBreakdown marathons) /\
    In ("Marathon"%string, 2%nat) (distanceChartData marathons) /\
    exists best, m !! "Marathon"%string = Some best.
Proof.
destruct (BibBook_bestTimes_entries marathons) as (m & Hm & _).
assert (Hin : In ("Marathon"%string, 2%nat) (distanceBreakdown marathons))
  by (left; reflexivity).
destruct (distanceBreakdown_counts_and_bestTimes marathons) as (_ & _ & H).
destruct (H m _ _ Hm Hin) as [_ Hchart].
assert (Hc : In ("Marathon"%string, 2%nat) (distanceChartData marathons))
  by (left; reflexivity).
exists m. split; [exact Hm|]. split; [exact Hin|]. split; [exact Hc|].
apply Hchart. exact Hc.
Defined.

(** ** BibBook: the average percentile *)

Lemma sumBy_bounds {A : Type} (f : A -> Q) (l : list A) :
  Forall (fun x => 0 <= f x <= 1) l ->
  0 <= JS.sumBy f l <= inject_Z (Z.of_nat (length l)).
Proof.
induction 1 as [|x l Hx _ IH].
- split; vm_compute; discriminate.
- rewrite sumBy_cons. cbn [length].
  rewrite Nat2Z.inj_succ, <- Z.add_1_r, inject_Z_plus.
  change (inject_Z 1) with 1. lra.
Qed.



(** ** BibBook: races per year *)

Lemma fold_countYear (l : list Race) (m : gmap Z nat) (y : Z) :
  (forall k, m !! k <> Some 0%nat) ->
  (forall k, fold_left countYear l m !! k <> Some 0%nat) /\
  default 0%nat (fold_left countYear l m !! y)
  = (default 0%nat (m !! y) + length (inYear y l))%nat.
Proof.
revert m. induction l as [|r l IH]; intros m Hm.
- cbn. split; [exact Hm|lia].
- cbn [fold_left].
  assert (Hstep : forall k, countYear m r !! k <> Some 0%nat).
  { intros k. unfold countYear.
    destruct (decide (getFullYear (date r) = k)) as [->|Hne].
    - rewrite lookup_insert_eq. intros [= H]. lia.
    - rewrite lookup_insert_ne by exact Hne. apply Hm. }
  destruct (IH _ Hstep) as [Hnz Hcount]. split; [exact Hnz|].
  rewrite Hcount. unfold inYear. cbn [List.filter]. unfold countYear.
  destruct (getFullYear (date r) =? y)%Z eqn:E.
  + apply Z.eqb_eq in E. rewrite E, lookup_insert_eq.
    destruct (m !! y) as [n|] eqn:Ey; cbn [default length]; unfold id.
    * destruct (n =? 0)%nat eqn:En; [|lia].
      apply Nat.eqb_eq in En. subst n. now apply Hm in Ey.
    * lia.
  + apply Z.eqb_neq in E. rewrite lookup_insert_ne by exact E. reflexivity.
Qed.

Lemma insertEntry_perm (e : Z * nat) (l : list (Z * nat)) :
  Permutation (e :: l) (insertEntry e l).
Proof.
induction l as [|x l IH]; cbn [insertEntry]; [reflexivity|].
destruct (fst e <=? fst x)%Z; [reflexivity|].
rewrite perm_swap. apply perm_skip. exact IH.
Qed.

Lemma sortEntries_perm (l : list (Z * nat)) :
  Permutation l (fold_right insertEntry [] l).
Proof.
induction l as [|x l IH]; [reflexivity|].
cbn [fold_right]. rewrite <- insertEntry_perm. apply perm_skip. exact IH.
Qed.

Lemma insertEntry_sorted (e : Z * nat) (l : list (Z * nat)) :
  StronglySorted (fun a b => (fst a <= fst b)%Z) l ->
  StronglySorted (fun a b => (fst a <= fst b)%Z) (insertEntry e l).
Proof.
induction 1 as [|x l Hl IH Hx]; cbn [insertEntry].
- repeat constructor.
- destruct (fst e <=? fst x)%Z eqn:E.
  + apply Z.leb_le in E. constructor; [constructor; assumption|].
    constructor; [exact E|].
    eapply List.Forall_impl; [|exact Hx]. cbn. intros; lia.
  + apply Z.leb_gt in E. constructor; [exact IH|].
    eapply Permutation_Forall; [apply insertEntry_perm|].
    constructor; [lia | exact Hx].
Qed.

Lemma sortEntries_sorted (l : list (Z * nat)) :
  StronglySorted (fun a b => (fst a <= fst b)%Z) (fold_right insertEntry [] l).
Proof.
induction l as [|x l IH]; [constructor|].
cbn [fold_right]. apply insertEntry_sorted. exact IH.
Qed.

(** The chart of races per year has one entry for every year in which a
    race with a time took place, the entry counts those races, years
    without a race have no entry, and the entries are in ascending order of
    year without a repeated year. *)
Theorem yearlyRaceData_counts (races : list Race) :
  (forall y n, In (y, n) (yearlyRaceData races) <->
               n = length (inYear y (BibBook.validRaces races)) /\ (0 < n)%nat) /\
  StronglySorted (fun a b => (fst a < fst b)%Z) (yearlyRaceData races).
Proof.
assert (Hlookup : forall y n, yearCounts races !! y = Some n <->
                  n = length (inYear y (BibBook.validRaces races)) /\ (0 < n)%nat).
{ intros y n. unfold yearCounts.
  destruct (fold_countYear (BibBook.validRaces races) ∅ y) as [Hnz Hcount].
  { intros k. rewrite lookup_empty. discriminate. }
  rewrite lookup_empty in Hcount. cbn [default] in Hcount.
  destruct (fold_left countYear (BibBook.validRaces races) ∅ !! y) as [v|] eqn:E;
    cbn [default] in Hcount; unfold id in Hcount.
  - split.
    + intros [= <-]. split; [lia|].
      destruct v; [now specialize (Hnz y)|lia].
    + intros [-> _]. f_equal. lia.
  - split; [discriminate|]. intros [-> Hpos]. lia. }
assert (Hperm : Permutation (map_to_list (yearCounts races)) (yearlyRaceData races))
  by apply sortEntries_perm.
split.
- intros y n. rewrite <- Hlookup, <- elem_of_map_to_list, <- list_elem_of_In.
  rewrite Hperm. reflexivity.
- assert (Hsorted : StronglySorted (fun a b => (fst a <= fst b)%Z)
                                   (yearlyRaceData races)).
  { apply sortEntries_sorted. }
  assert (Hnodup : List.NoDup (map fst (yearlyRaceData races))).
  { eapply Permutation_NoDup; [apply Permutation_map; exact Hperm|].
    apply NoDup_ListNoDup. apply NoDup_fst_map_to_list. }
  revert Hsorted Hnodup. generalize (yearlyRaceData races) as l.
  induction l as [|x l IH]; intros Hs Hn; [constructor|].
  inversion_clear Hs as [|? ? Hs' Hx]. cbn [map] in Hn.
  inversion_clear Hn as [|? ? Hnot Hn'].
  constructor; [auto|].
  apply List.Forall_forall. intros z Hz.
  rewrite List.Forall_forall in Hx. specialize (Hx z Hz).
  assert (fst x <> fst z) by (intros Heq; apply Hnot; rewrite Heq; apply in_map; exact Hz).
  lia.
Qed.

(** ** BibBook: the displayed time *)

Lemma split_pieces_free (c : ascii) (s : string) :
  Forall (fun p => JS.includes (String c EmptyString) p = false) (JS.split c s).
Proof.
induction s as [|a s IH]; cbn [JS.split].
- repeat constructor.
- destruct (Ascii.eqb a c) eqn:E.
  + constructor; [reflexivity|exact IH].
  + destruct (JS.split c s) as [|p ps].
    * constructor; [|constructor]. rewrite includes_char_cons, E. reflexivity.
    * inversion_clear IH as [|? ? Hp Hps].
      constructor; [|exact Hps].
      rewrite includes_char_cons, E, Hp. reflexivity.
Qed.

(** The time a race row displays parses to the same seconds as the race's
    own time string: [formatTime] never throws, its text holds no ['T'],
    and [timeToSeconds] of the text is [timeToSeconds] of the time. *)
Theorem formatTime_keeps_seconds (ts : option string) :
  exists text,
    BibBook.formatTime ts = Returns text /\
    JS.includes "T" text = false /\
    BibBook.timeToSeconds (Some text) = BibBook.timeToSeconds ts.
Proof.
destruct ts as [[|a s]|];
  [exists "N/A"%string; repeat split | | exists "N/A"%string; repeat split].
unfold BibBook.formatTime.
destruct (JS.includes "T" (String a s)) eqn:E.
- destruct (split_present _ _ E) as (p0 & p1 & rest & Hsplit).
  rewrite Hsplit. cbn [nth_error]. exists p1.
  assert (Hfree : JS.includes "T" p1 = false).
  { pose proof (split_pieces_free "T" (String a s)) as H. rewrite Hsplit in H.
    inversion_clear H as [|? ? _ H']. inversion_clear H' as [|? ? H1 _]. exact H1. }
  split; [reflexivity|]. split; [exact Hfree|].
  rewrite !timeToSeconds_value. unfold BibBook.timePart at 2.
  rewrite E, Hsplit. cbn [nth]. rewrite (timePart_plain p1 Hfree).
  destruct p1; reflexivity.
- exists (String a s). auto.
Qed.

(** ** SeasonStats: the averages of the season *)

(** The averages of [runningStats]: the average run distance never divides
    by zero; the average pace is 0 for a year without moving time, the
    minutes per mile of the year when it has moving time and mileage, and
    [Infinity] when it has moving time but no mileage, because the guard of
    the division looks at the hours. *)
Theorem runningStats_averages (y : Z) (activities : list Activity) :
  let year := within (SeasonStats.yearStart y) (SeasonStats.yearEnd y)
                     (runningActivities activities) in
  let miles := JS.sumBy Activities.distance year in
  let hrs := JS.sumBy Activities.hours year in
  let stats := SeasonStats.runningStats y activities in
  (exists q, SeasonStats.avgRunDistance stats = JS.Fin q) /\
  (hrs <= 0 -> SeasonStats.rawAvgPace stats = JS.Fin 0) /\
  (0 < hrs -> ~ miles == 0 ->
   SeasonStats.rawAvgPace stats = JS.Fin (hrs * 60 / miles)) /\
  (0 < hrs -> miles == 0 ->
   SeasonStats.rawAvgPace stats = JS.PInf /\
   SeasonStats.seasonAvgPace stats = JS.PInf).
Proof.
cbv zeta. unfold SeasonStats.runningStats.
cbn [SeasonStats.avgRunDistance SeasonStats.rawAvgPace SeasonStats.seasonAvgPace].
set (year := within _ _ _).
split; [|split; [|split]].
- destruct (0 <? length year)%nat eqn:E.
  + apply Nat.ltb_lt in E.
    assert (Hn : 0 < inject_Z (Z.of_nat (length year))).
    { change 0 with (inject_Z 0). rewrite <- Zlt_Qlt. lia. }
    rewrite div_finite by lra. cbn [JS.round1N]. eexists. reflexivity.
  + cbn [JS.round1N]. eexists. reflexivity.
- intros Hh. apply gtb_false in Hh. rewrite Hh. reflexivity.
- intros Hh Hm. apply gtb_true in Hh. rewrite Hh. apply div_finite. exact Hm.
- intros Hh Hm.
  assert (Hdiv : JS.div (JS.sumBy Activities.hours year * 60)
                        (JS.sumBy Activities.distance year) = JS.PInf).
  { unfold JS.div. apply Qeq_bool_iff in Hm. rewrite Hm.
    assert (H60 : JS.ltb 0 (JS.sumBy Activities.hours year * 60) = true)
      by (apply ltb_true; lra).
    rewrite H60. reflexivity. }
  apply gtb_true in Hh. rewrite Hh, Hdiv. split; reflexivity.
Qed.

Lemma runningStats_averages_witness :
  SeasonStats.rawAvgPace (SeasonStats.runningStats 2024 [treadmill]) = JS.PInf /\
  SeasonStats.seasonAvgPace (SeasonStats.runningStats 2024 [treadmill]) = JS.PInf.
Proof.
destruct (runningStats_averages 2024 [treadmill]) as (_ & _ & _ & H).
apply H; vm_compute; reflexivity.
Defined.
